(** * XRPL EVM bot: the transaction-submission core of [bot.js]

    A shallow embedding of the functions of [src/bot.js] that carry the
    retry, gas-pricing, slippage, liquidity-removal and rebalancing logic,
    together with the properties stated about them.

    Conventions of the embedding.
    - A JavaScript [BigInt] is a [Z]; BigInt [/] truncates toward zero and is
      [Z.quot].
    - A JavaScript number is an exact rational [Q].  The numbers of this
      program are decimal constants, small integers and balances parsed from
      decimal strings; [Math.round] is [floor (x + 1/2)].
    - An [async] function is a function of the responses of its
      collaborators (RPC provider, contracts), returning either a value or
      the thrown [Error]; the log of what it asked of them is an explicit
      list of events.
    - The global [activityStats] object is threaded as a record. *)

From Stdlib Require Import ZArith QArith Qround List String Bool Lia Lqa.
Import ListNotations.
Open Scope string_scope.
Open Scope list_scope.
Open Scope Z_scope.

(* ------------------------------------------------------------------ *)
(** ** JavaScript values *)

(** [new Error(message)]. *)
Inductive JsError : Type :=
| Error (message : string).

(** Outcome of an awaited call: the value, or the error it threw. *)
Inductive Result (A : Type) : Type :=
| Ok (a : A)
| Throws (e : JsError).
Arguments Ok {A} a.
Arguments Throws {A} e.

(** [Math.round(x)]: the integer nearest to [x], ties toward +infinity. *)
Definition Math_round (x : Q) : Z := Qfloor (x + (1 # 2))%Q.

(** BigInt division. *)
Definition bigint_div (a b : Z) : Z := Z.quot a b.


(** [x || d] on an optional BigInt. *)
Definition or_default (x : option Z) (d : Z) : Z :=
  match x with
  | Some v => if v =? 0 then d else v
  | None => d
  end.

(** [ethers.parseUnits(s, "gwei")] for an integer [s]. *)
Definition gwei (n : Z) : Z := n * 10 ^ 9.

(* ------------------------------------------------------------------ *)
(** ** activityStats *)

Record ActivityStats : Type := mkStats {
  totalTransactions : nat;
  swaps : nat;
  addsLiquidity : nat;
  removesLiquidity : nat;
  sendsAndReceives : nat;
  randomSends : nat;
  customContractCalls : nat;
  rebalances : nat
}.

Definition initialStats : ActivityStats := mkStats 0 0 0 0 0 0 0 0.

(** The nine statements of the program that write a counter, each [c++]. *)
Definition inc_totalTransactions (s : ActivityStats) : ActivityStats :=
  mkStats (S (totalTransactions s)) (swaps s) (addsLiquidity s)
          (removesLiquidity s) (sendsAndReceives s) (randomSends s)
          (customContractCalls s) (rebalances s).
Definition inc_swaps (s : ActivityStats) : ActivityStats :=
  mkStats (totalTransactions s) (S (swaps s)) (addsLiquidity s)
          (removesLiquidity s) (sendsAndReceives s) (randomSends s)
          (customContractCalls s) (rebalances s).
Definition inc_addsLiquidity (s : ActivityStats) : ActivityStats :=
  mkStats (totalTransactions s) (swaps s) (S (addsLiquidity s))
          (removesLiquidity s) (sendsAndReceives s) (randomSends s)
          (customContractCalls s) (rebalances s).
Definition inc_removesLiquidity (s : ActivityStats) : ActivityStats :=
  mkStats (totalTransactions s) (swaps s) (addsLiquidity s)
          (S (removesLiquidity s)) (sendsAndReceives s) (randomSends s)
          (customContractCalls s) (rebalances s).
Definition inc_sendsAndReceives (s : ActivityStats) : ActivityStats :=
  mkStats (totalTransactions s) (swaps s) (addsLiquidity s)
          (removesLiquidity s) (S (sendsAndReceives s)) (randomSends s)
          (customContractCalls s) (rebalances s).
Definition inc_randomSends (s : ActivityStats) : ActivityStats :=
  mkStats (totalTransactions s) (swaps s) (addsLiquidity s)
          (removesLiquidity s) (sendsAndReceives s) (S (randomSends s))
          (customContractCalls s) (rebalances s).
Definition inc_customContractCalls (s : ActivityStats) : ActivityStats :=
  mkStats (totalTransactions s) (swaps s) (addsLiquidity s)
          (removesLiquidity s) (sendsAndReceives s) (randomSends s)
          (S (customContractCalls s)) (rebalances s).
Definition inc_rebalances (s : ActivityStats) : ActivityStats :=
  mkStats (totalTransactions s) (swaps s) (addsLiquidity s)
          (removesLiquidity s) (sendsAndReceives s) (randomSends s)
          (customContractCalls s) (S (rebalances s)).

(* ------------------------------------------------------------------ *)
(** ** getGasPrice *)

(** What [provider.getFeeData()] resolves to; every field is a BigInt or
    [null]. *)
Record FeeData : Type := mkFeeData {
  fd_gasPrice : option Z;
  fd_maxFeePerGas : option Z;
  fd_maxPriorityFeePerGas : option Z;
  fd_lastBaseFeePerGas : option Z
}.

(** The object [getGasPrice] returns: one of its two shapes. *)
Inductive GasOptions : Type :=
| Eip1559 (maxFeePerGas maxPriorityFeePerGas : Z)
| Legacy (gasPrice : Z).

(** [let buffer = 5.0 + (retryAttempt * 1.0)]. *)
Definition buffer (retryAttempt : Z) : Q :=
  (5 + inject_Z retryAttempt * 1)%Q.

(** The body of [getGasPrice] after [feeData] has been read.  The test
    [feeData.maxFeePerGas && feeData.maxPriorityFeePerGas] holds when both
    fields are present and non-zero. *)
Definition getGasPrice_of (feeData : FeeData) (retryAttempt : Z) : GasOptions :=
  let buffer := buffer retryAttempt in
  let legacy :=
    let gasPrice := or_default (fd_gasPrice feeData) (gwei 20) in
    let bufferedGasPrice :=
      bigint_div (gasPrice * Math_round (buffer * 100)%Q) 100 in
    Legacy bufferedGasPrice in
  match fd_maxFeePerGas feeData, fd_maxPriorityFeePerGas feeData with
  | Some maxFee, Some priorityFee =>
    if negb (maxFee =? 0) && negb (priorityFee =? 0) then
      let maxPriorityFeePerGas :=
        bigint_div (priorityFee * Math_round (buffer * 100)%Q) 100 in
      let baseFee := or_default (fd_lastBaseFeePerGas feeData) (gwei 1) in
      let maxFeePerGas :=
        bigint_div (baseFee * Math_round (buffer * 100)%Q) 100
        + maxPriorityFeePerGas in
      Eip1559 maxFeePerGas maxPriorityFeePerGas
    else legacy
  | _, _ => legacy
  end.

(** [getGasPrice(retryAttempt)]: the fee-data read may throw, and the error
    is not caught here. *)
Definition getGasPrice (getFeeData : Result FeeData) (retryAttempt : Z)
  : Result GasOptions :=
  match getFeeData with
  | Ok feeData => Ok (getGasPrice_of feeData retryAttempt)
  | Throws e => Throws e
  end.

(* ------------------------------------------------------------------ *)
(** ** withRetry *)

(** A transaction receipt: [status] is 1, 0 or [null]. *)
Record Receipt : Type := mkReceipt {
  status : option Z;
  blockNumber : Z
}.

(** How the promise [tx.wait()] settles, and after how many milliseconds. *)
Inductive Settlement : Type :=
| Resolves (after_ms : Z) (receipt : option Receipt)
| Rejects (after_ms : Z) (e : JsError)
| NeverSettles.

(** What [await func(gasOptions)] evaluates to when it does not throw. *)
Inductive TxValue : Type :=
| TxFalsy
| TxWithoutHash
| TxHandle (hash : string) (wait : Settlement).

(** What a run asks of its collaborators, in order. *)
Inductive Event : Type :=
| EvGetFeeData (retryAttempt : Z)
| EvFunc (retryAttempt : Z) (gasOptions : GasOptions)
| EvTransactionSent (hash : string)
| EvAttemptFailed (attempt maxRetries : Z) (e : JsError)
| EvDelay (ms : Z)
| EvSwapThroughRetry (inTok outTok : string) (amount : Q)
| EvRebalanceFailed (e : JsError).

(** The collaborators of one [withRetry] call: what the provider answers to
    [getFeeData()] during attempt [i], and what the closure [func] does when
    it is called during attempt [i]. *)
Record RetryEnv : Type := mkRetryEnv {
  getFeeData : Z -> Result FeeData;
  func : Z -> GasOptions -> Result TxValue
}.

Definition timeoutError : JsError :=
  Error "Transaction confirmation timed out.".

(** [Promise.race([tx.wait(), <timer rejecting after confirmationTimeoutMs>])]:
    the wait wins when it settles before the timer fires; a wait that
    settles at the instant the timer fires is counted for the timer. *)
Definition race (wait : Settlement) (confirmationTimeoutMs : Z)
  : Result (option Receipt) :=
  match wait with
  | Resolves t r => if t <? confirmationTimeoutMs then Ok r else Throws timeoutError
  | Rejects t e => if t <? confirmationTimeoutMs then Throws e else Throws timeoutError
  | NeverSettles => Throws timeoutError
  end.

(** The three-way test on the receipt that closes the [try] block. *)
Definition classifyReceipt (hash : string) (receipt : option Receipt)
  : Result Receipt :=
  match receipt with
  | Some r =>
    match status r with
    | Some 1 => Ok r
    | Some 0 =>
      Throws (Error ("Transaction failed on-chain (status 0): " ++ hash)%string)
    | _ =>
      Throws (Error ("Transaction did not confirm or timed out: " ++ hash)%string)
    end
  | None =>
    Throws (Error ("Transaction did not confirm or timed out: " ++ hash)%string)
  end.

(** The [try] block of iteration [i]: the receipt it returns or the error it
    throws, with the counters and the events at that point. *)
Definition tryBlock (env : RetryEnv) (confirmationTimeoutMs i : Z)
    (stats : ActivityStats)
  : Result Receipt * ActivityStats * list Event :=
  match getGasPrice (getFeeData env i) i with
  | Throws e => (Throws e, stats, [EvGetFeeData i])
  | Ok gasOptions =>
    match func env i gasOptions with
    | Throws e => (Throws e, stats, [EvGetFeeData i; EvFunc i gasOptions])
    | Ok TxFalsy | Ok TxWithoutHash =>
      (Throws (Error "Function did not return a valid transaction object."),
       stats, [EvGetFeeData i; EvFunc i gasOptions])
    | Ok (TxHandle hash wait) =>
      let stats' := inc_totalTransactions stats in
      let evs := [EvGetFeeData i; EvFunc i gasOptions; EvTransactionSent hash] in
      match race wait confirmationTimeoutMs with
      | Throws e => (Throws e, stats', evs)
      | Ok receipt => (classifyReceipt hash receipt, stats', evs)
      end
    end
  end.

(** The [for] loop of [withRetry] from the value [i] of its counter on,
    [iterations] being the number of integers from [i] up that are below
    [maxRetries]: the loop is left by [return null] when there is none. *)
Fixpoint withRetry_loop (env : RetryEnv)
    (maxRetries initialDelayMs confirmationTimeoutMs : Z)
    (iterations : nat) (i : Z) (stats : ActivityStats)
  : Result (option Receipt) * ActivityStats * list Event :=
  match iterations with
  | O => (Ok None, stats, [])
  | S rest =>
    match tryBlock env confirmationTimeoutMs i stats with
    | (Ok receipt, stats1, evs) => (Ok (Some receipt), stats1, evs)
    | (Throws error, stats1, evs) =>
      let warn := EvAttemptFailed (i + 1) maxRetries error in
      if i <? maxRetries - 1 then
        match withRetry_loop env maxRetries initialDelayMs
                confirmationTimeoutMs rest (i + 1) stats1 with
        | (r, stats2, evs') =>
          (r, stats2, evs ++ warn :: EvDelay (initialDelayMs * (i + 1)) :: evs')
        end
      else (Throws error, stats1, evs ++ [warn])
    end
  end.

(** [withRetry(func, maxRetries, initialDelayMs, confirmationTimeoutMs)]:
    [Ok (Some receipt)] is a returned receipt, [Ok None] is [return null]. *)
Definition withRetry (env : RetryEnv)
    (maxRetries initialDelayMs confirmationTimeoutMs : Z)
    (stats : ActivityStats)
  : Result (option Receipt) * ActivityStats * list Event :=
  withRetry_loop env maxRetries initialDelayMs confirmationTimeoutMs
    (Z.to_nat maxRetries) 0 stats.

(** The call with its default arguments, [withRetry(func)]. *)
Definition withRetry_default (env : RetryEnv) (stats : ActivityStats) :=
  withRetry env 3 1000 60000 stats.

(** Readings of a trace: the sleeps, the attempts that read the fee data,
    the attempts that called the closure. *)
Definition delays (t : list Event) : list Z :=
  flat_map (fun e => match e with EvDelay ms => [ms] | _ => [] end) t.
Definition feeReads (t : list Event) : list Z :=
  flat_map (fun e => match e with EvGetFeeData i => [i] | _ => [] end) t.
Definition funcCalls (t : list Event) : list Z :=
  flat_map (fun e => match e with EvFunc i _ => [i] | _ => [] end) t.

(* ------------------------------------------------------------------ *)
(** ** Configuration constants of bot.js *)

(** [Object.keys(TOKENS)] with the addresses, in insertion order. *)
Definition TOKENS : list (string * string) :=
  [ ("WXRP", "0x81Be083099c2C65b062378E74Fa8469644347BB7");
    ("RISE", "0x0c28777DEebe4589e83EF2Dc7833354e6a0aFF85");
    ("RIBBIT", "0x3D757474472f8F2A66Bdc1b51e4C4D11E813C16c") ].

Definition REBALANCE_THRESHOLDS : list (string * Q) :=
  [ ("XRP", 1 # 100); ("RISE", 5 # 1000); ("RIBBIT", 5 # 1000) ]%Q.

Definition ROUTER_ADDRESS : string :=
  "0xF16A31764C91805B6C8E1D488941E41A86531880".

Definition GAS_LIMIT_COMPLEX : Z := 800000.

Definition SLIPPAGE_TOLERANCE_PERCENT : Q := 5 # 10.

(** [obj[key]]: [None] is [undefined]. *)
Fixpoint js_get {A : Type} (obj : list (string * A)) (key : string) : option A :=
  match obj with
  | [] => None
  | (k, v) :: rest => if String.eqb k key then Some v else js_get rest key
  end.

Definition js_keys {A : Type} (obj : list (string * A)) : list string :=
  map fst obj.

(** [a < b] and [a <= b] on numbers. *)
Definition Qltb (a b : Q) : bool := negb (Qle_bool b a).
Definition Qleb (a b : Q) : bool := Qle_bool a b.

(** [x.toFixed(4)], read back as the number the string denotes:
    [n / 10^4] for the integer [n] nearest to [|x| * 10^4], the larger one on
    a tie, with the sign of [x]. *)
Definition toFixed4 (x : Q) : Q :=
  if Qltb x 0
  then (- (inject_Z (Qfloor (- x * 10000 + (1 # 2))) / 10000))%Q
  else (inject_Z (Qfloor (x * 10000 + (1 # 2))) / 10000)%Q.

(** [ethers.parseUnits(amount, decimals)] on the decimal [amount]: the
    integer [amount * 10^decimals], an error when digits would be lost. *)
Definition parseUnits (amount : Q) (decimals : Z) : Result Z :=
  let scaled := Qred (amount * inject_Z (10 ^ decimals)) in
  if (Qden scaled =? 1)%positive then Ok (Qnum scaled)
  else Throws (Error "too many decimals for format").

(** [parseFloat(ethers.formatUnits(wei, 'ether'))]. *)
Definition formatEther (wei : Z) : Q := (inject_Z wei / inject_Z (10 ^ 18))%Q.

Definition bind {A B : Type} (r : Result A) (k : A -> Result B) : Result B :=
  match r with
  | Ok a => k a
  | Throws e => Throws e
  end.

Notation "'let?' x ':=' r 'in' k" := (bind r (fun x => k))
  (at level 10, x name, r at level 100, k at level 200).

(* ------------------------------------------------------------------ *)
(** ** performSwap *)

(** The write calls on the router. *)
Inductive RouterCall : Type :=
| swapExactETHForTokens (amountOutMin : Z) (path : list string) (value : Z)
    (gasOptions : GasOptions)
| swapExactTokensForETH (amountIn amountOutMin : Z) (path : list string)
    (gasOptions : GasOptions)
| swapExactTokensForTokens (amountIn amountOutMin : Z) (path : list string)
    (gasOptions : GasOptions)
| removeLiquidityETH (token : string) (liquidity : Z)
    (gasOptions : GasOptions).

(** A write call made by an executor: an approval, or the router call. *)
Inductive Submission : Type :=
| SubApprove (spender : string) (amount : Z)
| SubRouter (call : RouterCall).

(** The collaborators of one [performSwap] call, in the order it consults
    them.  [sw_approve] stands for [approve(...)] followed by
    [approvalTx.wait()], which confirms or throws. *)
Record SwapEnv : Type := mkSwapEnv {
  sw_inTokBalance : Result Q;
  sw_inTokenDecimals : Result Z;
  sw_getAmountsOut : Z -> list string -> Result (list Z);
  sw_outTokenDecimals : Result Z;
  sw_xrpBalance : Result Q;
  sw_allowance : Result Z;
  sw_approve : Z -> Result unit;
  sw_router : RouterCall -> Result TxValue
}.

(** [direction === "AtoB" ? [A, B] : [B, A]]. *)
Definition swapDirection (pair : string * string) (direction : string)
  : string * string :=
  if String.eqb direction "AtoB" then (fst pair, snd pair)
  else (snd pair, fst pair).

(** The address a symbol has in the swap path. *)
Definition pathAddress (sym : string) : option string :=
  if String.eqb sym "XRP" then js_get TOKENS "WXRP" else js_get TOKENS sym.

(** Lines 624-664: balance check, path, raw input amount. *)
Definition swapPreflight (env : SwapEnv) (inTokSymbol outTokSymbol : string)
    (amount : Q) : Result (Z * list string) :=
  let? currentInTokBalance := sw_inTokBalance env in
  if Qltb currentInTokBalance amount then
    Throws (Error ("Insufficient " ++ inTokSymbol ++ " balance.")%string)
  else
    match pathAddress inTokSymbol, pathAddress outTokSymbol with
    | Some inTokenAddress, Some outTokenAddress =>
      let path := [inTokenAddress; outTokenAddress] in
      let? amountInRaw :=
        if String.eqb inTokSymbol "XRP" then parseUnits amount 18
        else (let? inTokenDecimals := sw_inTokenDecimals env in
              parseUnits amount inTokenDecimals) in
      if amountInRaw <=? 0 then
        Throws (Error ("Swap amount for " ++ inTokSymbol
                       ++ " must be positive.")%string)
      else Ok (amountInRaw, path)
    | _, _ =>
      Throws (Error ("Invalid token address in swap path. Check TOKENS map for "
                     ++ inTokSymbol ++ " and " ++ outTokSymbol ++ ".")%string)
    end.

(** [BigInt(Math.round(SLIPPAGE_TOLERANCE_PERCENT * 100))]. *)
Definition SLIPPAGE_TOLERANCE_DENOMINATOR : Z :=
  Math_round (SLIPPAGE_TOLERANCE_PERCENT * 100)%Q.

(** The body of the [try] block of lines 666-675: the quote, the floor, and
    the decimals of the output token read for the two log lines. *)
Definition quoteBlock (env : SwapEnv) (amountInRaw : Z) (path : list string)
    (outTokSymbol : string) : Result Z :=
  let? amounts := sw_getAmountsOut env amountInRaw path in
  match nth_error amounts 1 with
  | None => Throws (Error "Cannot mix BigInt and other types, use explicit conversions")
  | Some expectedAmountOutRaw =>
    let amountOutMin :=
      bigint_div (expectedAmountOutRaw
                  * (10000 - SLIPPAGE_TOLERANCE_DENOMINATOR)) 10000 in
    let? outTokenDecimals :=
      if String.eqb outTokSymbol "XRP" then Ok 18
      else sw_outTokenDecimals env in
    Ok amountOutMin
  end.

(** Lines 648 and 666-679: [amountOutMin] after the [try]/[catch]. *)
Definition estimateAmountOutMin (env : SwapEnv) (amountInRaw : Z)
    (path : list string) (outTokSymbol : string) : Z :=
  match quoteBlock env amountInRaw path outTokSymbol with
  | Ok amountOutMin => amountOutMin
  | Throws err => 0
  end.

(** The fee per gas unit used for the cost estimate:
    [gasOptions.maxFeePerGas ? gasOptions.maxFeePerGas * L : gasOptions.gasPrice * L]. *)
Definition estimatedGasCost (gasOptions : GasOptions) : Result Q :=
  match gasOptions with
  | Eip1559 maxFeePerGas _ =>
    if maxFeePerGas =? 0
    then Throws (Error "Cannot mix BigInt and other types, use explicit conversions")
    else Ok (formatEther (maxFeePerGas * GAS_LIMIT_COMPLEX))
  | Legacy gasPrice => Ok (formatEther (gasPrice * GAS_LIMIT_COMPLEX))
  end.

(** Lines 681-709: the final checks, the approval when needed, and the
    router call; the transactions handed to the network are listed. *)
Definition swapSubmit (env : SwapEnv) (inTokSymbol outTokSymbol : string)
    (amount : Q) (amountInRaw amountOutMin : Z) (path : list string)
    (gasOptions : GasOptions) : Result TxValue * list Submission :=
  if String.eqb inTokSymbol "XRP" then
    match sw_xrpBalance env with
    | Throws e => (Throws e, [])
    | Ok currentXRPBalance =>
      match estimatedGasCost gasOptions with
      | Throws e => (Throws e, [])
      | Ok cost =>
        if Qltb currentXRPBalance (amount + cost) then
          (Throws (Error "Insufficient XRP for value + gas."), [])
        else
          let call := swapExactETHForTokens amountOutMin path amountInRaw
                        gasOptions in
          (sw_router env call, [SubRouter call])
      end
    end
  else
    match sw_allowance env with
    | Throws e => (Throws e, [])
    | Ok currentAllowance =>
      let call :=
        if String.eqb outTokSymbol "XRP"
        then swapExactTokensForETH amountInRaw amountOutMin path gasOptions
        else swapExactTokensForTokens amountInRaw amountOutMin path gasOptions in
      if currentAllowance <? amountInRaw then
        match sw_approve env amountInRaw with
        | Throws e => (Throws e, [SubApprove ROUTER_ADDRESS amountInRaw])
        | Ok _ =>
          (sw_router env call,
           [SubApprove ROUTER_ADDRESS amountInRaw; SubRouter call])
        end
      else (sw_router env call, [SubRouter call])
    end.

(** [performSwap(wallet, pair, amount, direction, gasOptions)]. *)
Definition performSwap (env : SwapEnv) (pair : string * string) (amount : Q)
    (direction : string) (gasOptions : GasOptions)
  : Result TxValue * list Submission :=
  let (inTokSymbol, outTokSymbol) := swapDirection pair direction in
  match swapPreflight env inTokSymbol outTokSymbol amount with
  | Throws e => (Throws e, [])
  | Ok (amountInRaw, path) =>
    let amountOutMin :=
      estimateAmountOutMin env amountInRaw path outTokSymbol in
    swapSubmit env inTokSymbol outTokSymbol amount amountInRaw amountOutMin
      path gasOptions
  end.

(* ------------------------------------------------------------------ *)
(** ** performRemoveLiquidity *)

Record RemoveLiquidityConfig : Type := mkRemoveCfg {
  removeAmountPercentage : Z;
  lpTokenName : string
}.

(** [TOKEN_AMOUNT_CONFIG.REMOVE_LIQUIDITY_CONFIG]. *)
Definition REMOVE_LIQUIDITY_CONFIG : RemoveLiquidityConfig :=
  mkRemoveCfg 50 "RISE".

(** The collaborators of one [performRemoveLiquidity] call. *)
Record LiquidityEnv : Type := mkLiquidityEnv {
  lp_balanceOf : Result Z;
  lp_allowance : Result Z;
  lp_approve : Z -> Result unit;
  lp_router : RouterCall -> Result TxValue
}.

(** [performRemoveLiquidity(wallet, cfg, gasOptions)]. *)
Definition performRemoveLiquidity (env : LiquidityEnv)
    (cfg : RemoveLiquidityConfig) (gasOptions : GasOptions)
  : Result TxValue * list Submission :=
  match js_get TOKENS (lpTokenName cfg) with
  | None =>
    (Throws (Error ("Token address not found for symbol: "
                    ++ lpTokenName cfg)%string), [])
  | Some tokenAddress =>
    match lp_balanceOf env with
    | Throws e => (Throws e, [])
    | Ok lpBalance =>
      if lpBalance =? 0 then
        (Throws (Error ("No LP tokens for " ++ lpTokenName cfg)%string), [])
      else
        let lpAmountToRemove :=
          bigint_div (lpBalance * removeAmountPercentage cfg) 100 in
        if lpAmountToRemove =? 0 then
          (Throws (Error "Calculated LP amount to remove is zero."), [])
        else
          match lp_allowance env with
          | Throws e => (Throws e, [])
          | Ok currentAllowance =>
            let call :=
              removeLiquidityETH tokenAddress lpAmountToRemove gasOptions in
            if currentAllowance <? lpAmountToRemove then
              match lp_approve env lpAmountToRemove with
              | Throws e =>
                (Throws e, [SubApprove ROUTER_ADDRESS lpAmountToRemove])
              | Ok _ =>
                (lp_router env call,
                 [SubApprove ROUTER_ADDRESS lpAmountToRemove; SubRouter call])
              end
            else (lp_router env call, [SubRouter call])
          end
    end
  end.

(* ------------------------------------------------------------------ *)
(** ** checkAndRebalance *)

(** What one [checkAndRebalance] call sees of the chain:
    [parseFloat(walletBalances[sym])] for the object [getWalletBalances]
    returned (it holds "XRP" and every key of [TOKENS]), and, for a swap of
    [amount] from [inTok] to [outTok], the fee data and the collaborators of
    [performSwap] during attempt [i] of the retry. *)
Record World : Type := mkWorld {
  w_balance : string -> Q;
  w_feeData : string -> string -> Q -> Z -> Result FeeData;
  w_swapEnv : string -> string -> Q -> Z -> SwapEnv
}.

(** [withRetry(async (gasOptions) => performSwap(wallet, [inTok, outTok],
    amount, "AtoB", gasOptions))]. *)
Definition swapRetryEnv (w : World) (inTok outTok : string) (amount : Q)
  : RetryEnv :=
  mkRetryEnv (w_feeData w inTok outTok amount)
    (fun i gasOptions =>
       fst (performSwap (w_swapEnv w inTok outTok amount i) (inTok, outTok)
              amount "AtoB" gasOptions)).

Definition swapThroughRetry (w : World) (inTok outTok : string) (amount : Q)
    (stats : ActivityStats)
  : Result (option Receipt) * ActivityStats * list Event :=
  match withRetry_default (swapRetryEnv w inTok outTok amount) stats with
  | (r, stats1, evs) => (r, stats1, EvSwapThroughRetry inTok outTok amount :: evs)
  end.

(** [REBALANCE_THRESHOLDS.XRP]. *)
Definition threshold_XRP : Q :=
  match js_get REBALANCE_THRESHOLDS "XRP" with
  | Some t => t
  | None => 0
  end.

(** The [for] loop of lines 1008-1027 over the remaining [tokens]: whether
    [rebalanced] was set, or the error that left the loop. *)
Fixpoint rebalanceXRP_loop (w : World) (tokens : list string)
    (stats : ActivityStats)
  : Result bool * ActivityStats * list Event :=
  match tokens with
  | [] => (Ok false, stats, [])
  | tokenSymbol :: rest =>
    if String.eqb tokenSymbol "XRP"
       || Qltb (w_balance w tokenSymbol) (threshold_XRP * 2)
    then rebalanceXRP_loop w rest stats
    else
      let amountToSwap := toFixed4 (w_balance w tokenSymbol * (5 # 100)) in
      if Qleb amountToSwap 0 then rebalanceXRP_loop w rest stats
      else
        match swapThroughRetry w tokenSymbol "XRP" amountToSwap stats with
        | (Throws e, stats1, evs) => (Throws e, stats1, evs)
        | (Ok (Some receipt), stats1, evs) =>
          (Ok true, inc_rebalances stats1, evs)
        | (Ok None, stats1, evs) =>
          match rebalanceXRP_loop w rest stats1 with
          | (r, stats2, evs') => (r, stats2, evs ++ evs')
          end
        end
  end.

(** The [for] loop of lines 1038-1068 over the remaining keys of
    [REBALANCE_THRESHOLDS]. *)
Fixpoint rebalanceTokens_loop (w : World) (thresholds : list (string * Q))
    (stats : ActivityStats) : ActivityStats * list Event :=
  match thresholds with
  | [] => (stats, [])
  | (tokenSymbol, threshold) :: rest =>
    if String.eqb tokenSymbol "XRP" then rebalanceTokens_loop w rest stats
    else
      let currentBalance := w_balance w tokenSymbol in
      if Qltb currentBalance threshold then
        if Qltb (threshold_XRP * 2) (w_balance w "XRP") then
          let amountToSwapXRP := toFixed4 (w_balance w "XRP" * (1 # 100)) in
          if Qleb amountToSwapXRP 0 then rebalanceTokens_loop w rest stats
          else
            match swapThroughRetry w "XRP" tokenSymbol amountToSwapXRP stats with
            | (Throws e, stats1, evs) => (stats1, evs ++ [EvRebalanceFailed e])
            | (Ok (Some receipt), stats1, evs) => (inc_rebalances stats1, evs)
            | (Ok None, stats1, evs) => (stats1, evs)
            end
        else (stats, [])
      else rebalanceTokens_loop w rest stats
  end.

(** [checkAndRebalance(wallet)]. *)
Definition checkAndRebalance (w : World) (stats : ActivityStats)
  : ActivityStats * list Event :=
  if Qltb (w_balance w "XRP") threshold_XRP then
    match rebalanceXRP_loop w (js_keys TOKENS) stats with
    | (Throws e, stats1, evs) => (stats1, evs ++ [EvRebalanceFailed e])
    | (Ok _, stats1, evs) => (stats1, evs)
    end
  else rebalanceTokens_loop w REBALANCE_THRESHOLDS stats.

(** The swaps a run put through [withRetry]. *)
Definition swapsRequested (t : list Event) : list (string * string * Q) :=
  flat_map (fun e => match e with
                     | EvSwapThroughRetry i o a => [(i, o, a)]
                     | _ => []
                     end) t.

(* ------------------------------------------------------------------ *)
(** ** startRandomLoop: one wallet of one cycle *)

Inductive Action : Type :=
| SWAP | ADD_LIQUIDITY | REMOVE_LIQUIDITY | SEND_AND_RECEIVE | RANDOM_SEND
| CUSTOM_CONTRACT_CALL.

(** [CUSTOM_CONTRACTS_TO_INTERACT_WITH.length]. *)
Definition CUSTOM_CONTRACTS_COUNT : nat := 0.

(** What one pass through the [try] block of lines 1109-1193 sees: the
    chain as [checkAndRebalance] sees it, the action and the token drawn,
    the amount [getCalculatedAmount] returned, and the collaborators of the
    closure given to [withRetry] for an action other than a swap. *)
Record PassWorld : Type := mkPassWorld {
  pw_world : World;
  pw_action : Action;
  pw_tokenToSwapWith : string;
  pw_swapAmount : Q;
  pw_closure : RetryEnv
}.

(** [receipt = await withRetry(...); if (receipt) activityStats.c++]. *)
Definition countIfReceipt (inc : ActivityStats -> ActivityStats)
    (run : Result (option Receipt) * ActivityStats * list Event)
  : Result (option Receipt) * ActivityStats * list Event :=
  match run with
  | (Ok (Some receipt), stats1, evs) => (Ok (Some receipt), inc stats1, evs)
  | other => other
  end.

(** The [switch (action)] of lines 1117-1180, for [customContracts]
    configured custom contracts: the value of [receipt] after it, or the
    error that left it. *)
Definition startRandomLoop_switch (customContracts : nat) (pw : PassWorld)
    (stats : ActivityStats)
  : Result (option Receipt) * ActivityStats * list Event :=
  match pw_action pw with
  | SWAP =>
    if (List.length (filter (fun t => negb (String.eqb t "XRP")) (js_keys TOKENS))
        =? 0)%nat
    then (Throws (Error "No other tokens for swap."), stats, [])
    else if Qltb 0 (pw_swapAmount pw) then
      countIfReceipt inc_swaps
        (swapThroughRetry (pw_world pw) "XRP" (pw_tokenToSwapWith pw)
           (pw_swapAmount pw) stats)
    else (Ok None, stats, [])
  | ADD_LIQUIDITY =>
    countIfReceipt inc_addsLiquidity (withRetry_default (pw_closure pw) stats)
  | REMOVE_LIQUIDITY =>
    countIfReceipt inc_removesLiquidity (withRetry_default (pw_closure pw) stats)
  | SEND_AND_RECEIVE =>
    countIfReceipt inc_sendsAndReceives (withRetry_default (pw_closure pw) stats)
  | RANDOM_SEND =>
    countIfReceipt inc_randomSends (withRetry_default (pw_closure pw) stats)
  | CUSTOM_CONTRACT_CALL =>
    if (0 <? customContracts)%nat then
      countIfReceipt inc_customContractCalls
        (withRetry_default (pw_closure pw) stats)
    else (Ok None, stats, [])
  end.

(** One pass through the [try] block: [true] when [actionSuccessful] was
    set, [false] when the block threw. *)
Definition startRandomLoop_try (customContracts : nat) (pw : PassWorld)
    (stats : ActivityStats) : bool * ActivityStats * list Event :=
  match checkAndRebalance (pw_world pw) stats with
  | (stats1, evs) =>
    match startRandomLoop_switch customContracts pw stats1 with
    | (Ok (Some receipt), stats2, evs') => (true, stats2, evs ++ evs')
    | (_, stats2, evs') => (false, stats2, evs ++ evs')
    end
  end.

(** The [while (!actionSuccessful && retriesLeft > 0)] loop of one wallet;
    the [k]-th pass sees [passes k]. *)
Fixpoint startRandomLoop_while (customContracts : nat) (passes : nat -> PassWorld)
    (retriesLeft : nat) (k : nat) (stats : ActivityStats)
  : ActivityStats * list Event :=
  match retriesLeft with
  | O => (stats, [])
  | S retriesLeft' =>
    match startRandomLoop_try customContracts (passes k) stats with
    | (true, stats1, evs) => (stats1, evs)
    | (false, stats1, evs) =>
      match startRandomLoop_while customContracts passes retriesLeft' (S k) stats1 with
      | (stats2, evs') =>
        (stats2, evs ++ (if (0 <? retriesLeft')%nat then [EvDelay 5000] else []) ++ evs')
      end
    end
  end.

(** The body of [for (const wallet of wallets)] in [startRandomLoop]. *)
Definition startRandomLoop_wallet (passes : nat -> PassWorld) (stats : ActivityStats)
  : ActivityStats * list Event :=
  startRandomLoop_while CUSTOM_CONTRACTS_COUNT passes 3 0 stats.

(* ------------------------------------------------------------------ *)
(** ** Vocabulary of the statements *)

(** The three components of a run. *)
Definition run_result {A : Type} (run : A * ActivityStats * list Event) : A :=
  fst (fst run).
Definition run_stats {A : Type} (run : A * ActivityStats * list Event)
  : ActivityStats := snd (fst run).
Definition run_trace {A : Type} (run : A * ActivityStats * list Event)
  : list Event := snd run.

(** [start, start + 1, ..., start + len - 1]. *)
Fixpoint Zseq (start : Z) (len : nat) : list Z :=
  match len with
  | O => []
  | S len' => start :: Zseq (start + 1) len'
  end.

(** The fields of a gas quote. *)
Definition quoteFields (g : GasOptions) : list Z :=
  match g with
  | Eip1559 maxFeePerGas maxPriorityFeePerGas =>
    [maxFeePerGas; maxPriorityFeePerGas]
  | Legacy gasPrice => [gasPrice]
  end.

(** Fee data as decoded from the RPC: the quantities present are unsigned. *)
Definition nonneg_field (x : option Z) : Prop :=
  match x with
  | Some v => 0 <= v
  | None => True
  end.
Definition feeData_unsigned (fd : FeeData) : Prop :=
  nonneg_field (fd_gasPrice fd) /\ nonneg_field (fd_maxFeePerGas fd) /\
  nonneg_field (fd_maxPriorityFeePerGas fd) /\
  nonneg_field (fd_lastBaseFeePerGas fd).






(** Attempt [i] reaches the network: the fee data is read and the closure
    returns an object with a hash. *)
Definition sendsTransaction (env : RetryEnv) (i : Z) : bool :=
  match getGasPrice (getFeeData env i) i with
  | Ok gasOptions =>
    match func env i gasOptions with
    | Ok (TxHandle _ _) => true
    | _ => false
    end
  | Throws _ => false
  end.

(** How the [try] block of attempt [i] ends, and what it asks. *)
Definition tryResult (env : RetryEnv) (confirmationTimeoutMs i : Z)
  : Result Receipt :=
  run_result (tryBlock env confirmationTimeoutMs i initialStats).
Definition tryTrace (env : RetryEnv) (confirmationTimeoutMs i : Z)
  : list Event :=
  run_trace (tryBlock env confirmationTimeoutMs i initialStats).

(** The timer of the race fires before [tx.wait()] settles. *)
Definition timerWins (wait : Settlement) (confirmationTimeoutMs : Z) : Prop :=
  match wait with
  | Resolves t _ => confirmationTimeoutMs <= t
  | Rejects t _ => confirmationTimeoutMs <= t
  | NeverSettles => True
  end.


(** The counters other than [totalTransactions] agree. *)
Definition sameOtherCounters (s s' : ActivityStats) : Prop :=
  swaps s' = swaps s /\ addsLiquidity s' = addsLiquidity s /\
  removesLiquidity s' = removesLiquidity s /\
  sendsAndReceives s' = sendsAndReceives s /\
  randomSends s' = randomSends s /\
  customContractCalls s' = customContractCalls s /\
  rebalances s' = rebalances s.

(** [c++] performed [n] times on [totalTransactions]. *)
Definition add_totalTransactions (n : nat) (s : ActivityStats) : ActivityStats :=
  Nat.iter n inc_totalTransactions s.

(** Concrete collaborators used to exercise the statements. *)
Definition feeData_eip1559 : FeeData :=
  mkFeeData (Some 7) (Some 100) (Some 150) None.
Definition feeData_legacy : FeeData :=
  mkFeeData (Some 7) None None None.
Definition receipt_success : Receipt := mkReceipt (Some 1) 42.

(** A closure whose first transaction is never confirmed and whose second
    one is confirmed after 10 ms. *)
Definition env_timeout_then_success : RetryEnv :=
  mkRetryEnv (fun _ => Ok feeData_eip1559)
    (fun i _ =>
       if i =? 0 then Ok (TxHandle "0xaa" NeverSettles)
       else Ok (TxHandle "0xbb" (Resolves 10 (Some receipt_success)))).

(** A closure confirmed at once. *)
Definition env_success : RetryEnv :=
  mkRetryEnv (fun _ => Ok feeData_eip1559)
    (fun _ _ => Ok (TxHandle "0xbb" (Resolves 10 (Some receipt_success)))).

(** A closure that throws before sending, on every call. *)
Definition insufficientBalance : JsError := Error "Insufficient RISE balance.".
Definition env_insufficient : RetryEnv :=
  mkRetryEnv (fun _ => Ok feeData_eip1559) (fun _ _ => Throws insufficientBalance).

(** C2 as the spec states it, at one call: the counter is untouched, the
    closure's error is surfaced, and exactly one attempt is made, without
    a backoff sleep. *)
Definition C2_as_stated_at (env : RetryEnv)
    (maxRetries initialDelayMs confirmationTimeoutMs : Z)
    (stats : ActivityStats) (e : JsError) : Prop :=
  let run := withRetry env maxRetries initialDelayMs confirmationTimeoutMs
               stats in
  totalTransactions (run_stats run) = totalTransactions stats /\
  run_result run = Throws e /\
  funcCalls (run_trace run) = [0] /\
  delays (run_trace run) = [].

(** Spec 4.3, in its words: the floor [expected * (10000 - toleranceBps) /
    10000], in truncating integer arithmetic. *)
Definition slippageFloor_spec (expected toleranceBps : Z) : Z :=
  Z.quot (expected * (10000 - toleranceBps)) 10000.

(** Spec 4.3, in its words: [balance * percentage / 100]. *)
Definition burnAmount_spec (balance percentage : Z) : Z :=
  Z.quot (balance * percentage) 100.

(** C6 as the spec states it, at one quote: once the quote call has
    answered, the floor is the formula applied to the expected output. *)
Definition C6_as_stated_at (env : SwapEnv) (amountInRaw : Z)
    (path : list string) (outTokSymbol : string) : Prop :=
  forall amounts expected,
    sw_getAmountsOut env amountInRaw path = Ok amounts ->
    nth_error amounts 1 = Some expected ->
    estimateAmountOutMin env amountInRaw path outTokSymbol
    = slippageFloor_spec expected 50.

(** A swap of 0.001 XRP for RISE quoted at 1,000,000 units, the wallet
    holding 1 XRP. *)
Definition swapEnv_quoted : SwapEnv :=
  mkSwapEnv (Ok 1%Q) (Ok 18) (fun _ _ => Ok [10 ^ 15; 1000000]) (Ok 18)
    (Ok 1%Q) (Ok 0) (fun _ => Ok tt)
    (fun _ => Ok (TxHandle "0xcc" (Resolves 5 (Some receipt_success)))).

(** The same swap when the [decimals()] read of the output token, made for
    the log lines, fails. *)
Definition swapEnv_decimals_fail : SwapEnv :=
  mkSwapEnv (Ok 1%Q) (Ok 18) (fun _ _ => Ok [10 ^ 15; 1000000])
    (Throws (Error "could not decode result data"))
    (Ok 1%Q) (Ok 0) (fun _ => Ok tt)
    (fun _ => Ok (TxHandle "0xcc" (Resolves 5 (Some receipt_success)))).

(** The same swap when the quote call fails. *)
Definition swapEnv_quote_fails : SwapEnv :=
  mkSwapEnv (Ok 1%Q) (Ok 18)
    (fun _ _ => Throws (Error "missing revert data")) (Ok 18)
    (Ok 1%Q) (Ok 0) (fun _ => Ok tt)
    (fun _ => Ok (TxHandle "0xcc" (Resolves 5 (Some receipt_success)))).

Definition path_XRP_RISE : list string :=
  [ "0x81Be083099c2C65b062378E74Fa8469644347BB7";
    "0x0c28777DEebe4589e83EF2Dc7833354e6a0aFF85" ].

(** A wallet holding 1,000,000 units of the pool-share token. *)
Definition liquidityEnv_million : LiquidityEnv :=
  mkLiquidityEnv (Ok 1000000) (Ok 0) (fun _ => Ok tt)
    (fun _ => Ok (TxHandle "0xdd" (Resolves 5 (Some receipt_success)))).

(** A wallet holding none. *)
Definition liquidityEnv_empty : LiquidityEnv :=
  mkLiquidityEnv (Ok 0) (Ok 0) (fun _ => Ok tt)
    (fun _ => Ok (TxHandle "0xdd" (Resolves 5 (Some receipt_success)))).


(** What the loop of lines 1008-1027 requires of a donor: not XRP, a
    balance of at least double the threshold of XRP, and a positive amount
    once 5% of it is rounded to four decimals. *)
Definition donor_bot (w : World) (sym : string) : bool :=
  negb (String.eqb sym "XRP" || Qltb (w_balance w sym) (threshold_XRP * 2))
  && negb (Qleb (toFixed4 (w_balance w sym * (5 # 100))) 0).



(** The writes to a counter: one constructor for each statement [c++] of
    the program (line 528; lines 1023 and 1058; lines 1132, 1143, 1151,
    1159, 1167 and 1175). *)
Inductive step : ActivityStats -> ActivityStats -> Prop :=
| step_totalTransactions s : step s (inc_totalTransactions s)
| step_rebalances s : step s (inc_rebalances s)
| step_swaps s : step s (inc_swaps s)
| step_addsLiquidity s : step s (inc_addsLiquidity s)
| step_removesLiquidity s : step s (inc_removesLiquidity s)
| step_sendsAndReceives s : step s (inc_sendsAndReceives s)
| step_randomSends s : step s (inc_randomSends s)
| step_customContractCalls s : step s (inc_customContractCalls s).

(** Zero or more writes in a row. *)
Inductive steps : ActivityStats -> ActivityStats -> Prop :=
| steps_refl s : steps s s
| steps_step s1 s2 s3 : steps s1 s2 -> step s2 s3 -> steps s1 s3.

Definition counters (s : ActivityStats) : list nat :=
  [ totalTransactions s; swaps s; addsLiquidity s; removesLiquidity s;
    sendsAndReceives s; randomSends s; customContractCalls s; rebalances s ].

(** Each counter is as it was or one more. *)
Definition unchanged_or_incremented (s s' : ActivityStats) : Prop :=
  Forall2 (fun a b => b = a \/ b = S a) (counters s) (counters s').

(** No counter is smaller than it was. *)
Definition nondecreasing (s s' : ActivityStats) : Prop :=
  Forall2 le (counters s) (counters s').

(* ------------------------------------------------------------------ *)
(** ** Further vocabulary *)

(** The fee-data read of attempt [i] answers. *)
Definition feeAnswers (getFeeData : Z -> Result FeeData) (i : Z) : bool :=
  match getFeeData i with
  | Ok _ => true
  | Throws _ => false
  end.
Definition feeDataRead (env : RetryEnv) (i : Z) : bool :=
  feeAnswers (getFeeData env) i.

(** A fee-data answer with another [maxFeePerGas]. *)
Definition with_maxFeePerGas (fd : FeeData) (m : option Z) : FeeData :=
  mkFeeData (fd_gasPrice fd) m (fd_maxPriorityFeePerGas fd)
    (fd_lastBaseFeePerGas fd).


(* ------------------------------------------------------------------ *)
(** ** selectWeightedAction *)

(** [ACTION_PROBABILITIES], in insertion order. *)
Definition ACTION_PROBABILITIES : list (Action * Q) :=
  [ (SWAP, 40); (ADD_LIQUIDITY, 20); (REMOVE_LIQUIDITY, 10);
    (SEND_AND_RECEIVE, 15); (RANDOM_SEND, 15) ]%Q.

(** The [for (const action in ACTION_PROBABILITIES)] loop over the
    remaining entries; [SWAP] is the fallback returned after it. *)
Fixpoint selectWeightedAction_loop (probabilities : list (Action * Q))
    (rand cumulativeProbability : Q) : Action :=
  match probabilities with
  | [] => SWAP
  | (action, p) :: rest =>
    let cumulativeProbability := (cumulativeProbability + p)%Q in
    if Qltb rand cumulativeProbability then action
    else selectWeightedAction_loop rest rand cumulativeProbability
  end.

(** [selectWeightedAction()], [random] being the value of [Math.random()]. *)
Definition selectWeightedAction (random : Q) : Action :=
  selectWeightedAction_loop ACTION_PROBABILITIES (random * 100) 0.

(** The sum of a list of numbers. *)
Fixpoint sumQ (l : list Q) : Q :=
  match l with
  | [] => 0
  | x :: rest => (x + sumQ rest)%Q
  end.

(* ------------------------------------------------------------------ *)
(** ** The older copy of the bot, src/unnamed/part_000 *)

Module Part000.


(** The first loop of [selectWeightedAction(weights)]. *)
Definition totalWeight (weights : list (string * Q)) : Q :=
  fold_left (fun acc entry => (acc + snd entry)%Q) weights 0%Q.

(** Its second loop over the remaining entries; [None] is [null]. *)
Fixpoint selectWeightedAction_loop (weights : list (string * Q))
    (randomNum : Q) : option string :=
  match weights with
  | [] => None
  | (action, w) :: rest =>
    let randomNum := (randomNum - w)%Q in
    if Qleb randomNum 0 then Some action
    else selectWeightedAction_loop rest randomNum
  end.

(** [selectWeightedAction(weights)], [random] being the value of
    [Math.random()]. *)
Definition selectWeightedAction (weights : list (string * Q)) (random : Q)
  : option string :=
  selectWeightedAction_loop weights (random * totalWeight weights).

(** Line 328: the floor computed from the quote. *)
Definition amountOutMin_of_quote (expectedAmountOutRaw : Z) : Z :=
  expectedAmountOutRaw
  - bigint_div (expectedAmountOutRaw * SLIPPAGE_TOLERANCE_DENOMINATOR) 10000.

(** What the closure given to [withRetry] resolves to: [undefined]
    ([None]), or a transaction response with its hash and the way its
    [wait()] settles. *)
Definition Response : Type := option (string * Settlement).

(** Every call site of [withRetry] in the file passes a closure of the
    form [async (gasOptions) => { await executor(..., gasOptions); }], a
    block without [return]: it resolves to [undefined] when the executor
    returns and throws what the executor throws. *)
Definition blockClosure {A : Type} (executor : Z -> GasOptions -> Result A)
  : Z -> GasOptions -> Result Response :=
  fun i gasOptions =>
    match executor i gasOptions with
    | Ok _ => Ok None
    | Throws e => Throws e
    end.

(** The [try] block of iteration [i] of [withRetry] (lines 234-252), with
    the value of [activityStats.totalTransactions].  Reading [tx.hash] of
    [undefined] throws a [TypeError] before the counter is written.
    [getGasPrice] is the function of bot.js, line for line. *)
Definition tryBlock (getFeeData : Z -> Result FeeData)
    (func : Z -> GasOptions -> Result Response)
    (confirmationTimeoutMs i : Z) (total : nat)
  : Result Receipt * nat * list Event :=
  match getGasPrice (getFeeData i) i with
  | Throws e => (Throws e, total, [EvGetFeeData i])
  | Ok gasOptions =>
    match func i gasOptions with
    | Throws e => (Throws e, total, [EvGetFeeData i; EvFunc i gasOptions])
    | Ok None =>
      (Throws (Error "Cannot read properties of undefined (reading 'hash')"),
       total, [EvGetFeeData i; EvFunc i gasOptions])
    | Ok (Some (hash, wait)) =>
      let total' := S total in
      let evs := [EvGetFeeData i; EvFunc i gasOptions; EvTransactionSent hash] in
      match race wait confirmationTimeoutMs with
      | Throws e => (Throws e, total', evs)
      | Ok receipt => (classifyReceipt hash receipt, total', evs)
      end
    end
  end.

(** The [for] loop of [withRetry] (lines 233-261); the function has no
    statement after the loop, so leaving the loop returns [undefined],
    [Ok None]. *)
Fixpoint withRetry_loop (getFeeData : Z -> Result FeeData)
    (func : Z -> GasOptions -> Result Response)
    (maxRetries initialDelayMs confirmationTimeoutMs : Z)
    (iterations : nat) (i : Z) (total : nat)
  : Result (option Receipt) * nat * list Event :=
  match iterations with
  | O => (Ok None, total, [])
  | S rest =>
    match tryBlock getFeeData func confirmationTimeoutMs i total with
    | (Ok receipt, total1, evs) => (Ok (Some receipt), total1, evs)
    | (Throws error, total1, evs) =>
      let warn := EvAttemptFailed (i + 1) maxRetries error in
      if i <? maxRetries - 1 then
        match withRetry_loop getFeeData func maxRetries initialDelayMs
                confirmationTimeoutMs rest (i + 1) total1 with
        | (r, total2, evs') =>
          (r, total2, evs ++ warn :: EvDelay (initialDelayMs * (i + 1)) :: evs')
        end
      else (Throws error, total1, evs ++ [warn])
    end
  end.

Definition withRetry (getFeeData : Z -> Result FeeData)
    (func : Z -> GasOptions -> Result Response)
    (maxRetries initialDelayMs confirmationTimeoutMs : Z) (total : nat)
  : Result (option Receipt) * nat * list Event :=
  withRetry_loop getFeeData func maxRetries initialDelayMs
    confirmationTimeoutMs (Z.to_nat maxRetries) 0 total.

(** How an attempt around a block closure ends, and what it asks. *)
Definition undefinedHashError : JsError :=
  Error "Cannot read properties of undefined (reading 'hash')".
Definition blockAttemptError {A : Type} (getFeeData : Z -> Result FeeData)
    (executor : Z -> GasOptions -> Result A) (i : Z) : JsError :=
  match getGasPrice (getFeeData i) i with
  | Throws e => e
  | Ok gasOptions =>
    match executor i gasOptions with
    | Throws e => e
    | Ok _ => undefinedHashError
    end
  end.
Definition blockAttemptTrace (getFeeData : Z -> Result FeeData) (i : Z)
  : list Event :=
  match getGasPrice (getFeeData i) i with
  | Throws _ => [EvGetFeeData i]
  | Ok gasOptions => [EvGetFeeData i; EvFunc i gasOptions]
  end.

End Part000.

(** An executor that sends its transaction and returns. *)
Definition executor_sends : Z -> GasOptions -> Result unit :=
  fun _ _ => Ok tt.


(* ------------------------------------------------------------------ *)
(** ** Vocabulary of the further properties *)

(** The counters written by the [switch] of [startRandomLoop], one for each
    kind of action, taken together. *)
Definition actionsCounted (s : ActivityStats) : nat :=
  (swaps s + addsLiquidity s + removesLiquidity s + sendsAndReceives s
   + randomSends s + customContractCalls s)%nat.

(** The counters of the actions agree. *)
Definition sameActionCounters (s s' : ActivityStats) : Prop :=
  swaps s' = swaps s /\ addsLiquidity s' = addsLiquidity s /\
  removesLiquidity s' = removesLiquidity s /\
  sendsAndReceives s' = sendsAndReceives s /\
  randomSends s' = randomSends s /\
  customContractCalls s' = customContractCalls s.

(** From [s] to [s'] at most [dT] transactions, [dR] rebalances and [dA]
    actions were counted, no custom contract call was, and each counted
    rebalance or action came with a counted transaction of its own. *)
Definition grows (dT dR dA : nat) (s s' : ActivityStats) : Prop :=
  (totalTransactions s <= totalTransactions s' <= totalTransactions s + dT)%nat /\
  (rebalances s <= rebalances s' <= rebalances s + dR)%nat /\
  (actionsCounted s <= actionsCounted s' <= actionsCounted s + dA)%nat /\
  customContractCalls s' = customContractCalls s /\
  (actionsCounted s' + rebalances s' + totalTransactions s
   <= totalTransactions s' + actionsCounted s + rebalances s)%nat.

(** A token of [REBALANCE_THRESHOLDS] other than XRP whose balance is below
    its threshold (lines 1039-1043). *)
Definition lowToken (w : World) (entry : string * Q) : bool :=
  negb (String.eqb (fst entry) "XRP")
  && Qltb (w_balance w (fst entry)) (snd entry).

(** A pass of [startRandomLoop] whose [switch] sends nothing: a swap with an
    amount that is not positive, or a custom contract call. *)
Definition skippedAction (pw : PassWorld) : bool :=
  match pw_action pw with
  | SWAP => negb (Qltb 0 (pw_swapAmount pw))
  | CUSTOM_CONTRACT_CALL => true
  | _ => false
  end.

(** What one call may write: at most three transactions, at most one
    rebalance and a rebalance only with a transaction; the counters of the
    actions are left alone. *)
Definition rebalanceWrites (s s' : ActivityStats) : Prop :=
  sameActionCounters s s' /\
  (totalTransactions s <= totalTransactions s' <= totalTransactions s + 3)%nat /\
  (rebalances s <= rebalances s' <= rebalances s + 1)%nat /\
  (rebalances s' + totalTransactions s
   <= totalTransactions s' + rebalances s)%nat.

(** A wallet with 1 XRP whose RISE and RIBBIT are both below 0.005. *)
Definition balances_both_low (sym : string) : Q :=
  if String.eqb sym "XRP" then 1
  else if String.eqb sym "WXRP" then 1
  else 1 # 1000.
Definition world_both_low : World :=
  mkWorld balances_both_low (fun _ _ _ _ => Ok feeData_eip1559)
    (fun _ _ _ _ => swapEnv_quoted).


(** A pass in which a swap is drawn and the amount comes out as zero. *)
Definition pass_swap_skipped : PassWorld :=
  mkPassWorld world_both_low SWAP "RISE" 0 env_success.

(** The router function [performSwap] calls for a pair of symbols (lines 689
    and 704-706). *)
Definition routerCall_for (inTokSymbol outTokSymbol : string)
    (amountInRaw amountOutMin : Z) (path : list string)
    (gasOptions : GasOptions) : RouterCall :=
  if String.eqb inTokSymbol "XRP"
  then swapExactETHForTokens amountOutMin path amountInRaw gasOptions
  else if String.eqb outTokSymbol "XRP"
  then swapExactTokensForETH amountInRaw amountOutMin path gasOptions
  else swapExactTokensForTokens amountInRaw amountOutMin path gasOptions.

(** The path argument of a router call. *)
Definition routerPath (call : RouterCall) : list string :=
  match call with
  | swapExactETHForTokens _ path _ _ => path
  | swapExactTokensForETH _ _ path _ => path
  | swapExactTokensForTokens _ _ path _ => path
  | removeLiquidityETH _ _ _ => []
  end.


(* ------------------------------------------------------------------ *)
(** ** getWalletTokenBalance and getWalletBalances *)

(** [error.message]. *)
Definition message (e : JsError) : string :=
  match e with Error m => m end.

(** [obj[key] = v]: the entry is replaced in place, or added at the end. *)
Fixpoint js_set {A : Type} (obj : list (string * A)) (key : string) (v : A)
  : list (string * A) :=
  match obj with
  | [] => [(key, v)]
  | (k, x) :: rest =>
    if String.eqb k key then (k, v) :: rest else (k, x) :: js_set rest key v
  end.

(** The number denoted by [ethers.formatUnits(value, decimals)]. *)
Definition formatUnits (value decimals : Z) : Q :=
  (inject_Z value / inject_Z (10 ^ decimals))%Q.

(** What the read calls of one wallet answer: [provider.getBalance], and
    [decimals()] and [balanceOf()] of the contract at an address; and
    whether the code of an error is one of CALL_EXCEPTION, BAD_DATA and
    INVALID_ARGUMENT. *)
Record ChainReads : Type := mkChainReads {
  ch_getBalance : Result Z;
  ch_decimals : string -> Result Z;
  ch_balanceOf : string -> Result Z;
  ch_callCode : JsError -> bool
}.

(** [getWalletTokenBalance(wallet, tokenSymbol)], as the number its string
    denotes. *)
Definition getWalletTokenBalance (ch : ChainReads) (tokenSymbol : string)
  : Result Q :=
  if String.eqb tokenSymbol "XRP" then
    let? balance := ch_getBalance ch in Ok (formatEther balance)
  else
    match js_get TOKENS tokenSymbol with
    | None =>
      Throws (Error ("Token address not found for symbol: " ++ tokenSymbol)%string)
    | Some tokenAddress =>
      match (let? decs := ch_decimals ch tokenAddress in
             let? bal := ch_balanceOf ch tokenAddress in
             Ok (formatUnits bal decs)) with
      | Ok formatted => Ok formatted
      | Throws error =>
        if ch_callCode ch error then
          Throws (Error ("Error fetching decimals or balance for "
                         ++ tokenSymbol ++ " (" ++ tokenAddress ++ "): "
                         ++ message error)%string)
        else Throws error
      end
    end.

(** The [for ... in TOKENS] loop of [getWalletBalances] (lines 591-600) over
    the remaining keys. *)
Fixpoint getWalletBalances_loop (ch : ChainReads) (tokens : list string)
    (balances : list (string * Q)) : list (string * Q) :=
  match tokens with
  | [] => balances
  | tokenSymbol :: rest =>
    if String.eqb tokenSymbol "XRP" then getWalletBalances_loop ch rest balances
    else
      getWalletBalances_loop ch rest
        (js_set balances tokenSymbol
           (match getWalletTokenBalance ch tokenSymbol with
            | Ok balance => balance
            | Throws error => 0%Q
            end))
  end.

(** [getWalletBalances(wallet)]: the object it returns, each value as the
    number its string denotes. *)
Definition getWalletBalances (ch : ChainReads) : list (string * Q) :=
  getWalletBalances_loop ch (js_keys TOKENS)
    (js_set [] "XRP"
       (match ch_getBalance ch with
        | Ok xrpBalance => formatEther xrpBalance
        | Throws error => 0%Q
        end)).


(** The balance a read gives, zero when the read fails. *)
Definition balanceOrZero (ch : ChainReads) (sym : string) : Q :=
  match getWalletTokenBalance ch sym with
  | Ok balance => balance
  | Throws _ => 0%Q
  end.

(* ------------------------------------------------------------------ *)
(** ** performRandomSend and performSendAndReceive *)

Record SendConfig : Type := mkSendCfg {
  sendAmount : Q;
  sendTokenName : string;
  sendAddressCount : Z
}.

(** [TOKEN_AMOUNT_CONFIG.SEND_AND_RECEIVE_CONFIG] and
    [TOKEN_AMOUNT_CONFIG.RANDOM_SEND_CONFIG]. *)
Definition SEND_AND_RECEIVE_CONFIG : SendConfig := mkSendCfg (1 # 1000) "RISE" 1.

(** The write calls of the two executors, [i] numbering the random
    addresses: the funding of address [i] with XRP, the transfer of the
    token to it, and the transfer back signed by it. *)
Inductive Write : Type :=
| WrFund (i : nat) (value : Z) (gasOptions : GasOptions)
| WrTransfer (i : nat) (amount : Z) (gasOptions : GasOptions)
| WrReturn (i : nat) (amount : Z) (gasOptions : GasOptions).

(** The collaborators of one [performRandomSend] call: the balance
    [getWalletTokenBalance] returns, [decimals()], the response of the
    transfer to address [i] (its hash, and how a later [wait()] on it
    settles), and the [lastTx.wait()] of line 787, which confirms or
    throws. *)
Record RandomSendEnv : Type := mkRandomSendEnv {
  rs_tokenBalance : Result Q;
  rs_decimals : Result Z;
  rs_transfer : nat -> Z -> Result (string * Settlement);
  rs_wait : nat -> Result unit
}.

(** The [for] loop of lines 783-789 from address [i] on. *)
Fixpoint performRandomSend_loop (env : RandomSendEnv) (sendAmountRaw : Z)
    (gasOptions : GasOptions) (iterations i : nat) (lastTx : TxValue)
  : Result TxValue * list Write :=
  match iterations with
  | O => (Ok lastTx, [])
  | S rest =>
    let write := WrTransfer i sendAmountRaw gasOptions in
    match rs_transfer env i sendAmountRaw with
    | Throws e => (Throws e, [write])
    | Ok (hash, wait) =>
      match rs_wait env i with
      | Throws e => (Throws e, [write])
      | Ok _ =>
        match performRandomSend_loop env sendAmountRaw gasOptions rest (S i)
                (TxHandle hash wait) with
        | (r, writes) => (r, write :: writes)
        end
      end
    end
  end.

(** [performRandomSend(wallet, cfg, gasOptions)]; [lastTx] starts as
    [null]. *)
Definition performRandomSend (env : RandomSendEnv) (cfg : SendConfig)
    (gasOptions : GasOptions) : Result TxValue * list Write :=
  match js_get TOKENS (sendTokenName cfg) with
  | None =>
    (Throws (Error ("Token " ++ sendTokenName cfg
                    ++ " address not found in TOKENS map.")%string), [])
  | Some tokenAddress =>
    match rs_tokenBalance env with
    | Throws e => (Throws e, [])
    | Ok currentTokenBalance =>
      let totalAmountNeeded :=
        (sendAmount cfg * inject_Z (sendAddressCount cfg))%Q in
      if Qltb currentTokenBalance totalAmountNeeded then
        (Throws (Error ("Insufficient " ++ sendTokenName cfg
                        ++ " balance.")%string), [])
      else
        match rs_decimals env with
        | Throws e => (Throws e, [])
        | Ok decimals =>
          match parseUnits (sendAmount cfg) decimals with
          | Throws e => (Throws e, [])
          | Ok sendAmountRaw =>
            performRandomSend_loop env sendAmountRaw gasOptions
              (Z.to_nat (sendAddressCount cfg)) 0 TxFalsy
          end
        end
    end
  end.

(** The collaborators of one [performSendAndReceive] call.  [sr_fund] and
    [sr_send] stand for the call followed by its [wait()], which confirms or
    throws; [sr_return] is the response of the transfer back and
    [sr_returnWait] the [lastTx.wait()] of line 757. *)
Record SendReceiveEnv : Type := mkSendReceiveEnv {
  sr_tokenBalance : Result Q;
  sr_decimals : Result Z;
  sr_fund : nat -> Result unit;
  sr_send : nat -> Z -> Result unit;
  sr_return : nat -> Z -> Result (string * Settlement);
  sr_returnWait : nat -> Result unit
}.

(** [ethers.parseEther("0.001")]. *)
Definition fundingValue : Z := 10 ^ 15.

(** The [for] loop of lines 732-759 from address [i] on. *)
Fixpoint performSendAndReceive_loop (env : SendReceiveEnv) (sendAmountRaw : Z)
    (gasOptions : GasOptions) (iterations i : nat) (lastTx : TxValue)
  : Result TxValue * list Write :=
  match iterations with
  | O => (Ok lastTx, [])
  | S rest =>
    let fund := WrFund i fundingValue gasOptions in
    let send := WrTransfer i sendAmountRaw gasOptions in
    let back := WrReturn i sendAmountRaw gasOptions in
    match sr_fund env i with
    | Throws e => (Throws e, [fund])
    | Ok _ =>
      match sr_send env i sendAmountRaw with
      | Throws e => (Throws e, [fund; send])
      | Ok _ =>
        match sr_return env i sendAmountRaw with
        | Throws e => (Throws e, [fund; send; back])
        | Ok (hash, wait) =>
          match sr_returnWait env i with
          | Throws e => (Throws e, [fund; send; back])
          | Ok _ =>
            match performSendAndReceive_loop env sendAmountRaw gasOptions rest
                    (S i) (TxHandle hash wait) with
            | (r, writes) => (r, fund :: send :: back :: writes)
            end
          end
        end
      end
    end
  end.

(** [performSendAndReceive(wallet, cfg, gasOptions)]. *)
Definition performSendAndReceive (env : SendReceiveEnv) (cfg : SendConfig)
    (gasOptions : GasOptions) : Result TxValue * list Write :=
  match js_get TOKENS (sendTokenName cfg) with
  | None =>
    (Throws (Error ("Token " ++ sendTokenName cfg
                    ++ " address not found in TOKENS map.")%string), [])
  | Some tokenAddress =>
    match sr_tokenBalance env with
    | Throws e => (Throws e, [])
    | Ok currentTokenBalance =>
      let totalAmountNeeded :=
        (sendAmount cfg * inject_Z (sendAddressCount cfg))%Q in
      if Qltb currentTokenBalance totalAmountNeeded then
        (Throws (Error ("Insufficient " ++ sendTokenName cfg
                        ++ " balance.")%string), [])
      else
        match sr_decimals env with
        | Throws e => (Throws e, [])
        | Ok decimals =>
          match parseUnits (sendAmount cfg) decimals with
          | Throws e => (Throws e, [])
          | Ok sendAmountRaw =>
            performSendAndReceive_loop env sendAmountRaw gasOptions
              (Z.to_nat (sendAddressCount cfg)) 0 TxFalsy
          end
        end
    end
  end.

(** [withRetry(async (gasOptions) => performSendAndReceive(wallet, cfg,
    gasOptions))] and the same for [performRandomSend] (lines 1156 and
    1164); attempt [i] sees [env i]. *)
Definition sendAndReceiveRetryEnv (getFeeData : Z -> Result FeeData)
    (env : Z -> SendReceiveEnv) (cfg : SendConfig) : RetryEnv :=
  mkRetryEnv getFeeData
    (fun i gasOptions => fst (performSendAndReceive (env i) cfg gasOptions)).
Definition randomSendRetryEnv (getFeeData : Z -> Result FeeData)
    (env : Z -> RandomSendEnv) (cfg : SendConfig) : RetryEnv :=
  mkRetryEnv getFeeData
    (fun i gasOptions => fst (performRandomSend (env i) cfg gasOptions)).

Definition sendAndReceiveWrites (sendAmountRaw : Z) (gasOptions : GasOptions)
    (count : nat) : list Write :=
  flat_map (fun i => [ WrFund i fundingValue gasOptions;
                       WrTransfer i sendAmountRaw gasOptions;
                       WrReturn i sendAmountRaw gasOptions ]) (seq 0 count).

Definition sendReceiveEnv_ok : SendReceiveEnv :=
  mkSendReceiveEnv (Ok 1%Q) (Ok 18) (fun _ => Ok tt) (fun _ _ => Ok tt)
    (fun i _ => Ok ("0xff", Resolves 5 (Some receipt_success)))
    (fun _ => Ok tt).

(* ------------------------------------------------------------------ *)
(** ** The sleep between two cycles *)





(** An action whose [case] calls [withRetry] on an executor other than
    [performSwap] (lines 1138-1168). *)
Definition closureAction (a : Action) : bool :=
  match a with
  | ADD_LIQUIDITY | REMOVE_LIQUIDITY | SEND_AND_RECEIVE | RANDOM_SEND => true
  | SWAP | CUSTOM_CONTRACT_CALL => false
  end.

(** A wallet [checkAndRebalance] leaves alone: XRP is not below its
    threshold and no token of [REBALANCE_THRESHOLDS] is below its own. *)
Definition quietWallet (w : World) : bool :=
  negb (Qltb (w_balance w "XRP") threshold_XRP)
  && match find (lowToken w) REBALANCE_THRESHOLDS with
     | None => true
     | Some _ => false
     end.

(** A wallet with 1 of everything, and a pass that draws REMOVE_LIQUIDITY
    for a wallet without pool shares. *)
Definition world_quiet : World :=
  mkWorld (fun _ => 1%Q) (fun _ _ _ _ => Ok feeData_eip1559)
    (fun _ _ _ _ => swapEnv_quoted).
Definition noShares : JsError := Error "No LP tokens for RISE".
Definition pass_remove_without_shares : PassWorld :=
  mkPassWorld world_quiet REMOVE_LIQUIDITY "RISE" 0
    (mkRetryEnv (fun _ => Ok feeData_eip1559) (fun _ _ => Throws noShares)).
(* ================================================================== *)
(** * Properties *)

(* ------------------------------------------------------------------ *)
(** ** The gas price estimator *)

Lemma Math_round_buffer (i : Z) :
  Math_round (buffer i * 100)%Q = 500 + 100 * i.
Proof.
  unfold Math_round, buffer, Qfloor, Qplus, Qmult, inject_Z; cbn [Qnum Qden].
  rewrite ?Pos.mul_1_l, ?Pos.mul_1_r.
  replace ((5 * 1 + i * 1 * 1) * 100 * 2 + 1 * 1)
    with (1 + (500 + 100 * i) * 2) by lia.
  rewrite Z.div_add by lia. reflexivity.
Qed.

Lemma buffer_le (i j : Z) : i <= j -> (buffer i <= buffer j)%Q.
Proof.
  intro H. unfold buffer, Qle, Qplus, Qmult, inject_Z; cbn [Qnum Qden].
  rewrite ?Pos.mul_1_l, ?Pos.mul_1_r. lia.
Qed.


Lemma scaled_positive (x i : Z) :
  0 < x -> 0 <= i -> 0 < bigint_div (x * Math_round (buffer i * 100)%Q) 100.
Proof.
  intros Hx Hi. unfold bigint_div. rewrite Math_round_buffer.
  rewrite Z.quot_div_nonneg by nia.
  apply Z.div_str_pos. nia.
Qed.

Lemma or_default_positive (x : option Z) (d : Z) :
  nonneg_field x -> 0 < d -> 0 < or_default x d.
Proof.
  destruct x as [v|]; simpl; intros Hx Hd; [|assumption].
  destruct (v =? 0) eqn:E; [assumption|].
  apply Z.eqb_neq in E. lia.
Qed.

Lemma gwei_positive (n : Z) : 0 < n -> 0 < gwei n.
Proof. unfold gwei. lia. Qed.

(** C4. For every attempt index [0 <= i] the buffer multiplier does not
    decrease as the index grows, and each field of the quote computed from
    unsigned fee data is a strictly positive integer, in the EIP-1559 shape
    and in the legacy shape. *)
Theorem C4_buffer_monotone_quote_positive :
  forall (i j : Z) (fd : FeeData),
    0 <= i -> i <= j -> feeData_unsigned fd ->
    (buffer i <= buffer j)%Q /\
    Forall (fun x => 0 < x) (quoteFields (getGasPrice_of fd i)).
Proof.
  intros i j fd Hi Hij (Hg & Hm & Hp & Hb). split.
  - apply buffer_le; assumption.
  - assert (Hlegacy :
      0 < bigint_div (or_default (fd_gasPrice fd) (gwei 20)
                      * Math_round (buffer i * 100)%Q) 100).
    { apply scaled_positive; [|assumption].
      apply or_default_positive; [assumption|]. apply gwei_positive; lia. }
    unfold getGasPrice_of.
    destruct (fd_maxFeePerGas fd) as [maxFee|];
      [|cbn [quoteFields]; constructor; [exact Hlegacy|constructor]].
    destruct (fd_maxPriorityFeePerGas fd) as [priorityFee|];
      [|cbn [quoteFields]; constructor; [exact Hlegacy|constructor]].
    destruct (negb (maxFee =? 0) && negb (priorityFee =? 0)) eqn:E;
      [|cbn [quoteFields]; constructor; [exact Hlegacy|constructor]].
    apply andb_prop in E. destruct E as [_ E].
    apply negb_true_iff, Z.eqb_neq in E. simpl in Hp.
    assert (Hprio :
      0 < bigint_div (priorityFee * Math_round (buffer i * 100)%Q) 100)
      by (apply scaled_positive; lia).
    assert (Hbase :
      0 < bigint_div (or_default (fd_lastBaseFeePerGas fd) (gwei 1)
                      * Math_round (buffer i * 100)%Q) 100).
    { apply scaled_positive; [|assumption].
      apply or_default_positive; [assumption|]. apply gwei_positive; lia. }
    cbn [quoteFields]. constructor; [lia|].
    constructor; [exact Hprio|constructor].
Qed.

Lemma C4_witness :
  ((buffer 0 <= buffer 1)%Q /\
   Forall (fun x => 0 < x) (quoteFields (getGasPrice_of feeData_eip1559 0)))
  /\
  ((buffer 2 <= buffer 2)%Q /\
   Forall (fun x => 0 < x) (quoteFields (getGasPrice_of feeData_legacy 2))).
Proof.
  split.
  - apply (C4_buffer_monotone_quote_positive 0 1 feeData_eip1559).
    + lia.
    + lia.
    + unfold feeData_unsigned, feeData_eip1559; simpl. lia.
  - apply (C4_buffer_monotone_quote_positive 2 2 feeData_legacy).
    + lia.
    + lia.
    + unfold feeData_unsigned, feeData_legacy; simpl. lia.
Defined.



(* ------------------------------------------------------------------ *)
(** ** withRetry *)

Lemma tryBlock_eq (env : RetryEnv) (t i : Z) (stats : ActivityStats) :
  tryBlock env t i stats =
  (tryResult env t i,
   if sendsTransaction env i then inc_totalTransactions stats else stats,
   tryTrace env t i).
Proof.
  unfold tryResult, tryTrace, sendsTransaction, tryBlock, run_result, run_trace.
  destruct (getGasPrice (getFeeData env i) i) as [g|e]; [|reflexivity].
  destruct (func env i g) as [[| |hash wait]|e]; try reflexivity.
  destruct (race wait t); reflexivity.
Qed.

Lemma tryTrace_feeReads (env : RetryEnv) (t i : Z) :
  feeReads (tryTrace env t i) = [i].
Proof.
  unfold tryTrace, tryBlock, run_trace.
  destruct (getGasPrice (getFeeData env i) i) as [g|e]; [|reflexivity].
  destruct (func env i g) as [[| |hash wait]|e]; try reflexivity.
  destruct (race wait t); reflexivity.
Qed.

Lemma tryTrace_delays (env : RetryEnv) (t i : Z) :
  delays (tryTrace env t i) = [].
Proof.
  unfold tryTrace, tryBlock, run_trace.
  destruct (getGasPrice (getFeeData env i) i) as [g|e]; [|reflexivity].
  destruct (func env i g) as [[| |hash wait]|e]; try reflexivity.
  destruct (race wait t); reflexivity.
Qed.


Lemma tryTrace_funcCalls (env : RetryEnv) (t i : Z) (fd : FeeData) :
  getFeeData env i = Ok fd -> funcCalls (tryTrace env t i) = [i].
Proof.
  intro H. unfold tryTrace, tryBlock, run_trace. rewrite H.
  cbn [getGasPrice].
  destruct (func env i (getGasPrice_of fd i)) as [[| |hash wait]|e];
    try reflexivity.
  destruct (race wait t); reflexivity.
Qed.

Lemma feeReads_app (a b : list Event) : feeReads (a ++ b) = feeReads a ++ feeReads b.
Proof. apply flat_map_app. Qed.
Lemma delays_app (a b : list Event) : delays (a ++ b) = delays a ++ delays b.
Proof. apply flat_map_app. Qed.
Lemma funcCalls_app (a b : list Event) : funcCalls (a ++ b) = funcCalls a ++ funcCalls b.
Proof. apply flat_map_app. Qed.

Lemma delays_failed_delay (a n ms : Z) (e : JsError) (l : list Event) :
  delays (EvAttemptFailed a n e :: EvDelay ms :: l) = ms :: delays l.
Proof. reflexivity. Qed.
Lemma feeReads_failed_delay (a n ms : Z) (e : JsError) (l : list Event) :
  feeReads (EvAttemptFailed a n e :: EvDelay ms :: l) = feeReads l.
Proof. reflexivity. Qed.
Lemma funcCalls_failed_delay (a n ms : Z) (e : JsError) (l : list Event) :
  funcCalls (EvAttemptFailed a n e :: EvDelay ms :: l) = funcCalls l.
Proof. reflexivity. Qed.

(** One iteration of the loop, by the way its [try] block ends. *)
Lemma withRetry_loop_step (env : RetryEnv) (n d t : Z) (k : nat) (i : Z)
    (stats : ActivityStats) :
  withRetry_loop env n d t (S k) i stats =
  let stats1 :=
    if sendsTransaction env i then inc_totalTransactions stats else stats in
  match tryResult env t i with
  | Ok receipt => (Ok (Some receipt), stats1, tryTrace env t i)
  | Throws error =>
    if i <? n - 1 then
      let next := withRetry_loop env n d t k (i + 1) stats1 in
      (run_result next, run_stats next,
       tryTrace env t i ++ EvAttemptFailed (i + 1) n error
         :: EvDelay (d * (i + 1)) :: run_trace next)
    else (Throws error, stats1,
          tryTrace env t i ++ [EvAttemptFailed (i + 1) n error])
  end.
Proof.
  cbn [withRetry_loop]. rewrite tryBlock_eq.
  destruct (tryResult env t i) as [r|e]; [reflexivity|].
  destruct (i <? n - 1); [|reflexivity].
  destruct (withRetry_loop env n d t k (i + 1)
              (if sendsTransaction env i then inc_totalTransactions stats
               else stats)) as [[r s2] evs'].
  reflexivity.
Qed.

Lemma run_result_mk {A : Type} (a : A) (s : ActivityStats) (t : list Event) :
  run_result (a, s, t) = a.
Proof. reflexivity. Qed.
Lemma run_stats_mk {A : Type} (a : A) (s : ActivityStats) (t : list Event) :
  run_stats (a, s, t) = s.
Proof. reflexivity. Qed.
Lemma run_trace_mk {A : Type} (a : A) (s : ActivityStats) (t : list Event) :
  run_trace (a, s, t) = t.
Proof. reflexivity. Qed.

Ltac run_simpl := rewrite ?run_result_mk, ?run_stats_mk, ?run_trace_mk.

(** The counters after a run are the initial ones with [totalTransactions]
    incremented once for each attempt made that reached the network. *)
Lemma withRetry_loop_stats (env : RetryEnv) (n d t : Z) (k : nat) :
  forall (i : Z) (stats : ActivityStats),
    let run := withRetry_loop env n d t k i stats in
    run_stats run =
    add_totalTransactions
      (List.length (filter (sendsTransaction env) (feeReads (run_trace run))))
      stats.
Proof.
  induction k as [|k IH]; intros i stats; [reflexivity|].
  cbv zeta. rewrite withRetry_loop_step. cbv zeta.
  assert (Hone : forall s,
    (if sendsTransaction env i then inc_totalTransactions s else s) =
    add_totalTransactions
      (List.length (filter (sendsTransaction env) [i])) s).
  { intro s. cbn [filter]. destruct (sendsTransaction env i); reflexivity. }
  destruct (tryResult env t i) as [r|e].
  - run_simpl. rewrite tryTrace_feeReads. apply Hone.
  - destruct (i <? n - 1).
    + run_simpl.
      specialize (IH (i + 1)
        (if sendsTransaction env i then inc_totalTransactions stats else stats)).
      cbv zeta in IH. rewrite IH.
      rewrite feeReads_app, tryTrace_feeReads, feeReads_failed_delay.
      clear IH Hone. cbn [app filter].
      destruct (sendsTransaction env i); [|reflexivity].
      unfold add_totalTransactions. cbn [List.length].
      rewrite Nat.iter_succ_r. reflexivity.
    + run_simpl.
      rewrite feeReads_app, tryTrace_feeReads. cbn [feeReads flat_map app].
      apply Hone.
Qed.

Lemma add_totalTransactions_total (n : nat) (s : ActivityStats) :
  totalTransactions (add_totalTransactions n s) = (totalTransactions s + n)%nat.
Proof.
  unfold add_totalTransactions. induction n as [|n IH].
  - cbn. lia.
  - rewrite Nat.iter_succ. cbn [inc_totalTransactions totalTransactions].
    rewrite IH. lia.
Qed.

Lemma add_totalTransactions_others (n : nat) (s : ActivityStats) :
  sameOtherCounters s (add_totalTransactions n s).
Proof.
  unfold add_totalTransactions. induction n as [|n IH].
  - cbn. repeat split.
  - rewrite Nat.iter_succ. unfold sameOtherCounters in *.
    cbn [inc_totalTransactions swaps addsLiquidity removesLiquidity
         sendsAndReceives randomSends customContractCalls rebalances].
    exact IH.
Qed.

Lemma timerWins_race (wait : Settlement) (t : Z) :
  timerWins wait t -> race wait t = Throws timeoutError.
Proof.
  destruct wait as [ms r|ms e|]; cbn [timerWins race]; intro H;
    try reflexivity.
  - destruct (ms <? t) eqn:E; [apply Z.ltb_lt in E; lia|reflexivity].
  - destruct (ms <? t) eqn:E; [apply Z.ltb_lt in E; lia|reflexivity].
Qed.

(** An attempt whose transaction is confirmed with status 1 in time. *)
Lemma tryBlock_confirmed (env : RetryEnv) (t i : Z) (fd : FeeData)
    (hash : string) (ms : Z) (r : Receipt) :
  getFeeData env i = Ok fd ->
  func env i (getGasPrice_of fd i) = Ok (TxHandle hash (Resolves ms (Some r))) ->
  ms < t -> status r = Some 1 ->
  tryResult env t i = Ok r /\ sendsTransaction env i = true.
Proof.
  intros Hfee Hfunc Hms Hstatus.
  unfold tryResult, sendsTransaction, tryBlock, run_result.
  rewrite Hfee. cbn [getGasPrice]. rewrite Hfunc. cbn [race].
  apply Z.ltb_lt in Hms. rewrite Hms. cbn [classifyReceipt].
  rewrite Hstatus. split; reflexivity.
Qed.

(** An attempt whose transaction is sent and not confirmed in time. *)
Lemma tryBlock_timed_out (env : RetryEnv) (t i : Z) (fd : FeeData)
    (hash : string) (wait : Settlement) :
  getFeeData env i = Ok fd ->
  func env i (getGasPrice_of fd i) = Ok (TxHandle hash wait) ->
  timerWins wait t ->
  tryResult env t i = Throws timeoutError /\ sendsTransaction env i = true.
Proof.
  intros Hfee Hfunc Hwin.
  unfold tryResult, sendsTransaction, tryBlock, run_result.
  rewrite Hfee. cbn [getGasPrice]. rewrite Hfunc.
  rewrite (timerWins_race _ _ Hwin). split; reflexivity.
Qed.

(** C1. [totalTransactions] is incremented once for each attempt made in
    which the closure returned an object with a hash, and no other counter
    moves.  A submission confirmed with status 1 on the first attempt
    increments it once and never sleeps; one that times out on the first
    attempt and is confirmed on the second returns the second receipt, with
    the counter incremented twice. *)
Theorem C1_totalTransactions_once_per_sent_attempt :
  forall (env : RetryEnv) (maxRetries initialDelayMs timeout : Z)
         (stats : ActivityStats),
    let run := withRetry env maxRetries initialDelayMs timeout stats in
    (totalTransactions (run_stats run) =
     totalTransactions stats
     + List.length (filter (sendsTransaction env) (feeReads (run_trace run))))%nat
    /\ sameOtherCounters stats (run_stats run)
    /\ (forall fd hash ms r,
          1 <= maxRetries ->
          getFeeData env 0 = Ok fd ->
          func env 0 (getGasPrice_of fd 0)
            = Ok (TxHandle hash (Resolves ms (Some r))) ->
          ms < timeout -> status r = Some 1 ->
          run_result run = Ok (Some r) /\
          totalTransactions (run_stats run) = S (totalTransactions stats) /\
          delays (run_trace run) = [])
    /\ (forall fd0 hash0 wait0 fd1 hash1 ms r,
          2 <= maxRetries ->
          getFeeData env 0 = Ok fd0 ->
          func env 0 (getGasPrice_of fd0 0) = Ok (TxHandle hash0 wait0) ->
          timerWins wait0 timeout ->
          getFeeData env 1 = Ok fd1 ->
          func env 1 (getGasPrice_of fd1 1)
            = Ok (TxHandle hash1 (Resolves ms (Some r))) ->
          ms < timeout -> status r = Some 1 ->
          run_result run = Ok (Some r) /\
          totalTransactions (run_stats run) = S (S (totalTransactions stats)) /\
          delays (run_trace run) = [initialDelayMs * 1]).
Proof.
  intros env n d t stats run.
  assert (Hstats := withRetry_loop_stats env n d t (Z.to_nat n) 0 stats).
  cbv zeta in Hstats. fold (withRetry env n d t stats) in Hstats.
  fold run in Hstats.
  split; [|split; [|split]].
  - rewrite Hstats. apply add_totalTransactions_total.
  - rewrite Hstats. apply add_totalTransactions_others.
  - intros fd hash ms r Hn Hfee Hfunc Hms Hstatus.
    destruct (tryBlock_confirmed env t 0 fd hash ms r Hfee Hfunc Hms Hstatus)
      as [Hres Hsend].
    subst run. unfold withRetry.
    destruct (Z.to_nat n) as [|k] eqn:Hk; [lia|].
    rewrite withRetry_loop_step. cbv zeta. rewrite Hres, Hsend.
    run_simpl. rewrite tryTrace_delays.
    split; [reflexivity|split; reflexivity].
  - intros fd0 hash0 wait0 fd1 hash1 ms r Hn Hfee0 Hfunc0 Hwin Hfee1 Hfunc1
      Hms Hstatus.
    destruct (tryBlock_timed_out env t 0 fd0 hash0 wait0 Hfee0 Hfunc0 Hwin)
      as [Hres0 Hsend0].
    destruct (tryBlock_confirmed env t 1 fd1 hash1 ms r Hfee1 Hfunc1 Hms Hstatus)
      as [Hres1 Hsend1].
    subst run. unfold withRetry.
    destruct (Z.to_nat n) as [|[|k]] eqn:Hk; [lia|lia|].
    rewrite withRetry_loop_step. cbv zeta. rewrite Hres0, Hsend0.
    replace (0 <? n - 1) with true by (symmetry; apply Z.ltb_lt; lia).
    change (0 + 1) with 1.
    rewrite withRetry_loop_step. cbv zeta. rewrite Hres1, Hsend1.
    run_simpl.
    rewrite delays_app, delays_failed_delay, !tryTrace_delays.
    split; [reflexivity|split; reflexivity].
Qed.

Lemma C1_witness :
  let run := withRetry env_timeout_then_success 3 1000 60000 initialStats in
  run_result run = Ok (Some receipt_success) /\
  totalTransactions (run_stats run) = 2%nat /\
  delays (run_trace run) = [1000].
Proof.
  pose proof (C1_totalTransactions_once_per_sent_attempt
                env_timeout_then_success 3 1000 60000 initialStats) as H.
  cbv zeta in H. destruct H as (_ & _ & _ & H).
  apply (H feeData_eip1559 "0xaa" NeverSettles feeData_eip1559 "0xbb" 10
           receipt_success).
  - lia.
  - reflexivity.
  - reflexivity.
  - exact I.
  - reflexivity.
  - reflexivity.
  - lia.
  - reflexivity.
Defined.

Lemma Zseq_In (j : Z) (len : nat) :
  forall start, In j (Zseq start len) -> start <= j < start + Z.of_nat len.
Proof.
  induction len as [|len IH]; intros start H; [destruct H|].
  cbn [Zseq] in H. destruct H as [H|H]; [lia|].
  apply IH in H. lia.
Qed.

Lemma filter_none {A : Type} (f : A -> bool) (l : list A) :
  (forall x, In x l -> f x = false) -> filter f l = [].
Proof.
  induction l as [|a l IH]; intro H; [reflexivity|].
  cbn [filter]. rewrite (H a (or_introl eq_refl)).
  apply IH. intros x Hx. apply H. right. exact Hx.
Qed.

(** Every attempt fails: the call makes all its attempts, sleeps
    [d * (i + 1)] between them, and throws the error of the last one. *)
Lemma withRetry_loop_all_fail (env : RetryEnv) (n d t : Z)
    (err : Z -> JsError) (k : nat) :
  forall (i : Z) (stats : ActivityStats),
    n = i + Z.of_nat (S k) ->
    (forall j, i <= j < n -> tryResult env t j = Throws (err j)) ->
    let run := withRetry_loop env n d t (S k) i stats in
    run_result run = Throws (err (n - 1)) /\
    delays (run_trace run) = map (fun j => d * (j + 1)) (Zseq i k) /\
    feeReads (run_trace run) = Zseq i (S k).
Proof.
  induction k as [|k IH]; intros i stats Hn Hfail; cbv zeta;
    rewrite withRetry_loop_step; cbv zeta;
    rewrite (Hfail i) by lia.
  - replace (i <? n - 1) with false by (symmetry; apply Z.ltb_ge; lia).
    run_simpl. rewrite delays_app, feeReads_app, tryTrace_delays,
      tryTrace_feeReads.
    replace (n - 1) with i by lia. repeat split.
  - replace (i <? n - 1) with true by (symmetry; apply Z.ltb_lt; lia).
    run_simpl.
    destruct (IH (i + 1)
                (if sendsTransaction env i then inc_totalTransactions stats
                 else stats)) as (Hr & Hd & Hf).
    + lia.
    + intros j Hj. apply Hfail. lia.
    + cbv zeta in Hr, Hd, Hf.
      rewrite delays_app, feeReads_app, tryTrace_delays, tryTrace_feeReads,
        delays_failed_delay, feeReads_failed_delay, Hr, Hd, Hf.
      repeat split.
Qed.

Lemma withRetry_loop_all_fail_funcCalls (env : RetryEnv) (n d t : Z)
    (err : Z -> JsError) (k : nat) :
  forall (i : Z) (stats : ActivityStats),
    n = i + Z.of_nat (S k) ->
    (forall j, i <= j < n -> tryResult env t j = Throws (err j)) ->
    (forall j, i <= j < n -> exists fd, getFeeData env j = Ok fd) ->
    funcCalls (run_trace (withRetry_loop env n d t (S k) i stats))
    = Zseq i (S k).
Proof.
  induction k as [|k IH]; intros i stats Hn Hfail Hfee;
    rewrite withRetry_loop_step; cbv zeta;
    rewrite (Hfail i) by lia;
    destruct (Hfee i) as [fd Hfd]; try lia.
  - replace (i <? n - 1) with false by (symmetry; apply Z.ltb_ge; lia).
    run_simpl. rewrite funcCalls_app, (tryTrace_funcCalls _ _ _ _ Hfd).
    reflexivity.
  - replace (i <? n - 1) with true by (symmetry; apply Z.ltb_lt; lia).
    run_simpl.
    rewrite funcCalls_app, (tryTrace_funcCalls _ _ _ _ Hfd),
      funcCalls_failed_delay.
    rewrite IH; [reflexivity|lia| |].
    + intros j Hj. apply Hfail. lia.
    + intros j Hj. apply Hfee. lia.
Qed.




(** C2, amended.  When the closure throws before sending on every attempt
    (the fee data being read each time), [withRetry] leaves every counter
    as it was, calls the closure on each of its [n] attempts, sleeping
    [d * (i + 1)] after each failed attempt but the last, and throws the
    error of the last attempt; when the closure throws the same error each
    time, that error. *)
Theorem C2_precondition_failure_retried_to_exhaustion :
  forall (env : RetryEnv) (n d t : Z) (stats : ActivityStats)
         (err : Z -> JsError),
    1 <= n ->
    (forall i, 0 <= i < n -> exists fd, getFeeData env i = Ok fd) ->
    (forall i g, 0 <= i < n -> func env i g = Throws (err i)) ->
    let run := withRetry env n d t stats in
    run_stats run = stats /\
    run_result run = Throws (err (n - 1)) /\
    funcCalls (run_trace run) = Zseq 0 (Z.to_nat n) /\
    delays (run_trace run)
      = map (fun i => d * (i + 1)) (Zseq 0 (Z.to_nat (n - 1))).
Proof.
  intros env n d t stats err Hn Hfee Hfunc run.
  assert (Hfail : forall i, 0 <= i < n -> tryResult env t i = Throws (err i)).
  { intros i Hi. destruct (Hfee i Hi) as [fd Hfd].
    unfold tryResult, tryBlock, run_result. rewrite Hfd. cbn [getGasPrice].
    rewrite (Hfunc i _ Hi). reflexivity. }
  assert (Hsend : forall i, 0 <= i < n -> sendsTransaction env i = false).
  { intros i Hi. destruct (Hfee i Hi) as [fd Hfd].
    unfold sendsTransaction. rewrite Hfd. cbn [getGasPrice].
    rewrite (Hfunc i _ Hi). reflexivity. }
  assert (Hk : Z.to_nat n = S (Z.to_nat (n - 1))) by lia.
  destruct (withRetry_loop_all_fail env n d t err (Z.to_nat (n - 1)) 0 stats)
    as (Hr & Hd & Hf); [lia|exact Hfail|].
  cbv zeta in Hr, Hd, Hf.
  subst run. unfold withRetry. rewrite Hk.
  split; [|split; [exact Hr|split; [|exact Hd]]].
  - rewrite (withRetry_loop_stats env n d t (S (Z.to_nat (n - 1))) 0 stats).
    rewrite Hf, filter_none; [reflexivity|].
    intros j Hj. apply Zseq_In in Hj. apply Hsend. lia.
  - apply (withRetry_loop_all_fail_funcCalls env n d t err);
      [lia|exact Hfail|exact Hfee].
Qed.

Lemma C2_witness :
  let run := withRetry env_insufficient 3 1000 60000 initialStats in
  run_stats run = initialStats /\
  run_result run = Throws insufficientBalance /\
  funcCalls (run_trace run) = [0; 1; 2] /\
  delays (run_trace run) = [1000; 2000].
Proof.
  apply (C2_precondition_failure_retried_to_exhaustion env_insufficient
           3 1000 60000 initialStats (fun _ => insufficientBalance)).
  - lia.
  - intros i Hi. exists feeData_eip1559. reflexivity.
  - intros i g Hi. reflexivity.
Defined.

(** C2 as stated fails on the default call: a closure that throws
    "Insufficient RISE balance." before sending is called three times, with
    two backoff sleeps between the calls. *)
Lemma C2_counterexample :
  (forall i g, func env_insufficient i g = Throws insufficientBalance) /\
  funcCalls (run_trace (withRetry env_insufficient 3 1000 60000 initialStats))
    = [0; 1; 2] /\
  delays (run_trace (withRetry env_insufficient 3 1000 60000 initialStats))
    = [1000; 2000] /\
  ~ C2_as_stated_at env_insufficient 3 1000 60000 initialStats
      insufficientBalance.
Proof.
  split; [intros i g; reflexivity|].
  split; [reflexivity|]. split; [reflexivity|].
  unfold C2_as_stated_at. intros (_ & _ & H & _).
  vm_compute in H. discriminate H.
Qed.

(** C9. With [maxRetries <= 0] the call returns [null]: it reads no fee
    data, does not call the closure, and leaves every counter as it was. *)
Theorem C9_nonpositive_maxRetries_returns_null :
  forall (env : RetryEnv) (maxRetries initialDelayMs timeout : Z)
         (stats : ActivityStats),
    maxRetries <= 0 ->
    withRetry env maxRetries initialDelayMs timeout stats = (Ok None, stats, []).
Proof.
  intros env n d t stats Hn. unfold withRetry.
  replace (Z.to_nat n) with 0%nat by lia. reflexivity.
Qed.

Lemma C9_witness :
  withRetry env_success 0 1000 60000 initialStats = (Ok None, initialStats, []).
Proof.
  apply (C9_nonpositive_maxRetries_returns_null env_success 0 1000 60000
           initialStats).
  lia.
Defined.

(* ------------------------------------------------------------------ *)
(** ** The swap executor *)

Lemma SLIPPAGE_TOLERANCE_DENOMINATOR_50 : SLIPPAGE_TOLERANCE_DENOMINATOR = 50.
Proof. reflexivity. Qed.

Lemma quoteBlock_completes (env : SwapEnv) (amountInRaw : Z)
    (path : list string) (outTokSymbol : string) (amounts : list Z)
    (expected : Z) :
  sw_getAmountsOut env amountInRaw path = Ok amounts ->
  nth_error amounts 1 = Some expected ->
  outTokSymbol = "XRP" \/ (exists dec, sw_outTokenDecimals env = Ok dec) ->
  quoteBlock env amountInRaw path outTokSymbol
  = Ok (slippageFloor_spec expected 50).
Proof.
  intros Hq Hnth Hdec. unfold quoteBlock. rewrite Hq. cbn [bind].
  rewrite Hnth. rewrite SLIPPAGE_TOLERANCE_DENOMINATOR_50.
  destruct Hdec as [HX|[dec Hd]].
  - subst outTokSymbol. reflexivity.
  - rewrite Hd. destruct (String.eqb outTokSymbol "XRP"); reflexivity.
Qed.

Lemma estimateAmountOutMin_decimals_fail (env : SwapEnv) (amountInRaw : Z)
    (path : list string) (outTokSymbol : string) (e : JsError) :
  outTokSymbol <> "XRP" -> sw_outTokenDecimals env = Throws e ->
  estimateAmountOutMin env amountInRaw path outTokSymbol = 0.
Proof.
  intros HX Hd. unfold estimateAmountOutMin, quoteBlock.
  apply String.eqb_neq in HX. rewrite HX, Hd.
  destruct (sw_getAmountsOut env amountInRaw path) as [amounts|e'];
    [|reflexivity].
  cbn [bind]. destruct (nth_error amounts 1); reflexivity.
Qed.

(** C6, amended.  When the quote call answers and the [try] block around
    it completes (the output token is XRP, or its [decimals()] read
    succeeds), the minimum-output floor is
    [expected * (10000 - 50) / 10000] in truncating integer arithmetic, so
    995,000 for an expected output of 1,000,000, the same at each call;
    when the quote call fails the floor is zero and the swap goes on to its
    submission step with that zero floor instead of aborting. *)
Theorem C6_slippage_floor :
  forall (env : SwapEnv) (amountInRaw : Z) (path : list string)
         (outTokSymbol : string),
    (forall amounts expected,
        sw_getAmountsOut env amountInRaw path = Ok amounts ->
        nth_error amounts 1 = Some expected ->
        outTokSymbol = "XRP" \/ (exists dec, sw_outTokenDecimals env = Ok dec) ->
        estimateAmountOutMin env amountInRaw path outTokSymbol
        = slippageFloor_spec expected 50)
    /\ slippageFloor_spec 1000000 50 = 995000
    /\ (forall e,
          sw_getAmountsOut env amountInRaw path = Throws e ->
          estimateAmountOutMin env amountInRaw path outTokSymbol = 0)
    /\ (forall pair amount direction gasOptions inTokSymbol e,
          swapDirection pair direction = (inTokSymbol, outTokSymbol) ->
          swapPreflight env inTokSymbol outTokSymbol amount
            = Ok (amountInRaw, path) ->
          sw_getAmountsOut env amountInRaw path = Throws e ->
          performSwap env pair amount direction gasOptions
          = swapSubmit env inTokSymbol outTokSymbol amount amountInRaw 0 path
              gasOptions).
Proof.
  intros env amountInRaw path outTokSymbol.
  assert (Hfail : forall e,
            sw_getAmountsOut env amountInRaw path = Throws e ->
            estimateAmountOutMin env amountInRaw path outTokSymbol = 0).
  { intros e Hq. unfold estimateAmountOutMin, quoteBlock. rewrite Hq.
    reflexivity. }
  split; [|split; [reflexivity|split; [exact Hfail|]]].
  - intros amounts expected Hq Hnth Hdec. unfold estimateAmountOutMin.
    rewrite (quoteBlock_completes _ _ _ _ _ _ Hq Hnth Hdec). reflexivity.
  - intros pair amount direction gasOptions inTokSymbol e Hdir Hpre Hq.
    unfold performSwap. rewrite Hdir, Hpre, (Hfail e Hq). reflexivity.
Qed.

Lemma C6_witness :
  estimateAmountOutMin swapEnv_quoted (10 ^ 15) path_XRP_RISE "RISE" = 995000
  /\
  performSwap swapEnv_quote_fails ("XRP", "RISE") (1 # 1000) "AtoB"
    (Legacy 5000000000)
  = swapSubmit swapEnv_quote_fails "XRP" "RISE" (1 # 1000) (10 ^ 15) 0
      path_XRP_RISE (Legacy 5000000000).
Proof.
  split.
  - destruct (C6_slippage_floor swapEnv_quoted (10 ^ 15) path_XRP_RISE "RISE")
      as (H & _).
    apply (H [10 ^ 15; 1000000] 1000000).
    + reflexivity.
    + reflexivity.
    + right. exists 18. reflexivity.
  - destruct (C6_slippage_floor swapEnv_quote_fails (10 ^ 15) path_XRP_RISE
                "RISE") as (_ & _ & _ & H).
    apply (H ("XRP", "RISE") (1 # 1000)%Q "AtoB" (Legacy 5000000000) "XRP"
             (Error "missing revert data")).
    + reflexivity.
    + reflexivity.
    + reflexivity.
Defined.

(** C6 as stated fails when the quote call answers 1,000,000 and the
    [decimals()] read of the output token then throws: the floor is 0, not
    995,000, and the router is called with that zero floor. *)
Lemma C6_counterexample :
  sw_getAmountsOut swapEnv_decimals_fail (10 ^ 15) path_XRP_RISE
    = Ok [10 ^ 15; 1000000] /\
  estimateAmountOutMin swapEnv_decimals_fail (10 ^ 15) path_XRP_RISE "RISE" = 0 /\
  snd (performSwap swapEnv_decimals_fail ("XRP", "RISE") (1 # 1000) "AtoB"
         (Legacy 5000000000))
    = [SubRouter (swapExactETHForTokens 0 path_XRP_RISE (10 ^ 15)
                    (Legacy 5000000000))] /\
  ~ C6_as_stated_at swapEnv_decimals_fail (10 ^ 15) path_XRP_RISE "RISE".
Proof.
  split; [reflexivity|]. split; [reflexivity|]. split; [reflexivity|].
  intro H. specialize (H [10 ^ 15; 1000000] 1000000 eq_refl eq_refl).
  vm_compute in H. discriminate H.
Qed.

(* ------------------------------------------------------------------ *)
(** ** The remove-liquidity executor *)

(** C7. The amount of pool-share tokens burnt is
    [balance * removeAmountPercentage / 100] in truncating integer
    arithmetic, 500,000 for a balance of 1,000,000 and 50 percent; with a
    balance of 0, or a computed amount of 0, the executor throws before
    any approval or router call is made. *)
Theorem C7_remove_liquidity_amount :
  forall (env : LiquidityEnv) (cfg : RemoveLiquidityConfig)
         (gasOptions : GasOptions) (tokenAddress : string) (lpBalance : Z),
    js_get TOKENS (lpTokenName cfg) = Some tokenAddress ->
    lp_balanceOf env = Ok lpBalance ->
    let burn := burnAmount_spec lpBalance (removeAmountPercentage cfg) in
    (lpBalance = 0 ->
       performRemoveLiquidity env cfg gasOptions
       = (Throws (Error ("No LP tokens for " ++ lpTokenName cfg)%string), []))
    /\ (lpBalance <> 0 -> burn = 0 ->
          performRemoveLiquidity env cfg gasOptions
          = (Throws (Error "Calculated LP amount to remove is zero."), []))
    /\ (lpBalance <> 0 -> burn <> 0 ->
          forall s, In s (snd (performRemoveLiquidity env cfg gasOptions)) ->
            s = SubApprove ROUTER_ADDRESS burn \/
            s = SubRouter (removeLiquidityETH tokenAddress burn gasOptions))
    /\ (lpBalance <> 0 -> burn <> 0 ->
          forall allowance,
            lp_allowance env = Ok allowance ->
            (allowance < burn -> lp_approve env burn = Ok tt) ->
            fst (performRemoveLiquidity env cfg gasOptions)
            = lp_router env (removeLiquidityETH tokenAddress burn gasOptions))
    /\ burnAmount_spec 1000000 50 = 500000.
Proof.
  intros env cfg gasOptions tokenAddress lpBalance Htok Hbal burn.
  unfold performRemoveLiquidity. rewrite Htok, Hbal.
  fold (burnAmount_spec lpBalance (removeAmountPercentage cfg)).
  unfold bigint_div.
  change (Z.quot (lpBalance * removeAmountPercentage cfg) 100) with burn.
  split; [|split; [|split; [|split; [|reflexivity]]]].
  - intro H0. subst lpBalance. reflexivity.
  - intros Hne Hb. apply Z.eqb_neq in Hne. rewrite Hne, Hb. reflexivity.
  - intros Hne Hb s Hin. apply Z.eqb_neq in Hne, Hb. rewrite Hne, Hb in Hin.
    destruct (lp_allowance env) as [allowance|e]; [|destruct Hin].
    destruct (allowance <? burn).
    + destruct (lp_approve env burn) as [u|e]; cbn [snd In] in Hin;
        intuition auto.
    + cbn [snd In] in Hin. intuition auto.
  - intros Hne Hb allowance Hall Happ. apply Z.eqb_neq in Hne, Hb.
    rewrite Hne, Hb, Hall.
    destruct (allowance <? burn) eqn:E; [|reflexivity].
    apply Z.ltb_lt in E. rewrite (Happ E). reflexivity.
Qed.

Lemma C7_witness :
  performRemoveLiquidity liquidityEnv_empty REMOVE_LIQUIDITY_CONFIG (Legacy 5)
    = (Throws (Error "No LP tokens for RISE"), []) /\
  fst (performRemoveLiquidity liquidityEnv_million REMOVE_LIQUIDITY_CONFIG
         (Legacy 5))
    = lp_router liquidityEnv_million
        (removeLiquidityETH "0x0c28777DEebe4589e83EF2Dc7833354e6a0aFF85"
           500000 (Legacy 5)).
Proof.
  split.
  - destruct (C7_remove_liquidity_amount liquidityEnv_empty
                REMOVE_LIQUIDITY_CONFIG (Legacy 5)
                "0x0c28777DEebe4589e83EF2Dc7833354e6a0aFF85" 0
                eq_refl eq_refl) as (H & _).
    apply H. reflexivity.
  - destruct (C7_remove_liquidity_amount liquidityEnv_million
                REMOVE_LIQUIDITY_CONFIG (Legacy 5)
                "0x0c28777DEebe4589e83EF2Dc7833354e6a0aFF85" 1000000
                eq_refl eq_refl) as (_ & _ & _ & H & _).
    apply (H ltac:(discriminate) ltac:(discriminate) 0 eq_refl).
    intros _. reflexivity.
Defined.

(* ------------------------------------------------------------------ *)
(** ** checkAndRebalance *)

Lemma swapsRequested_app (a b : list Event) :
  swapsRequested (a ++ b) = swapsRequested a ++ swapsRequested b.
Proof. apply flat_map_app. Qed.

Lemma tryTrace_swapsRequested (env : RetryEnv) (t i : Z) :
  swapsRequested (tryTrace env t i) = [].
Proof.
  unfold tryTrace, tryBlock, run_trace.
  destruct (getGasPrice (getFeeData env i) i) as [g|e]; [|reflexivity].
  destruct (func env i g) as [[| |hash wait]|e]; try reflexivity.
  destruct (race wait t); reflexivity.
Qed.

Lemma withRetry_loop_swapsRequested (env : RetryEnv) (n d t : Z) (k : nat) :
  forall i stats,
    swapsRequested (run_trace (withRetry_loop env n d t k i stats)) = [].
Proof.
  induction k as [|k IH]; intros i stats; [reflexivity|].
  rewrite withRetry_loop_step. cbv zeta.
  destruct (tryResult env t i) as [r|e]; [|destruct (i <? n - 1)];
    run_simpl; rewrite ?swapsRequested_app, tryTrace_swapsRequested;
    [reflexivity| |reflexivity].
  cbn [app]. change (swapsRequested (EvAttemptFailed (i + 1) n e
                       :: EvDelay (d * (i + 1)) :: ?l))
    with (swapsRequested l). apply IH.
Qed.

(** With attempts to make, [withRetry] returns a receipt or throws. *)
Lemma withRetry_loop_not_null (env : RetryEnv) (n d t : Z) (k : nat) :
  forall i stats,
    n = i + Z.of_nat (S k) ->
    run_result (withRetry_loop env n d t (S k) i stats) <> Ok None.
Proof.
  induction k as [|k IH]; intros i stats Hn;
    rewrite withRetry_loop_step; cbv zeta;
    (destruct (tryResult env t i) as [r|e]; [run_simpl; discriminate|]).
  - replace (i <? n - 1) with false by (symmetry; apply Z.ltb_ge; lia).
    run_simpl. discriminate.
  - replace (i <? n - 1) with true by (symmetry; apply Z.ltb_lt; lia).
    run_simpl. apply IH. lia.
Qed.

Lemma withRetry_default_not_null (env : RetryEnv) (stats : ActivityStats) :
  run_result (withRetry_default env stats) <> Ok None.
Proof.
  unfold withRetry_default, withRetry.
  change (Z.to_nat 3) with 3%nat. apply withRetry_loop_not_null. reflexivity.
Qed.

Lemma swapThroughRetry_swapsRequested (w : World) (inTok outTok : string)
    (amount : Q) (stats : ActivityStats) :
  swapsRequested (run_trace (swapThroughRetry w inTok outTok amount stats))
  = [(inTok, outTok, amount)] /\
  run_result (swapThroughRetry w inTok outTok amount stats) <> Ok None.
Proof.
  unfold swapThroughRetry.
  pose proof (withRetry_default_not_null
                (swapRetryEnv w inTok outTok amount) stats) as Hnn.
  pose proof (withRetry_loop_swapsRequested
                (swapRetryEnv w inTok outTok amount) 3 1000 60000
                (Z.to_nat 3) 0 stats) as Hsw.
  fold (withRetry (swapRetryEnv w inTok outTok amount) 3 1000 60000 stats)
    in Hsw.
  fold (withRetry_default (swapRetryEnv w inTok outTok amount) stats) in Hsw.
  destruct (withRetry_default (swapRetryEnv w inTok outTok amount) stats)
    as [[r s1] evs].
  revert Hnn Hsw. run_simpl. intros Hnn Hsw.
  cbn [swapsRequested flat_map app]. fold (swapsRequested evs).
  rewrite Hsw. split; [reflexivity|exact Hnn].
Qed.

(** What the XRP branch of bot.js does: it swaps, once, 5% (to four
    decimals) of the first token of [TOKENS] that passes [donor_bot], for
    XRP. *)
Lemma rebalanceXRP_loop_swaps (w : World) (tokens : list string) :
  forall stats,
    swapsRequested (run_trace (rebalanceXRP_loop w tokens stats)) =
    match find (donor_bot w) tokens with
    | Some sym => [(sym, "XRP", toFixed4 (w_balance w sym * (5 # 100)))]
    | None => []
    end.
Proof.
  induction tokens as [|sym rest IH]; intro stats; [reflexivity|].
  cbn [rebalanceXRP_loop find]. unfold donor_bot at 1.
  destruct (String.eqb sym "XRP" || Qltb (w_balance w sym) (threshold_XRP * 2));
    [apply IH|].
  destruct (Qleb (toFixed4 (w_balance w sym * (5 # 100))) 0); [apply IH|].
  cbn [negb andb].
  destruct (swapThroughRetry_swapsRequested w sym "XRP"
              (toFixed4 (w_balance w sym * (5 # 100))) stats) as [Hsw Hnn].
  destruct (swapThroughRetry w sym "XRP"
              (toFixed4 (w_balance w sym * (5 # 100))) stats)
    as [[[[receipt|]|e] s1] evs]; revert Hsw Hnn; run_simpl; intros Hsw Hnn.
  - exact Hsw.
  - exfalso. apply Hnn. reflexivity.
  - exact Hsw.
Qed.

Lemma rebalanceTokens_loop_swaps (w : World) (thresholds : list (string * Q)) :
  forall stats,
    (List.length
       (swapsRequested (snd (rebalanceTokens_loop w thresholds stats)))
     <= 1)%nat.
Proof.
  induction thresholds as [|[sym threshold] rest IH]; intro stats;
    [cbn; lia|].
  cbn [rebalanceTokens_loop].
  destruct (String.eqb sym "XRP"); [apply IH|].
  destruct (Qltb (w_balance w sym) threshold); [|apply IH].
  destruct (Qltb (threshold_XRP * 2) (w_balance w "XRP")); [|cbn; lia].
  destruct (Qleb (toFixed4 (w_balance w "XRP" * (1 # 100))) 0); [apply IH|].
  destruct (swapThroughRetry_swapsRequested w "XRP" sym
              (toFixed4 (w_balance w "XRP" * (1 # 100))) stats) as [Hsw _].
  destruct (swapThroughRetry w "XRP" sym
              (toFixed4 (w_balance w "XRP" * (1 # 100))) stats)
    as [[[[receipt|]|e] s1] evs]; revert Hsw; run_simpl; intro Hsw;
    cbn [snd]; rewrite ?swapsRequested_app, Hsw; cbn; lia.
Qed.

(** One call of [checkAndRebalance] puts at most one swap through
    [withRetry]. *)
Lemma checkAndRebalance_at_most_one_swap (w : World) (stats : ActivityStats) :
  (List.length (swapsRequested (snd (checkAndRebalance w stats))) <= 1)%nat.
Proof.
  unfold checkAndRebalance.
  destruct (Qltb (w_balance w "XRP") threshold_XRP);
    [|apply rebalanceTokens_loop_swaps].
  pose proof (rebalanceXRP_loop_swaps w (js_keys TOKENS) stats) as H.
  destruct (rebalanceXRP_loop w (js_keys TOKENS) stats) as [[[b|e] s1] evs];
    revert H; run_simpl; intro H; cbn [snd];
    rewrite ?swapsRequested_app, H;
    destruct (find (donor_bot w) (js_keys TOKENS)); cbn; lia.
Qed.



(* ------------------------------------------------------------------ *)
(** ** The activity counters *)

Lemma steps_trans (s1 s2 s3 : ActivityStats) :
  steps s1 s2 -> steps s2 s3 -> steps s1 s3.
Proof.
  intros H12 H23. induction H23 as [|s2 s3 s4 _ IH Hs]; [exact H12|].
  apply (steps_step s1 s3 s4); [apply IH; exact H12|exact Hs].
Qed.

Lemma step_unchanged_or_incremented (s s' : ActivityStats) :
  step s s' -> unchanged_or_incremented s s'.
Proof.
  intro H. destruct H; unfold unchanged_or_incremented, counters; cbn;
    repeat (constructor; [auto|]); constructor.
Qed.

Lemma nondecreasing_refl (s : ActivityStats) : nondecreasing s s.
Proof.
  unfold nondecreasing, counters. repeat (constructor; [apply le_n|]).
  constructor.
Qed.

Lemma steps_nondecreasing (s s' : ActivityStats) :
  steps s s' -> nondecreasing s s'.
Proof.
  intro H. induction H as [s|s1 s2 s3 _ IH Hs]; [apply nondecreasing_refl|].
  destruct s1, s2. destruct Hs; unfold nondecreasing, counters in *; cbn in *;
    repeat match goal with
           | H : Forall2 _ (_ :: _) (_ :: _) |- _ =>
             inversion H; subst; clear H
           end;
    repeat (constructor; [lia|]); constructor.
Qed.

Lemma steps_add_totalTransactions (n : nat) (s : ActivityStats) :
  steps s (add_totalTransactions n s).
Proof.
  unfold add_totalTransactions. induction n as [|n IH]; [apply steps_refl|].
  rewrite Nat.iter_succ.
  apply (steps_step s (Nat.iter n inc_totalTransactions s) _ IH).
  apply step_totalTransactions.
Qed.

Lemma withRetry_steps (env : RetryEnv) (n d t : Z) (s : ActivityStats) :
  steps s (run_stats (withRetry env n d t s)).
Proof.
  unfold withRetry.
  rewrite (withRetry_loop_stats env n d t (Z.to_nat n) 0 s).
  apply steps_add_totalTransactions.
Qed.

Lemma swapThroughRetry_steps (w : World) (inTok outTok : string) (amount : Q)
    (s : ActivityStats) :
  steps s (run_stats (swapThroughRetry w inTok outTok amount s)).
Proof.
  unfold swapThroughRetry.
  pose proof (withRetry_steps (swapRetryEnv w inTok outTok amount)
                3 1000 60000 s) as H.
  fold (withRetry_default (swapRetryEnv w inTok outTok amount) s) in H.
  destruct (withRetry_default (swapRetryEnv w inTok outTok amount) s)
    as [[r s1] evs].
  exact H.
Qed.

Lemma rebalanceXRP_loop_steps (w : World) (tokens : list string) :
  forall s, steps s (run_stats (rebalanceXRP_loop w tokens s)).
Proof.
  induction tokens as [|sym rest IH]; intro s; [apply steps_refl|].
  cbn [rebalanceXRP_loop].
  destruct (String.eqb sym "XRP" || Qltb (w_balance w sym) (threshold_XRP * 2));
    [apply IH|].
  destruct (Qleb (toFixed4 (w_balance w sym * (5 # 100))) 0); [apply IH|].
  pose proof (swapThroughRetry_steps w sym "XRP"
                (toFixed4 (w_balance w sym * (5 # 100))) s) as H.
  destruct (swapThroughRetry w sym "XRP"
              (toFixed4 (w_balance w sym * (5 # 100))) s)
    as [[[[receipt|]|e] s1] evs]; revert H; run_simpl; intro H.
  - apply (steps_step s s1 _ H). apply step_rebalances.
  - specialize (IH s1).
    destruct (rebalanceXRP_loop w rest s1) as [[r s2] evs'].
    revert IH. run_simpl. intro IH. apply (steps_trans s s1 s2 H IH).
  - exact H.
Qed.

Lemma rebalanceTokens_loop_steps (w : World) (thresholds : list (string * Q)) :
  forall s, steps s (fst (rebalanceTokens_loop w thresholds s)).
Proof.
  induction thresholds as [|[sym threshold] rest IH]; intro s;
    [apply steps_refl|].
  cbn [rebalanceTokens_loop].
  destruct (String.eqb sym "XRP"); [apply IH|].
  destruct (Qltb (w_balance w sym) threshold); [|apply IH].
  destruct (Qltb (threshold_XRP * 2) (w_balance w "XRP")); [|apply steps_refl].
  destruct (Qleb (toFixed4 (w_balance w "XRP" * (1 # 100))) 0); [apply IH|].
  pose proof (swapThroughRetry_steps w "XRP" sym
                (toFixed4 (w_balance w "XRP" * (1 # 100))) s) as H.
  destruct (swapThroughRetry w "XRP" sym
              (toFixed4 (w_balance w "XRP" * (1 # 100))) s)
    as [[[[receipt|]|e] s1] evs]; revert H; run_simpl; intro H; cbn [fst].
  - apply (steps_step s s1 _ H). apply step_rebalances.
  - exact H.
  - exact H.
Qed.

Lemma checkAndRebalance_steps (w : World) (s : ActivityStats) :
  steps s (fst (checkAndRebalance w s)).
Proof.
  unfold checkAndRebalance.
  destruct (Qltb (w_balance w "XRP") threshold_XRP);
    [|apply rebalanceTokens_loop_steps].
  pose proof (rebalanceXRP_loop_steps w (js_keys TOKENS) s) as H.
  destruct (rebalanceXRP_loop w (js_keys TOKENS) s) as [[[b|e] s1] evs];
    exact H.
Qed.

Lemma countIfReceipt_steps (inc : ActivityStats -> ActivityStats)
    (run : Result (option Receipt) * ActivityStats * list Event)
    (s : ActivityStats) :
  (forall x, step x (inc x)) ->
  steps s (run_stats run) -> steps s (run_stats (countIfReceipt inc run)).
Proof.
  intros Hinc H. destruct run as [[[[receipt|]|e] s1] evs];
    revert H; cbn [countIfReceipt]; run_simpl; intro H; try exact H.
  apply (steps_step s s1 _ H). apply Hinc.
Qed.

Lemma startRandomLoop_switch_steps (customContracts : nat) (pw : PassWorld)
    (s : ActivityStats) :
  steps s (run_stats (startRandomLoop_switch customContracts pw s)).
Proof.
  unfold startRandomLoop_switch.
  destruct (pw_action pw).
  - destruct (_ =? _)%nat; [apply steps_refl|].
    destruct (Qltb 0 (pw_swapAmount pw)); [|apply steps_refl].
    apply countIfReceipt_steps; [apply step_swaps|].
    apply swapThroughRetry_steps.
  - apply countIfReceipt_steps; [apply step_addsLiquidity|].
    apply withRetry_steps.
  - apply countIfReceipt_steps; [apply step_removesLiquidity|].
    apply withRetry_steps.
  - apply countIfReceipt_steps; [apply step_sendsAndReceives|].
    apply withRetry_steps.
  - apply countIfReceipt_steps; [apply step_randomSends|].
    apply withRetry_steps.
  - destruct (0 <? customContracts)%nat; [|apply steps_refl].
    apply countIfReceipt_steps; [apply step_customContractCalls|].
    apply withRetry_steps.
Qed.

Lemma startRandomLoop_try_steps (customContracts : nat) (pw : PassWorld)
    (s : ActivityStats) :
  steps s (run_stats (startRandomLoop_try customContracts pw s)).
Proof.
  unfold startRandomLoop_try.
  pose proof (checkAndRebalance_steps (pw_world pw) s) as H1.
  destruct (checkAndRebalance (pw_world pw) s) as [s1 evs]. cbn [fst] in H1.
  pose proof (startRandomLoop_switch_steps customContracts pw s1) as H2.
  destruct (startRandomLoop_switch customContracts pw s1) as [[[[receipt|]|e] s2] evs'];
    revert H2; run_simpl; intro H2; apply (steps_trans s s1 s2 H1 H2).
Qed.

Lemma startRandomLoop_while_steps (customContracts : nat)
    (passes : nat -> PassWorld) (retriesLeft : nat) :
  forall k s,
    steps s (fst (startRandomLoop_while customContracts passes retriesLeft k s)).
Proof.
  induction retriesLeft as [|r IH]; intros k s; [apply steps_refl|].
  cbn [startRandomLoop_while].
  pose proof (startRandomLoop_try_steps customContracts (passes k) s) as H1.
  destruct (startRandomLoop_try customContracts (passes k) s) as [[[|] s1] evs];
    revert H1; run_simpl; intro H1; [exact H1|].
  specialize (IH (S k) s1).
  destruct (startRandomLoop_while customContracts passes r (S k) s1) as [s2 evs'].
  cbn [fst] in *. apply (steps_trans s s1 s2 H1 IH).
Qed.

(** C10.  Each write to a counter of [activityStats] leaves every counter
    as it was or one more; the runs of [withRetry], [checkAndRebalance],
    the action switch and the per-wallet loop are sequences of such writes;
    so no counter ever decreases or is reset. *)
Theorem C10_counters_never_decrease :
  (forall s s', step s s' -> unchanged_or_incremented s s')
  /\ (forall s s', steps s s' -> nondecreasing s s')
  /\ (forall env maxRetries initialDelayMs timeout s,
        steps s (run_stats (withRetry env maxRetries initialDelayMs timeout s)))
  /\ (forall w s, steps s (fst (checkAndRebalance w s)))
  /\ (forall customContracts pw s,
        steps s (run_stats (startRandomLoop_switch customContracts pw s)))
  /\ (forall passes s, steps s (fst (startRandomLoop_wallet passes s))).
Proof.
  split; [exact step_unchanged_or_incremented|].
  split; [exact steps_nondecreasing|].
  split; [exact withRetry_steps|].
  split; [exact checkAndRebalance_steps|].
  split; [exact startRandomLoop_switch_steps|].
  intros passes s. apply startRandomLoop_while_steps.
Qed.

Lemma C10_witness :
  unchanged_or_incremented initialStats (inc_swaps initialStats) /\
  nondecreasing initialStats
    (run_stats (withRetry env_timeout_then_success 3 1000 60000 initialStats)).
Proof.
  destruct C10_counters_never_decrease as (Hstep & Hmono & Hretry & _).
  split.
  - apply Hstep. apply step_swaps.
  - apply Hmono. apply Hretry.
Defined.

(* ================================================================== *)
(** * Further properties of the code *)

(* ------------------------------------------------------------------ *)
(** ** getGasPrice, further *)






(** The value of [feeData.maxFeePerGas] is only tested for truthiness: two
    answers that differ in it alone, both non-zero, give the same quote. *)
Theorem getGasPrice_ignores_maxFeePerGas_value :
  forall (fd : FeeData) (m m' i : Z),
    m <> 0 -> m' <> 0 ->
    getGasPrice_of (with_maxFeePerGas fd (Some m)) i
    = getGasPrice_of (with_maxFeePerGas fd (Some m')) i.
Proof.
  intros fd m m' i Hm Hm'. unfold getGasPrice_of, with_maxFeePerGas.
  cbn [fd_gasPrice fd_maxFeePerGas fd_maxPriorityFeePerGas fd_lastBaseFeePerGas].
  apply Z.eqb_neq in Hm, Hm'. rewrite Hm, Hm'. reflexivity.
Qed.

Lemma getGasPrice_ignores_maxFeePerGas_value_witness :
  getGasPrice_of (with_maxFeePerGas feeData_eip1559 (Some 100)) 0
  = getGasPrice_of (with_maxFeePerGas feeData_eip1559 (Some 999)) 0.
Proof.
  apply (getGasPrice_ignores_maxFeePerGas_value feeData_eip1559 100 999 0).
  - discriminate.
  - discriminate.
Defined.

(* ------------------------------------------------------------------ *)
(** ** withRetry, further *)

Lemma classifyReceipt_ok (hash : string) (receipt : option Receipt)
    (r : Receipt) :
  classifyReceipt hash receipt = Ok r -> status r = Some 1.
Proof.
  unfold classifyReceipt. destruct receipt as [r0|]; [|discriminate].
  destruct (status r0) as [[|[p|p|]|p]|] eqn:E; try discriminate.
  intro H. injection H as <-. exact E.
Qed.

Lemma tryResult_ok_status (env : RetryEnv) (t i : Z) (r : Receipt) :
  tryResult env t i = Ok r -> status r = Some 1.
Proof.
  unfold tryResult, tryBlock, run_result.
  destruct (getGasPrice (getFeeData env i) i) as [g|e]; [|discriminate].
  destruct (func env i g) as [[| |hash wait]|e]; try discriminate.
  destruct (race wait t) as [receipt|e]; [|discriminate].
  cbn [fst]. apply classifyReceipt_ok.
Qed.

Lemma withRetry_loop_receipt_or_error (env : RetryEnv) (n d t : Z) (k : nat) :
  forall i stats,
    n = i + Z.of_nat (S k) ->
    (exists r, run_result (withRetry_loop env n d t (S k) i stats) = Ok (Some r)
               /\ status r = Some 1)
    \/ (exists e, run_result (withRetry_loop env n d t (S k) i stats) = Throws e).
Proof.
  induction k as [|k IH]; intros i stats Hn;
    rewrite withRetry_loop_step; cbv zeta;
    (destruct (tryResult env t i) as [r|e] eqn:E;
     [left; exists r; run_simpl;
      split; [reflexivity|exact (tryResult_ok_status _ _ _ _ E)]|]).
  - replace (i <? n - 1) with false by (symmetry; apply Z.ltb_ge; lia).
    right. exists e. reflexivity.
  - replace (i <? n - 1) with true by (symmetry; apply Z.ltb_lt; lia).
    run_simpl. apply IH. lia.
Qed.

(** With at least one attempt to make, [withRetry] ends in one of two
    ways: it returns a receipt whose status is 1, or it throws.  It never
    returns [null] and never returns a receipt of another status. *)
Theorem withRetry_receipt_or_error :
  forall (env : RetryEnv) (n d t : Z) (stats : ActivityStats),
    1 <= n ->
    (exists r, run_result (withRetry env n d t stats) = Ok (Some r)
               /\ status r = Some 1)
    \/ (exists e, run_result (withRetry env n d t stats) = Throws e).
Proof.
  intros env n d t stats Hn. unfold withRetry.
  replace (Z.to_nat n) with (S (Z.to_nat (n - 1))) by lia.
  apply withRetry_loop_receipt_or_error. lia.
Qed.

Lemma withRetry_receipt_or_error_witness :
  (exists r, run_result (withRetry env_timeout_then_success 3 1000 60000
                           initialStats) = Ok (Some r)
             /\ status r = Some 1)
  \/ (exists e, run_result (withRetry env_timeout_then_success 3 1000 60000
                              initialStats) = Throws e).
Proof.
  apply (withRetry_receipt_or_error env_timeout_then_success 3 1000 60000
           initialStats).
  lia.
Defined.

Lemma tryTrace_funcCalls_filter (env : RetryEnv) (t i : Z) :
  funcCalls (tryTrace env t i) = filter (feeDataRead env) [i].
Proof.
  unfold tryTrace, tryBlock, run_trace, feeDataRead, feeAnswers. cbn [filter].
  destruct (getFeeData env i) as [fd|e]; [|reflexivity].
  cbn [getGasPrice].
  destruct (func env i (getGasPrice_of fd i)) as [[| |hash wait]|e];
    try reflexivity.
  destruct (race wait t); reflexivity.
Qed.

Lemma withRetry_loop_shape (env : RetryEnv) (n d t : Z) (k : nat) :
  forall i stats,
    k = Z.to_nat (n - i) ->
    let run := withRetry_loop env n d t k i stats in
    exists attempts : nat,
      (attempts <= k)%nat /\ (k <> 0%nat -> attempts <> 0%nat) /\
      feeReads (run_trace run) = Zseq i attempts /\
      delays (run_trace run)
        = map (fun j => d * (j + 1)) (Zseq i (pred attempts)) /\
      funcCalls (run_trace run) = filter (feeDataRead env) (Zseq i attempts).
Proof.
  induction k as [|k IH]; intros i stats Hk; cbv zeta.
  - exists 0%nat. split; [lia|]. split; [intro H; exact H|].
    split; [reflexivity|split; reflexivity].
  - rewrite withRetry_loop_step. cbv zeta.
    destruct (tryResult env t i) as [r|e]; [|destruct (i <? n - 1) eqn:Hlt].
    + exists 1%nat. run_simpl.
      rewrite tryTrace_feeReads, tryTrace_delays, tryTrace_funcCalls_filter.
      split; [lia|]. split; [discriminate|].
      split; [reflexivity|split; reflexivity].
    + apply Z.ltb_lt in Hlt.
      destruct (IH (i + 1)
                  (if sendsTransaction env i then inc_totalTransactions stats
                   else stats)) as (a & Ha & Hnz & Hf & Hd & Hc); [lia|].
      cbv zeta in Hf, Hd, Hc.
      destruct a as [|a]; [exfalso; apply Hnz; [lia|reflexivity]|].
      exists (S (S a)). run_simpl.
      rewrite feeReads_app, delays_app, funcCalls_app,
        feeReads_failed_delay, delays_failed_delay, funcCalls_failed_delay,
        tryTrace_feeReads, tryTrace_delays, tryTrace_funcCalls_filter,
        Hf, Hd, Hc.
      split; [lia|]. split; [discriminate|].
      cbn [pred Zseq map app filter].
      destruct (feeDataRead env i); split; try reflexivity;
        split; reflexivity.
    + exists 1%nat. run_simpl.
      rewrite feeReads_app, delays_app, funcCalls_app,
        tryTrace_feeReads, tryTrace_delays, tryTrace_funcCalls_filter.
      split; [lia|]. split; [discriminate|].
      cbn [pred Zseq map app filter feeReads delays funcCalls flat_map].
      destruct (feeDataRead env i); split; try reflexivity;
        split; reflexivity.
Qed.

(** The shape of every run: the attempts made are [0, 1, ..., a - 1] for
    some [a <= maxRetries], there is one sleep between two consecutive
    attempts and it lasts [initialDelayMs * (i + 1)] after attempt [i], the
    closure is called in exactly the attempts whose fee-data read answered,
    and [totalTransactions] grows by at most [a]. *)
Theorem withRetry_trace_shape :
  forall (env : RetryEnv) (n d t : Z) (stats : ActivityStats),
    let run := withRetry env n d t stats in
    exists attempts : nat,
      (attempts <= Z.to_nat n)%nat /\
      feeReads (run_trace run) = Zseq 0 attempts /\
      delays (run_trace run)
        = map (fun i => d * (i + 1)) (Zseq 0 (pred attempts)) /\
      funcCalls (run_trace run) = filter (feeDataRead env) (Zseq 0 attempts) /\
      (totalTransactions (run_stats run)
       <= totalTransactions stats + attempts)%nat.
Proof.
  intros env n d t stats run. subst run. unfold withRetry.
  destruct (withRetry_loop_shape env n d t (Z.to_nat n) 0 stats)
    as (a & Ha & _ & Hf & Hd & Hc); [rewrite Z.sub_0_r; reflexivity|].
  cbv zeta in Hf, Hd, Hc.
  exists a. split; [exact Ha|]. split; [exact Hf|]. split; [exact Hd|].
  split; [exact Hc|].
  rewrite (withRetry_loop_stats env n d t (Z.to_nat n) 0 stats).
  rewrite add_totalTransactions_total, Hf.
  pose proof (filter_length_le (sendsTransaction env) (Zseq 0 a)) as Hle.
  assert (Hlen : forall m s, List.length (Zseq s m) = m).
  { induction m as [|m IHm]; intro s; [reflexivity|].
    cbn [Zseq List.length]. rewrite IHm. reflexivity. }
  rewrite Hlen in Hle. lia.
Qed.

Lemma withRetry_loop_first_success (env : RetryEnv) (n d t : Z)
    (err : Z -> JsError) (r : Receipt) (m : nat) :
  forall (i : Z) (k : nat) (stats : ActivityStats),
    i + Z.of_nat m < n ->
    (forall j, i <= j < i + Z.of_nat m -> tryResult env t j = Throws (err j)) ->
    tryResult env t (i + Z.of_nat m) = Ok r ->
    (m < k)%nat ->
    let run := withRetry_loop env n d t k i stats in
    run_result run = Ok (Some r) /\
    feeReads (run_trace run) = Zseq i (S m) /\
    delays (run_trace run) = map (fun j => d * (j + 1)) (Zseq i m).
Proof.
  induction m as [|m IH]; intros i k stats Hlt Hfail Hok Hk; cbv zeta;
    (destruct k as [|k]; [lia|]); rewrite withRetry_loop_step; cbv zeta.
  - replace (i + Z.of_nat 0) with i in Hok by lia. rewrite Hok. run_simpl.
    rewrite tryTrace_feeReads, tryTrace_delays. repeat split.
  - rewrite (Hfail i) by lia.
    replace (i <? n - 1) with true by (symmetry; apply Z.ltb_lt; lia).
    run_simpl.
    destruct (IH (i + 1) k
                (if sendsTransaction env i then inc_totalTransactions stats
                 else stats)) as (Hr & Hf & Hd).
    + lia.
    + intros j Hj. apply Hfail. lia.
    + replace (i + 1 + Z.of_nat m) with (i + Z.of_nat (S m)) by lia.
      exact Hok.
    + lia.
    + cbv zeta in Hr, Hf, Hd.
      rewrite feeReads_app, delays_app, feeReads_failed_delay,
        delays_failed_delay, tryTrace_feeReads, tryTrace_delays, Hr, Hf, Hd.
      repeat split.
Qed.

(** The call stops at the first attempt that succeeds: when the attempts
    before [k] fail and attempt [k < maxRetries] is confirmed, the receipt
    of attempt [k] is returned after [k + 1] attempts and [k] sleeps, and no
    later attempt is made. *)
Theorem withRetry_stops_at_first_success :
  forall (env : RetryEnv) (n d t : Z) (stats : ActivityStats) (k : Z)
         (r : Receipt) (err : Z -> JsError),
    0 <= k < n ->
    (forall j, 0 <= j < k -> tryResult env t j = Throws (err j)) ->
    tryResult env t k = Ok r ->
    let run := withRetry env n d t stats in
    run_result run = Ok (Some r) /\
    feeReads (run_trace run) = Zseq 0 (S (Z.to_nat k)) /\
    delays (run_trace run) = map (fun i => d * (i + 1)) (Zseq 0 (Z.to_nat k)).
Proof.
  intros env n d t stats k r err Hk Hfail Hok run. subst run.
  unfold withRetry.
  apply (withRetry_loop_first_success env n d t err r (Z.to_nat k)).
  - lia.
  - intros j Hj. apply Hfail. lia.
  - replace (0 + Z.of_nat (Z.to_nat k)) with k by lia. exact Hok.
  - lia.
Qed.

Lemma withRetry_stops_at_first_success_witness :
  let run := withRetry env_timeout_then_success 3 1000 60000 initialStats in
  run_result run = Ok (Some receipt_success) /\
  feeReads (run_trace run) = [0; 1] /\
  delays (run_trace run) = [1000].
Proof.
  apply (withRetry_stops_at_first_success env_timeout_then_success 3 1000
           60000 initialStats 1 receipt_success (fun _ => timeoutError)).
  - lia.
  - intros j Hj. replace j with 0 by lia. reflexivity.
  - reflexivity.
Defined.

(* ------------------------------------------------------------------ *)
(** ** selectWeightedAction *)

Lemma Qltb_true (a b : Q) : Qltb a b = true <-> (a < b)%Q.
Proof.
  unfold Qltb. rewrite negb_true_iff. split; intro H.
  - apply Qnot_le_lt. intro Hle. apply Qle_bool_iff in Hle. congruence.
  - destruct (Qle_bool b a) eqn:E; [|reflexivity].
    apply Qle_bool_iff in E. lra.
Qed.

Lemma Qltb_false (a b : Q) : Qltb a b = false <-> (b <= a)%Q.
Proof.
  unfold Qltb. rewrite negb_false_iff. apply Qle_bool_iff.
Qed.



(** The action returned is the one whose cumulative interval holds the
    draw: when [c <= rand] and [rand] is below [c] plus the sum of the
    table, the table splits around an entry [(action, p)] with
    [c + sum before <= rand < c + sum before + p], and that action is
    returned; the fallback after the loop is not reached. *)
Theorem selectWeightedAction_loop_interval :
  forall (table : list (Action * Q)) (rand c : Q),
    (c <= rand)%Q -> (rand < c + sumQ (map snd table))%Q ->
    exists before action p after,
      table = before ++ (action, p) :: after /\
      selectWeightedAction_loop table rand c = action /\
      (c + sumQ (map snd before) <= rand)%Q /\
      (rand < c + sumQ (map snd before) + p)%Q.
Proof.
  induction table as [|[a p] rest IH]; intros rand c Hlo Hhi.
  - cbn [map sumQ] in Hhi. lra.
  - cbn [selectWeightedAction_loop].
    destruct (Qltb rand (c + p)) eqn:E.
    + apply Qltb_true in E. exists [], a, p, rest.
      cbn [app map sumQ]. repeat split; lra.
    + apply Qltb_false in E.
      destruct (IH rand (c + p)%Q)
        as (before & a' & p' & after & Ht & Hsel & H1 & H2).
      * exact E.
      * cbn [map sumQ snd] in Hhi. lra.
      * exists ((a, p) :: before), a', p', after.
        cbn [app map sumQ snd].
        split; [rewrite Ht; reflexivity|].
        split; [exact Hsel|]. split; lra.
Qed.

Lemma selectWeightedAction_loop_interval_witness :
  exists before action p after,
    ACTION_PROBABILITIES = before ++ (action, p) :: after /\
    selectWeightedAction_loop ACTION_PROBABILITIES 65 0 = action /\
    (0 + sumQ (map snd before) <= 65)%Q /\
    (65 < 0 + sumQ (map snd before) + p)%Q.
Proof.
  apply (selectWeightedAction_loop_interval ACTION_PROBABILITIES 65 0).
  - lra.
  - cbn. lra.
Defined.



(* ------------------------------------------------------------------ *)
(** ** The older copy, src/unnamed/part_000 *)





(** The floor of part_000 (line 328), [expected - expected * 50 / 10000],
    against the floor of bot.js (line 670), [expected * 9950 / 10000], for
    the same non-negative quote: never below it, at most one unit above it,
    and equal to it exactly when the quote is a multiple of 200. *)
Theorem Part000_floor_against_bot_floor :
  forall (env : SwapEnv) (amountInRaw : Z) (path : list string)
         (outTokSymbol : string) (amounts : list Z) (expected : Z),
    sw_getAmountsOut env amountInRaw path = Ok amounts ->
    nth_error amounts 1 = Some expected ->
    outTokSymbol = "XRP" \/ (exists dec, sw_outTokenDecimals env = Ok dec) ->
    0 <= expected ->
    let bot := estimateAmountOutMin env amountInRaw path outTokSymbol in
    bot <= Part000.amountOutMin_of_quote expected <= bot + 1 /\
    (Part000.amountOutMin_of_quote expected = bot <-> expected mod 200 = 0).
Proof.
  intros env amountInRaw path outTokSymbol amounts expected Hq Hnth Hdec He bot.
  subst bot. unfold estimateAmountOutMin.
  rewrite (quoteBlock_completes _ _ _ _ _ _ Hq Hnth Hdec).
  unfold Part000.amountOutMin_of_quote, slippageFloor_spec, bigint_div.
  rewrite SLIPPAGE_TOLERANCE_DENOMINATOR_50.
  change (10000 - 50) with 9950.
  rewrite !Z.quot_div_nonneg by lia.
  pose proof (Z.div_mod (expected * 9950) 10000) as H1.
  pose proof (Z.mod_pos_bound (expected * 9950) 10000) as B1.
  pose proof (Z.div_mod (expected * 50) 10000) as H2.
  pose proof (Z.mod_pos_bound (expected * 50) 10000) as B2.
  pose proof (Z.div_mod expected 200) as H3.
  pose proof (Z.mod_pos_bound expected 200) as B3.
  split; [lia|]. split; intro H; lia.
Qed.

Lemma Part000_floor_against_bot_floor_witness :
  let bot := estimateAmountOutMin swapEnv_quoted (10 ^ 15) path_XRP_RISE "RISE" in
  bot <= Part000.amountOutMin_of_quote 1000000 <= bot + 1 /\
  (Part000.amountOutMin_of_quote 1000000 = bot <-> 1000000 mod 200 = 0).
Proof.
  apply (Part000_floor_against_bot_floor swapEnv_quoted (10 ^ 15)
           path_XRP_RISE "RISE" [10 ^ 15; 1000000] 1000000).
  - reflexivity.
  - reflexivity.
  - right. exists 18. reflexivity.
  - lia.
Defined.

Lemma Part000_tryBlock_block (A : Type) (getFeeData : Z -> Result FeeData)
    (executor : Z -> GasOptions -> Result A) (t i : Z) (total : nat) :
  Part000.tryBlock getFeeData (Part000.blockClosure executor) t i total
  = (Throws (Part000.blockAttemptError getFeeData executor i), total,
     Part000.blockAttemptTrace getFeeData i).
Proof.
  unfold Part000.tryBlock, Part000.blockClosure, Part000.blockAttemptError,
    Part000.blockAttemptTrace.
  destruct (getGasPrice (getFeeData i) i) as [g|e]; [|reflexivity].
  destruct (executor i g) as [a|e]; reflexivity.
Qed.

Lemma Part000_blockAttemptTrace_reads (getFeeData : Z -> Result FeeData)
    (i : Z) :
  feeReads (Part000.blockAttemptTrace getFeeData i) = [i] /\
  funcCalls (Part000.blockAttemptTrace getFeeData i)
  = filter (feeAnswers getFeeData) [i].
Proof.
  unfold Part000.blockAttemptTrace, feeAnswers. cbn [filter].
  destruct (getFeeData i) as [fd|e]; split; reflexivity.
Qed.

Lemma Part000_withRetry_loop_step (A : Type)
    (getFeeData : Z -> Result FeeData)
    (executor : Z -> GasOptions -> Result A) (n d t : Z) (k : nat) (i : Z)
    (total : nat) :
  Part000.withRetry_loop getFeeData (Part000.blockClosure executor) n d t
    (S k) i total =
  let error := Part000.blockAttemptError getFeeData executor i in
  let evs := Part000.blockAttemptTrace getFeeData i in
  if i <? n - 1 then
    let next := Part000.withRetry_loop getFeeData
                  (Part000.blockClosure executor) n d t k (i + 1) total in
    (fst (fst next), snd (fst next),
     evs ++ EvAttemptFailed (i + 1) n error
       :: EvDelay (d * (i + 1)) :: snd next)
  else (Throws error, total, evs ++ [EvAttemptFailed (i + 1) n error]).
Proof.
  cbn [Part000.withRetry_loop]. rewrite Part000_tryBlock_block. cbv zeta.
  destruct (i <? n - 1); [|reflexivity].
  destruct (Part000.withRetry_loop getFeeData (Part000.blockClosure executor)
              n d t k (i + 1) total) as [[r2 t2] evs2].
  reflexivity.
Qed.

Lemma Part000_withRetry_loop_block (A : Type)
    (getFeeData : Z -> Result FeeData)
    (executor : Z -> GasOptions -> Result A) (n d t : Z) (k : nat) :
  forall (i : Z) (total : nat),
    n = i + Z.of_nat (S k) ->
    let run := Part000.withRetry_loop getFeeData (Part000.blockClosure executor)
                 n d t (S k) i total in
    fst (fst run) = Throws (Part000.blockAttemptError getFeeData executor (n - 1)) /\
    snd (fst run) = total /\
    feeReads (snd run) = Zseq i (S k) /\
    funcCalls (snd run) = filter (feeAnswers getFeeData) (Zseq i (S k)).
Proof.
  induction k as [|k IH]; intros i total Hn; cbv zeta;
    rewrite Part000_withRetry_loop_step; cbv zeta;
    destruct (Part000_blockAttemptTrace_reads getFeeData i) as [Hf Hc].
  - replace (i <? n - 1) with false by (symmetry; apply Z.ltb_ge; lia).
    cbn [fst snd]. rewrite feeReads_app, funcCalls_app, Hf, Hc.
    replace (n - 1) with i by lia.
    cbn [feeReads funcCalls flat_map Zseq]. rewrite !app_nil_r.
    repeat split.
  - replace (i <? n - 1) with true by (symmetry; apply Z.ltb_lt; lia).
    destruct (IH (i + 1) total) as (Hr & Ht & Hf' & Hc'); [lia|].
    cbv zeta in Hr, Ht, Hf', Hc'.
    cbn [fst snd].
    rewrite feeReads_app, funcCalls_app, feeReads_failed_delay,
      funcCalls_failed_delay, Hf, Hc, Hf', Hc'.
    split; [exact Hr|]. split; [exact Ht|].
    split; [reflexivity|].
    change (Zseq i (S (S k))) with (i :: Zseq (i + 1) (S k)).
    cbn [filter app]. destruct (feeAnswers getFeeData i); reflexivity.
Qed.

(** part_000, [withRetry].  Every call site gives it a block closure, which
    resolves to [undefined]; reading [tx.hash] then throws.  So with
    [maxRetries >= 1] the call never returns a receipt: all [maxRetries]
    attempts are made, the executor runs again in each attempt whose
    fee-data read answers, [totalTransactions] is never incremented, and
    the error of the last attempt is thrown. *)
Theorem Part000_withRetry_never_succeeds :
  forall (A : Type) (getFeeData : Z -> Result FeeData)
         (executor : Z -> GasOptions -> Result A) (n d t : Z) (total : nat),
    1 <= n ->
    let run := Part000.withRetry getFeeData (Part000.blockClosure executor)
                 n d t total in
    fst (fst run)
      = Throws (Part000.blockAttemptError getFeeData executor (n - 1)) /\
    snd (fst run) = total /\
    feeReads (snd run) = Zseq 0 (Z.to_nat n) /\
    funcCalls (snd run) = filter (feeAnswers getFeeData) (Zseq 0 (Z.to_nat n)).
Proof.
  intros A getFeeData executor n d t total Hn run. subst run.
  unfold Part000.withRetry.
  replace (Z.to_nat n) with (S (Z.to_nat (n - 1))) by lia.
  apply Part000_withRetry_loop_block. lia.
Qed.

Lemma Part000_withRetry_never_succeeds_witness :
  let run := Part000.withRetry (fun _ => Ok feeData_eip1559)
               (Part000.blockClosure executor_sends) 3 1000 60000 0%nat in
  fst (fst run) = Throws Part000.undefinedHashError /\
  snd (fst run) = 0%nat /\
  feeReads (snd run) = [0; 1; 2] /\
  funcCalls (snd run) = [0; 1; 2].
Proof.
  apply (Part000_withRetry_never_succeeds unit (fun _ => Ok feeData_eip1559)
           executor_sends 3 1000 60000 0%nat).
  lia.
Defined.

(* ------------------------------------------------------------------ *)
(** ** The counters, in numbers *)

Lemma tryResult_ok_sends (env : RetryEnv) (t i : Z) (r : Receipt) :
  tryResult env t i = Ok r -> sendsTransaction env i = true.
Proof.
  unfold tryResult, sendsTransaction, tryBlock, run_result.
  destruct (getGasPrice (getFeeData env i) i) as [g|e]; [|discriminate].
  destruct (func env i g) as [[| |hash wait]|e]; try discriminate.
  intros _. reflexivity.
Qed.

Lemma inc_totalTransactions_total (s : ActivityStats) :
  totalTransactions (inc_totalTransactions s) = S (totalTransactions s).
Proof. destruct s. reflexivity. Qed.

Lemma Zseq_length (len : nat) : forall start, List.length (Zseq start len) = len.
Proof.
  induction len as [|len IH]; intro start; [reflexivity|].
  cbn [Zseq List.length]. rewrite IH. reflexivity.
Qed.

Lemma withRetry_loop_receipt_sent (env : RetryEnv) (n d t : Z) (k : nat) :
  forall i stats r,
    run_result (withRetry_loop env n d t k i stats) = Ok (Some r) ->
    (totalTransactions stats
     < totalTransactions (run_stats (withRetry_loop env n d t k i stats)))%nat.
Proof.
  induction k as [|k IH]; intros i stats r; [discriminate|].
  rewrite withRetry_loop_step. cbv zeta.
  destruct (tryResult env t i) as [r0|e] eqn:E.
  - run_simpl. intros _. rewrite (tryResult_ok_sends _ _ _ _ E).
    rewrite inc_totalTransactions_total. lia.
  - destruct (i <? n - 1); run_simpl; [|discriminate].
    intro H. apply IH in H.
    destruct (sendsTransaction env i); [|exact H].
    rewrite inc_totalTransactions_total in H. lia.
Qed.

Lemma withRetry_counts (env : RetryEnv) (n d t : Z) (stats : ActivityStats) :
  let run := withRetry env n d t stats in
  sameOtherCounters stats (run_stats run) /\
  (totalTransactions stats <= totalTransactions (run_stats run)
   <= totalTransactions stats + Z.to_nat n)%nat /\
  (forall r, run_result run = Ok (Some r) ->
             (totalTransactions stats < totalTransactions (run_stats run))%nat).
Proof.
  cbv zeta. unfold withRetry.
  split; [|split].
  - rewrite (withRetry_loop_stats env n d t (Z.to_nat n) 0 stats).
    apply add_totalTransactions_others.
  - rewrite (withRetry_loop_stats env n d t (Z.to_nat n) 0 stats).
    rewrite add_totalTransactions_total.
    destruct (withRetry_loop_shape env n d t (Z.to_nat n) 0 stats)
      as (a & Ha & _ & Hf & _); [rewrite Z.sub_0_r; reflexivity|].
    cbv zeta in Hf. rewrite Hf.
    pose proof (filter_length_le (sendsTransaction env) (Zseq 0 a)) as Hle.
    rewrite Zseq_length in Hle. lia.
  - intros r. apply withRetry_loop_receipt_sent.
Qed.

(** A receipt is never returned without a counted transaction: a call that
    returns a receipt has incremented [totalTransactions] at least once and
    at most [maxRetries] times, and has written no other counter. *)
Theorem withRetry_receipt_counts_a_transaction :
  forall (env : RetryEnv) (n d t : Z) (stats : ActivityStats) (r : Receipt),
    run_result (withRetry env n d t stats) = Ok (Some r) ->
    (totalTransactions stats + 1
     <= totalTransactions (run_stats (withRetry env n d t stats))
     <= totalTransactions stats + Z.to_nat n)%nat /\
    sameOtherCounters stats (run_stats (withRetry env n d t stats)).
Proof.
  intros env n d t stats r Hr.
  destruct (withRetry_counts env n d t stats) as (Hsame & Hb & Hrec).
  cbv zeta in Hsame, Hb, Hrec. specialize (Hrec r Hr).
  split; [lia|exact Hsame].
Qed.

Lemma withRetry_receipt_counts_a_transaction_witness :
  (totalTransactions initialStats + 1
   <= totalTransactions
        (run_stats (withRetry env_timeout_then_success 3 1000 60000 initialStats))
   <= totalTransactions initialStats + Z.to_nat 3)%nat /\
  sameOtherCounters initialStats
    (run_stats (withRetry env_timeout_then_success 3 1000 60000 initialStats)).
Proof.
  apply (withRetry_receipt_counts_a_transaction env_timeout_then_success 3
           1000 60000 initialStats receipt_success).
  reflexivity.
Defined.

Lemma swapThroughRetry_counts (w : World) (inTok outTok : string) (amount : Q)
    (stats : ActivityStats) :
  let run := swapThroughRetry w inTok outTok amount stats in
  sameOtherCounters stats (run_stats run) /\
  (totalTransactions stats <= totalTransactions (run_stats run)
   <= totalTransactions stats + 3)%nat /\
  (forall r, run_result run = Ok (Some r) ->
             (totalTransactions stats < totalTransactions (run_stats run))%nat) /\
  run_result run <> Ok None.
Proof.
  cbv zeta.
  pose proof (withRetry_counts (swapRetryEnv w inTok outTok amount) 3 1000
                60000 stats) as H.
  pose proof (proj2 (swapThroughRetry_swapsRequested w inTok outTok amount stats))
    as Hnn.
  revert H Hnn. unfold swapThroughRetry, withRetry_default. cbv zeta.
  destruct (withRetry (swapRetryEnv w inTok outTok amount) 3 1000 60000 stats)
    as [[r s1] evs].
  run_simpl. intros (Hs & Hb & Hr) Hnn.
  split; [exact Hs|]. split; [exact Hb|]. split; [exact Hr|exact Hnn].
Qed.

Lemma actionsCounted_same (s s' : ActivityStats) :
  sameOtherCounters s s' -> sameActionCounters s s' /\ rebalances s' = rebalances s.
Proof.
  unfold sameOtherCounters, sameActionCounters. intuition.
Qed.

Lemma sameActionCounters_counted (s s' : ActivityStats) :
  sameActionCounters s s' -> actionsCounted s' = actionsCounted s.
Proof.
  unfold sameActionCounters, actionsCounted.
  intros (H1 & H2 & H3 & H4 & H5 & H6). lia.
Qed.

Lemma inc_rebalances_fields (s : ActivityStats) :
  rebalances (inc_rebalances s) = S (rebalances s) /\
  totalTransactions (inc_rebalances s) = totalTransactions s /\
  sameActionCounters s (inc_rebalances s).
Proof. destruct s. unfold sameActionCounters. cbn. intuition. Qed.

Lemma rebalanceWrites_refl (s : ActivityStats) : rebalanceWrites s s.
Proof. unfold rebalanceWrites, sameActionCounters. repeat split; lia. Qed.

Lemma swapThroughRetry_rebalanceWrites (w : World) (inTok outTok : string)
    (amount : Q) (stats : ActivityStats) :
  let run := swapThroughRetry w inTok outTok amount stats in
  run_result run <> Ok None /\
  rebalanceWrites stats
    (match run_result run with
     | Ok (Some _) => inc_rebalances (run_stats run)
     | _ => run_stats run
     end).
Proof.
  cbv zeta.
  destruct (swapThroughRetry_counts w inTok outTok amount stats)
    as (Hs & Hb & Hr & Hnn).
  cbv zeta in Hs, Hb, Hr, Hnn. split; [exact Hnn|].
  destruct (actionsCounted_same _ _ Hs) as [Ha Hreb].
  destruct (run_result (swapThroughRetry w inTok outTok amount stats))
    as [[r|]|e].
  - specialize (Hr r eq_refl).
    destruct (inc_rebalances_fields
                (run_stats (swapThroughRetry w inTok outTok amount stats)))
      as (H1 & H2 & H3).
    unfold rebalanceWrites. rewrite H1, H2.
    split; [|lia].
    unfold sameActionCounters in *. intuition congruence.
  - unfold rebalanceWrites. split; [exact Ha|lia].
  - unfold rebalanceWrites. split; [exact Ha|lia].
Qed.

Lemma rebalanceXRP_loop_writes (w : World) (tokens : list string) :
  forall stats,
    rebalanceWrites stats (run_stats (rebalanceXRP_loop w tokens stats)).
Proof.
  induction tokens as [|sym rest IH]; intro stats;
    [apply rebalanceWrites_refl|].
  cbn [rebalanceXRP_loop].
  destruct (String.eqb sym "XRP" || Qltb (w_balance w sym) (threshold_XRP * 2));
    [apply IH|].
  destruct (Qleb (toFixed4 (w_balance w sym * (5 # 100))) 0); [apply IH|].
  destruct (swapThroughRetry_rebalanceWrites w sym "XRP"
              (toFixed4 (w_balance w sym * (5 # 100))) stats) as [Hnn Hw].
  cbv zeta in Hnn, Hw.
  destruct (swapThroughRetry w sym "XRP"
              (toFixed4 (w_balance w sym * (5 # 100))) stats)
    as [[[[receipt|]|e] s1] evs]; revert Hnn Hw; run_simpl; intros Hnn Hw.
  - exact Hw.
  - exfalso. apply Hnn. reflexivity.
  - exact Hw.
Qed.

Lemma rebalanceTokens_loop_writes (w : World) (thresholds : list (string * Q)) :
  forall stats,
    rebalanceWrites stats (fst (rebalanceTokens_loop w thresholds stats)).
Proof.
  induction thresholds as [|[sym threshold] rest IH]; intro stats;
    [apply rebalanceWrites_refl|].
  cbn [rebalanceTokens_loop].
  destruct (String.eqb sym "XRP"); [apply IH|].
  destruct (Qltb (w_balance w sym) threshold); [|apply IH].
  destruct (Qltb (threshold_XRP * 2) (w_balance w "XRP"));
    [|apply rebalanceWrites_refl].
  destruct (Qleb (toFixed4 (w_balance w "XRP" * (1 # 100))) 0); [apply IH|].
  destruct (swapThroughRetry_rebalanceWrites w "XRP" sym
              (toFixed4 (w_balance w "XRP" * (1 # 100))) stats) as [Hnn Hw].
  cbv zeta in Hnn, Hw.
  destruct (swapThroughRetry w "XRP" sym
              (toFixed4 (w_balance w "XRP" * (1 # 100))) stats)
    as [[[[receipt|]|e] s1] evs]; revert Hnn Hw; run_simpl; intros Hnn Hw;
    cbn [fst]; exact Hw.
Qed.

(** [checkAndRebalance] and the counters.  One call counts at most three
    transactions and at most one rebalance, counts a rebalance only when it
    also counted a transaction, and never writes a counter of the
    actions. *)
Theorem checkAndRebalance_counters :
  forall (w : World) (stats : ActivityStats),
    let stats' := fst (checkAndRebalance w stats) in
    sameActionCounters stats stats' /\
    (totalTransactions stats <= totalTransactions stats'
     <= totalTransactions stats + 3)%nat /\
    (rebalances stats <= rebalances stats' <= rebalances stats + 1)%nat /\
    (rebalances stats' = S (rebalances stats) ->
     (totalTransactions stats < totalTransactions stats')%nat).
Proof.
  intros w stats stats'. subst stats'.
  assert (H : rebalanceWrites stats (fst (checkAndRebalance w stats))).
  { unfold checkAndRebalance.
    destruct (Qltb (w_balance w "XRP") threshold_XRP);
      [|apply rebalanceTokens_loop_writes].
    pose proof (rebalanceXRP_loop_writes w (js_keys TOKENS) stats) as H.
    destruct (rebalanceXRP_loop w (js_keys TOKENS) stats) as [[[b|e] s1] evs];
      revert H; run_simpl; intro H; exact H. }
  destruct H as (Ha & Ht & Hr & Hrt).
  split; [exact Ha|]. split; [exact Ht|]. split; [exact Hr|]. lia.
Qed.

(* ------------------------------------------------------------------ *)
(** ** checkAndRebalance: what is swapped *)












(* ------------------------------------------------------------------ *)
(** ** startRandomLoop: one wallet, in numbers *)

Lemma grows_refl (s : ActivityStats) : grows 0 0 0 s s.
Proof. unfold grows. lia. Qed.

Lemma grows_weaken (a b c a' b' c' : nat) (s s' : ActivityStats) :
  (a <= a')%nat -> (b <= b')%nat -> (c <= c')%nat ->
  grows a b c s s' -> grows a' b' c' s s'.
Proof. unfold grows. lia. Qed.

Lemma grows_trans (a b c a' b' c' : nat) (s1 s2 s3 : ActivityStats) :
  grows a b c s1 s2 -> grows a' b' c' s2 s3 ->
  grows (a + a') (b + b') (c + c') s1 s3.
Proof. unfold grows. lia. Qed.

Lemma rebalanceWrites_grows (s s' : ActivityStats) :
  rebalanceWrites s s' -> grows 3 1 0 s s' /\ actionsCounted s' = actionsCounted s.
Proof.
  intros (Ha & Ht & Hr & Hrt).
  pose proof (sameActionCounters_counted _ _ Ha) as Hc.
  destruct Ha as (_ & _ & _ & _ & _ & Hcc).
  unfold grows. lia.
Qed.

Lemma checkAndRebalance_grows (w : World) (s : ActivityStats) :
  grows 3 1 0 s (fst (checkAndRebalance w s)) /\
  actionsCounted (fst (checkAndRebalance w s)) = actionsCounted s.
Proof.
  apply rebalanceWrites_grows. unfold checkAndRebalance.
  destruct (Qltb (w_balance w "XRP") threshold_XRP);
    [|apply rebalanceTokens_loop_writes].
  pose proof (rebalanceXRP_loop_writes w (js_keys TOKENS) s) as H.
  destruct (rebalanceXRP_loop w (js_keys TOKENS) s) as [[[b|e] s1] evs];
    revert H; run_simpl; intro H; exact H.
Qed.

(** A statement [if (receipt) activityStats.c++] after a call of
    [withRetry], for a counter [c] of the actions other than the custom
    contract calls. *)
Lemma countIfReceipt_grows (inc : ActivityStats -> ActivityStats)
    (env : RetryEnv) (s : ActivityStats) :
  (forall x, actionsCounted (inc x) = S (actionsCounted x) /\
             totalTransactions (inc x) = totalTransactions x /\
             rebalances (inc x) = rebalances x /\
             customContractCalls (inc x) = customContractCalls x) ->
  forall run,
    (sameOtherCounters s (run_stats run) /\
     (totalTransactions s <= totalTransactions (run_stats run)
      <= totalTransactions s + 3)%nat /\
     (forall r, run_result run = Ok (Some r) ->
                (totalTransactions s < totalTransactions (run_stats run))%nat)) ->
    grows 3 0 1 s (run_stats (countIfReceipt inc run)) /\
    ((forall r, run_result (countIfReceipt inc run) <> Ok (Some r)) ->
     actionsCounted (run_stats (countIfReceipt inc run)) = actionsCounted s).
Proof.
  intros Hinc [[r s1] evs]. run_simpl. intros (Hs & Hb & Hr).
  destruct (actionsCounted_same _ _ Hs) as [Ha Hreb].
  pose proof (sameActionCounters_counted _ _ Ha) as Hc.
  destruct Ha as (_ & _ & _ & _ & _ & Hcc).
  destruct r as [[receipt|]|e]; cbn [countIfReceipt]; run_simpl.
  - specialize (Hr receipt eq_refl).
    destruct (Hinc s1) as (H1 & H2 & H3 & H4).
    split; [unfold grows; lia|].
    intro Hno. exfalso. exact (Hno receipt eq_refl).
  - split; [unfold grows; lia|]. intros _. exact Hc.
  - split; [unfold grows; lia|]. intros _. exact Hc.
Qed.

Lemma inc_swaps_fields (x : ActivityStats) :
  actionsCounted (inc_swaps x) = S (actionsCounted x) /\
  totalTransactions (inc_swaps x) = totalTransactions x /\
  rebalances (inc_swaps x) = rebalances x /\
  customContractCalls (inc_swaps x) = customContractCalls x.
Proof. destruct x. unfold actionsCounted. cbn. lia. Qed.
Lemma inc_addsLiquidity_fields (x : ActivityStats) :
  actionsCounted (inc_addsLiquidity x) = S (actionsCounted x) /\
  totalTransactions (inc_addsLiquidity x) = totalTransactions x /\
  rebalances (inc_addsLiquidity x) = rebalances x /\
  customContractCalls (inc_addsLiquidity x) = customContractCalls x.
Proof. destruct x. unfold actionsCounted. cbn. lia. Qed.
Lemma inc_removesLiquidity_fields (x : ActivityStats) :
  actionsCounted (inc_removesLiquidity x) = S (actionsCounted x) /\
  totalTransactions (inc_removesLiquidity x) = totalTransactions x /\
  rebalances (inc_removesLiquidity x) = rebalances x /\
  customContractCalls (inc_removesLiquidity x) = customContractCalls x.
Proof. destruct x. unfold actionsCounted. cbn. lia. Qed.
Lemma inc_sendsAndReceives_fields (x : ActivityStats) :
  actionsCounted (inc_sendsAndReceives x) = S (actionsCounted x) /\
  totalTransactions (inc_sendsAndReceives x) = totalTransactions x /\
  rebalances (inc_sendsAndReceives x) = rebalances x /\
  customContractCalls (inc_sendsAndReceives x) = customContractCalls x.
Proof. destruct x. unfold actionsCounted. cbn. lia. Qed.
Lemma inc_randomSends_fields (x : ActivityStats) :
  actionsCounted (inc_randomSends x) = S (actionsCounted x) /\
  totalTransactions (inc_randomSends x) = totalTransactions x /\
  rebalances (inc_randomSends x) = rebalances x /\
  customContractCalls (inc_randomSends x) = customContractCalls x.
Proof. destruct x. unfold actionsCounted. cbn. lia. Qed.

Lemma startRandomLoop_switch_grows (pw : PassWorld) (s : ActivityStats) :
  let run := startRandomLoop_switch CUSTOM_CONTRACTS_COUNT pw s in
  grows 3 0 1 s (run_stats run) /\
  ((forall r, run_result run <> Ok (Some r)) ->
   actionsCounted (run_stats run) = actionsCounted s).
Proof.
  cbv zeta. unfold startRandomLoop_switch.
  assert (Hnone : forall r : Result (option Receipt),
    grows 3 0 1 s (run_stats (r, s, @nil Event)) /\
    ((forall x, run_result (r, s, @nil Event) <> Ok (Some x)) ->
     actionsCounted (run_stats (r, s, @nil Event)) = actionsCounted s)).
  { intro r. run_simpl. split; [unfold grows; lia|reflexivity]. }
  destruct (pw_action pw).
  - destruct (_ =? 0)%nat; [apply Hnone|].
    destruct (Qltb 0 (pw_swapAmount pw)); [|apply Hnone].
    apply (countIfReceipt_grows inc_swaps
             (swapRetryEnv (pw_world pw) "XRP" (pw_tokenToSwapWith pw)
                (pw_swapAmount pw)) s inc_swaps_fields).
    destruct (swapThroughRetry_counts (pw_world pw) "XRP"
                (pw_tokenToSwapWith pw) (pw_swapAmount pw) s)
      as (H1 & H2 & H3 & _).
    split; [exact H1|]. split; [exact H2|exact H3].
  - apply (countIfReceipt_grows inc_addsLiquidity (pw_closure pw) s
             inc_addsLiquidity_fields).
    apply (withRetry_counts (pw_closure pw) 3 1000 60000 s).
  - apply (countIfReceipt_grows inc_removesLiquidity (pw_closure pw) s
             inc_removesLiquidity_fields).
    apply (withRetry_counts (pw_closure pw) 3 1000 60000 s).
  - apply (countIfReceipt_grows inc_sendsAndReceives (pw_closure pw) s
             inc_sendsAndReceives_fields).
    apply (withRetry_counts (pw_closure pw) 3 1000 60000 s).
  - apply (countIfReceipt_grows inc_randomSends (pw_closure pw) s
             inc_randomSends_fields).
    apply (withRetry_counts (pw_closure pw) 3 1000 60000 s).
  - cbn [CUSTOM_CONTRACTS_COUNT Nat.ltb Nat.leb]. apply Hnone.
Qed.

Lemma startRandomLoop_try_grows (pw : PassWorld) (s : ActivityStats) :
  let run := startRandomLoop_try CUSTOM_CONTRACTS_COUNT pw s in
  grows 6 1 1 s (run_stats run) /\
  (run_result run = false ->
   actionsCounted (run_stats run) = actionsCounted s).
Proof.
  cbv zeta. unfold startRandomLoop_try.
  destruct (checkAndRebalance_grows (pw_world pw) s) as [Hg Ha].
  destruct (checkAndRebalance (pw_world pw) s) as [s1 evs].
  cbn [fst] in Hg, Ha.
  destruct (startRandomLoop_switch_grows pw s1) as [Hg' Ha'].
  cbv zeta in Hg', Ha'.
  destruct (startRandomLoop_switch CUSTOM_CONTRACTS_COUNT pw s1)
    as [[[[receipt|]|e] s2] evs'];
    revert Hg' Ha'; run_simpl; intros Hg' Ha';
    (split; [exact (grows_trans _ _ _ _ _ _ _ _ _ Hg Hg')|]).
  - discriminate.
  - intros _. rewrite Ha'; [exact Ha|]. intros r. discriminate.
  - intros _. rewrite Ha'; [exact Ha|]. intros r. discriminate.
Qed.

Lemma startRandomLoop_while_grows (passes : nat -> PassWorld)
    (retriesLeft : nat) :
  forall k s,
    grows (6 * retriesLeft) retriesLeft 1 s
      (fst (startRandomLoop_while CUSTOM_CONTRACTS_COUNT passes retriesLeft k s)).
Proof.
  induction retriesLeft as [|n IH]; intros k s.
  - cbn [startRandomLoop_while fst].
    apply (grows_weaken 0 0 0); [lia|lia|lia|apply grows_refl].
  - cbn [startRandomLoop_while].
    destruct (startRandomLoop_try_grows (passes k) s) as [Hg Ha].
    cbv zeta in Hg, Ha.
    destruct (startRandomLoop_try CUSTOM_CONTRACTS_COUNT (passes k) s)
      as [[[|] s1] evs]; revert Hg Ha; run_simpl; intros Hg Ha.
    + cbn [fst]. apply (grows_weaken 6 1 1); [lia|lia|lia|exact Hg].
    + specialize (IH (S k) s1). specialize (Ha eq_refl).
      destruct (startRandomLoop_while CUSTOM_CONTRACTS_COUNT passes n (S k) s1)
        as [s2 evs']. cbn [fst] in *.
      unfold grows in *. lia.
Qed.

(** One wallet of one cycle of [startRandomLoop], in numbers.  Whatever the
    chain answers in the three passes it may take: at most one action is
    counted and at most three rebalances; at most 18 transactions are
    counted (three attempts for the rebalancing swap and three for the
    action, in each pass); no custom contract call is counted, as none is
    configured; and every counted action or rebalance came with a counted
    transaction of its own. *)
Theorem startRandomLoop_wallet_counters :
  forall (passes : nat -> PassWorld) (stats : ActivityStats),
    let stats' := fst (startRandomLoop_wallet passes stats) in
    (actionsCounted stats <= actionsCounted stats'
     <= actionsCounted stats + 1)%nat /\
    (rebalances stats <= rebalances stats' <= rebalances stats + 3)%nat /\
    (totalTransactions stats <= totalTransactions stats'
     <= totalTransactions stats + 18)%nat /\
    customContractCalls stats' = customContractCalls stats /\
    ((actionsCounted stats' - actionsCounted stats)
     + (rebalances stats' - rebalances stats)
     <= totalTransactions stats' - totalTransactions stats)%nat.
Proof.
  intros passes stats stats'. subst stats'. unfold startRandomLoop_wallet.
  pose proof (startRandomLoop_while_grows passes 3 0 stats) as H.
  unfold grows in H. lia.
Qed.

Lemma startRandomLoop_try_skipped (pw : PassWorld) (s : ActivityStats) :
  skippedAction pw = true ->
  startRandomLoop_try CUSTOM_CONTRACTS_COUNT pw s =
  (false, fst (checkAndRebalance (pw_world pw) s),
   snd (checkAndRebalance (pw_world pw) s)).
Proof.
  unfold skippedAction, startRandomLoop_try, startRandomLoop_switch.
  destruct (checkAndRebalance (pw_world pw) s) as [s1 evs]. cbn [fst snd].
  destruct (pw_action pw); try discriminate.
  - intro H. apply negb_true_iff in H. rewrite H.
    cbn. rewrite app_nil_r. reflexivity.
  - intros _. cbn. rewrite app_nil_r. reflexivity.
Qed.

(** A skipped action is not a quiet one.  When the switch sends nothing
    (the swap amount came out as zero, or a custom contract call was drawn),
    [receipt] stays [null], the statement after the switch throws, and the
    pass counts as a failure: the wallet goes through all three passes, each
    one running [checkAndRebalance] again, with five seconds of sleep after
    the first and after the second. *)
Theorem startRandomLoop_skipped_action_uses_all_retries :
  forall (passes : nat -> PassWorld) (stats : ActivityStats),
    (forall k, (k < 3)%nat -> skippedAction (passes k) = true) ->
    let r0 := checkAndRebalance (pw_world (passes 0%nat)) stats in
    let r1 := checkAndRebalance (pw_world (passes 1%nat)) (fst r0) in
    let r2 := checkAndRebalance (pw_world (passes 2%nat)) (fst r1) in
    startRandomLoop_wallet passes stats =
    (fst r2,
     snd r0 ++ [EvDelay 5000] ++ snd r1 ++ [EvDelay 5000] ++ snd r2).
Proof.
  intros passes stats Hskip r0 r1 r2. subst r0 r1 r2.
  unfold startRandomLoop_wallet. cbn [startRandomLoop_while].
  rewrite (startRandomLoop_try_skipped _ stats (Hskip 0%nat ltac:(lia))).
  rewrite (startRandomLoop_try_skipped _ _ (Hskip 1%nat ltac:(lia))).
  rewrite (startRandomLoop_try_skipped _ _ (Hskip 2%nat ltac:(lia))).
  cbn [Nat.ltb Nat.leb app]. rewrite !app_nil_r. reflexivity.
Qed.

Lemma startRandomLoop_skipped_action_uses_all_retries_witness :
  startRandomLoop_wallet (fun _ => pass_swap_skipped) initialStats =
  (fst (checkAndRebalance world_both_low
          (fst (checkAndRebalance world_both_low
                  (fst (checkAndRebalance world_both_low initialStats))))),
   snd (checkAndRebalance world_both_low initialStats)
   ++ [EvDelay 5000]
   ++ snd (checkAndRebalance world_both_low
             (fst (checkAndRebalance world_both_low initialStats)))
   ++ [EvDelay 5000]
   ++ snd (checkAndRebalance world_both_low
             (fst (checkAndRebalance world_both_low
                     (fst (checkAndRebalance world_both_low initialStats)))))).
Proof.
  apply (startRandomLoop_skipped_action_uses_all_retries
           (fun _ => pass_swap_skipped) initialStats).
  intros k _. reflexivity.
Defined.

(* ------------------------------------------------------------------ *)
(** ** performSwap: what is handed to the network *)

Lemma swapPreflight_ok (env : SwapEnv) (inTok outTok : string) (amount : Q)
    (amountInRaw : Z) (path : list string) :
  swapPreflight env inTok outTok amount = Ok (amountInRaw, path) ->
  0 < amountInRaw /\
  (exists balance, sw_inTokBalance env = Ok balance /\ (amount <= balance)%Q) /\
  exists a b, pathAddress inTok = Some a /\ pathAddress outTok = Some b /\
              path = [a; b].
Proof.
  unfold swapPreflight, bind.
  destruct (sw_inTokBalance env) as [balance|e]; [|discriminate].
  destruct (Qltb balance amount) eqn:Hb; [discriminate|].
  destruct (pathAddress inTok) as [a|]; [|discriminate].
  destruct (pathAddress outTok) as [b|]; [|discriminate].
  destruct (if String.eqb inTok "XRP" then parseUnits amount 18
            else match sw_inTokenDecimals env with
                 | Ok d => parseUnits amount d
                 | Throws e => Throws e
                 end) as [raw|e]; [|discriminate].
  destruct (raw <=? 0) eqn:Hpos; [discriminate|].
  intro H. injection H as <- <-.
  split; [apply Z.leb_gt in Hpos; exact Hpos|].
  split; [exists balance; split; [reflexivity|apply Qltb_false; exact Hb]|].
  exists a, b. repeat split.
Qed.

Lemma swapSubmit_shape (env : SwapEnv) (inTok outTok : string) (amount : Q)
    (amountInRaw amountOutMin : Z) (path : list string) (g : GasOptions) :
  let run := swapSubmit env inTok outTok amount amountInRaw amountOutMin path g in
  let call := routerCall_for inTok outTok amountInRaw amountOutMin path g in
  (snd run = [] /\ exists e, fst run = Throws e) \/
  (snd run = [SubRouter call] /\ fst run = sw_router env call) \/
  (snd run = [SubApprove ROUTER_ADDRESS amountInRaw; SubRouter call] /\
   fst run = sw_router env call /\ String.eqb inTok "XRP" = false /\
   exists allowance, sw_allowance env = Ok allowance /\ allowance < amountInRaw) \/
  (snd run = [SubApprove ROUTER_ADDRESS amountInRaw] /\
   (exists e, fst run = Throws e) /\ String.eqb inTok "XRP" = false /\
   exists allowance, sw_allowance env = Ok allowance /\ allowance < amountInRaw).
Proof.
  cbv zeta. unfold swapSubmit, routerCall_for.
  destruct (String.eqb inTok "XRP").
  - destruct (sw_xrpBalance env) as [xrp|e]; [|left; split; [reflexivity|eexists; reflexivity]].
    destruct (estimatedGasCost g) as [cost|e];
      [|left; split; [reflexivity|eexists; reflexivity]].
    destruct (Qltb xrp (amount + cost));
      [left; split; [reflexivity|eexists; reflexivity]|].
    right. left. split; reflexivity.
  - destruct (sw_allowance env) as [allowance|e];
      [|left; split; [reflexivity|eexists; reflexivity]].
    destruct (allowance <? amountInRaw) eqn:Hlt.
    + apply Z.ltb_lt in Hlt.
      destruct (sw_approve env amountInRaw) as [u|e].
      * right. right. left. cbn [fst snd].
        split; [reflexivity|]. split; [reflexivity|]. split; [reflexivity|].
        exists allowance. split; [reflexivity|exact Hlt].
      * right. right. right. cbn [fst snd].
        split; [reflexivity|]. split; [eexists; reflexivity|].
        split; [reflexivity|].
        exists allowance. split; [reflexivity|exact Hlt].
    + right. left. split; reflexivity.
Qed.


Lemma routerPath_routerCall_for (inTok outTok : string) (raw amin : Z)
    (path : list string) (g : GasOptions) :
  routerPath (routerCall_for inTok outTok raw amin path g) = path.
Proof.
  unfold routerCall_for.
  destruct (String.eqb inTok "XRP"); [reflexivity|].
  destruct (String.eqb outTok "XRP"); reflexivity.
Qed.

Lemma performSwap_router_path (env : SwapEnv) (inTok outTok : string)
    (amount : Q) (g : GasOptions) (call : RouterCall) :
  In (SubRouter call) (snd (performSwap env (inTok, outTok) amount "AtoB" g)) ->
  exists a b, pathAddress inTok = Some a /\ pathAddress outTok = Some b /\
              routerPath call = [a; b].
Proof.
  unfold performSwap, swapDirection.
  cbn [String.eqb Ascii.eqb Bool.eqb fst snd].
  destruct (swapPreflight env inTok outTok amount) as [[raw path]|e] eqn:Hpre;
    [|intros []].
  destruct (swapPreflight_ok _ _ _ _ _ _ Hpre)
    as (_ & _ & a & b & Ha & Hb & ->).
  intro Hin. exists a, b. split; [exact Ha|]. split; [exact Hb|].
  destruct (swapSubmit_shape env inTok outTok amount raw
              (estimateAmountOutMin env raw [a; b] outTok) [a; b] g)
    as [[H _]|[[H _]|[[H _]|[H _]]]]; cbv zeta in H; rewrite H in Hin.
  - destruct Hin.
  - destruct Hin as [Heq|[]]. injection Heq as <-.
    apply routerPath_routerCall_for.
  - destruct Hin as [Heq|[Heq|[]]]; [discriminate|]. injection Heq as <-.
    apply routerPath_routerCall_for.
  - destruct Hin as [Heq|[]]. discriminate.
Qed.

(** A swap between XRP and WXRP is not refused: XRP stands for the address
    of WXRP in the path, so the router is called with a path that names the
    one address twice.  Such swaps are asked for: [checkAndRebalance] takes
    WXRP, the first key of [TOKENS], as donor for XRP, and the SWAP action
    draws WXRP as the token to swap XRP for. *)
Theorem swap_between_XRP_and_WXRP_names_one_address_twice :
  forall (env : SwapEnv) (inTok outTok : string) (amount : Q)
         (g : GasOptions) (call : RouterCall),
    (inTok = "XRP" /\ outTok = "WXRP") \/ (inTok = "WXRP" /\ outTok = "XRP") ->
    In (SubRouter call)
       (snd (performSwap env (inTok, outTok) amount "AtoB" g)) ->
    exists a, js_get TOKENS "WXRP" = Some a /\ routerPath call = [a; a].
Proof.
  intros env inTok outTok amount g call Hpair Hin.
  destruct (performSwap_router_path env inTok outTok amount g call Hin)
    as (a & b & Ha & Hb & Hp).
  exists a.
  destruct Hpair as [[-> ->]|[-> ->]];
    change (pathAddress "XRP") with (js_get TOKENS "WXRP") in *;
    change (pathAddress "WXRP") with (js_get TOKENS "WXRP") in *;
    (split; [exact Ha|]); rewrite Hp; congruence.
Qed.

Lemma swap_between_XRP_and_WXRP_names_one_address_twice_witness :
  exists a,
    js_get TOKENS "WXRP" = Some a /\
    routerPath
      (swapExactETHForTokens 995000
         ["0x81Be083099c2C65b062378E74Fa8469644347BB7";
          "0x81Be083099c2C65b062378E74Fa8469644347BB7"]
         (10 ^ 15) (Legacy 5000000000))
    = [a; a].
Proof.
  apply (swap_between_XRP_and_WXRP_names_one_address_twice swapEnv_quoted
           "XRP" "WXRP" (1 # 1000) (Legacy 5000000000)).
  - left. split; reflexivity.
  - left. reflexivity.
Defined.




(* ------------------------------------------------------------------ *)
(** ** getWalletBalances, and what checkAndRebalance makes of it *)

Lemma getWalletBalances_entries (ch : ChainReads) :
  getWalletBalances ch =
  [ ("XRP", balanceOrZero ch "XRP"); ("WXRP", balanceOrZero ch "WXRP");
    ("RISE", balanceOrZero ch "RISE"); ("RIBBIT", balanceOrZero ch "RIBBIT") ].
Proof.
  unfold getWalletBalances.
  change (js_keys TOKENS) with ["WXRP"; "RISE"; "RIBBIT"].
  assert (Hx : match ch_getBalance ch with
               | Ok xrpBalance => formatEther xrpBalance
               | Throws _ => 0%Q
               end = balanceOrZero ch "XRP").
  { unfold balanceOrZero, getWalletTokenBalance, bind.
    cbn [String.eqb Ascii.eqb Bool.eqb].
    destruct (ch_getBalance ch); reflexivity. }
  rewrite Hx. fold (balanceOrZero ch "WXRP").
  cbn [getWalletBalances_loop String.eqb Ascii.eqb Bool.eqb js_set].
  reflexivity.
Qed.

(** [getWalletBalances] never throws.  The object it returns has the key
    XRP and then the keys of [TOKENS], in this order, and the value of a
    key is the balance read for it, or zero when the read failed: a failed
    read and an empty balance give the same object. *)
Theorem getWalletBalances_reports_zero_for_a_failed_read :
  forall ch : ChainReads,
    js_keys (getWalletBalances ch) = "XRP" :: js_keys TOKENS /\
    (forall sym,
        In sym ("XRP" :: js_keys TOKENS) ->
        js_get (getWalletBalances ch) sym
        = Some (match getWalletTokenBalance ch sym with
                | Ok balance => balance
                | Throws _ => 0%Q
                end)) /\
    (forall sym e,
        In sym ("XRP" :: js_keys TOKENS) ->
        getWalletTokenBalance ch sym = Throws e ->
        js_get (getWalletBalances ch) sym = Some 0%Q).
Proof.
  intro ch. rewrite getWalletBalances_entries.
  assert (Hget : forall sym,
    In sym ("XRP" :: js_keys TOKENS) ->
    js_get [ ("XRP", balanceOrZero ch "XRP"); ("WXRP", balanceOrZero ch "WXRP");
             ("RISE", balanceOrZero ch "RISE");
             ("RIBBIT", balanceOrZero ch "RIBBIT") ] sym
    = Some (balanceOrZero ch sym)).
  { intros sym Hin. cbn in Hin.
    destruct Hin as [<-|[<-|[<-|[<-|[]]]]]; reflexivity. }
  split; [reflexivity|]. split.
  - exact Hget.
  - intros sym e Hin He. rewrite (Hget sym Hin). unfold balanceOrZero.
    rewrite He. reflexivity.
Qed.






(* ------------------------------------------------------------------ *)
(** ** performRandomSend and performSendAndReceive *)





Lemma performSendAndReceive_loop_length (env : SendReceiveEnv) (raw : Z)
    (g : GasOptions) (n : nat) :
  forall i lastTx,
    (List.length (snd (performSendAndReceive_loop env raw g n i lastTx))
     <= 3 * n)%nat.
Proof.
  induction n as [|n IH]; intros i lastTx; cbn [performSendAndReceive_loop].
  - cbn. lia.
  - destruct (sr_fund env i) as [u|e]; [|cbn; lia].
    destruct (sr_send env i raw) as [u'|e]; [|cbn; lia].
    destruct (sr_return env i raw) as [[hash wait]|e]; [|cbn; lia].
    destruct (sr_returnWait env i) as [u''|e]; [|cbn; lia].
    specialize (IH (S i) (TxHandle hash wait)).
    destruct (performSendAndReceive_loop env raw g n (S i) (TxHandle hash wait))
      as [r writes]. cbn [snd List.length] in *. lia.
Qed.

Lemma performSendAndReceive_loop_ok (env : SendReceiveEnv) (raw : Z)
    (g : GasOptions) (n : nat) :
  forall i lastTx tx,
    fst (performSendAndReceive_loop env raw g n i lastTx) = Ok tx ->
    snd (performSendAndReceive_loop env raw g n i lastTx)
      = flat_map (fun j => [ WrFund j fundingValue g; WrTransfer j raw g;
                             WrReturn j raw g ]) (seq i n) /\
    (n = 0%nat -> tx = lastTx) /\
    (n <> 0%nat ->
     exists hash wait,
       sr_return env (pred (i + n)) raw = Ok (hash, wait) /\
       tx = TxHandle hash wait).
Proof.
  induction n as [|n IH]; intros i lastTx tx; cbn [performSendAndReceive_loop].
  - cbn [fst snd seq flat_map]. intro H. injection H as <-.
    split; [reflexivity|]. split; [reflexivity|]. intro H. contradiction.
  - destruct (sr_fund env i) as [u|e]; [|discriminate].
    destruct (sr_send env i raw) as [u'|e]; [|discriminate].
    destruct (sr_return env i raw) as [[hash wait]|e] eqn:Et; [|discriminate].
    destruct (sr_returnWait env i) as [u''|e]; [|discriminate].
    specialize (IH (S i) (TxHandle hash wait) tx).
    destruct (performSendAndReceive_loop env raw g n (S i) (TxHandle hash wait))
      as [r writes]. cbn [fst snd] in *.
    intro H. destruct (IH H) as (Hw & H0 & Hn).
    split; [cbn [seq flat_map app]; rewrite Hw; reflexivity|].
    split; [discriminate|]. intros _.
    destruct n as [|n].
    + exists hash, wait. rewrite (H0 eq_refl).
      replace (pred (i + 1)) with i by lia. split; [exact Et|reflexivity].
    + destruct Hn as (h & w & Ht & Htx); [discriminate|].
      exists h, w. replace (pred (i + S (S n))) with (pred (S i + S n)) by lia.
      split; [exact Ht|exact Htx].
Qed.

Lemma performSendAndReceive_ok (env : SendReceiveEnv) (cfg : SendConfig)
    (g : GasOptions) (tx : TxValue) :
  fst (performSendAndReceive env cfg g) = Ok tx ->
  exists balance decimals raw,
    sr_tokenBalance env = Ok balance /\
    (sendAmount cfg * inject_Z (sendAddressCount cfg) <= balance)%Q /\
    sr_decimals env = Ok decimals /\
    parseUnits (sendAmount cfg) decimals = Ok raw /\
    snd (performSendAndReceive env cfg g)
      = sendAndReceiveWrites raw g (Z.to_nat (sendAddressCount cfg)) /\
    (Z.to_nat (sendAddressCount cfg) = 0%nat -> tx = TxFalsy) /\
    (Z.to_nat (sendAddressCount cfg) <> 0%nat ->
     exists hash wait,
       sr_return env (pred (Z.to_nat (sendAddressCount cfg))) raw
         = Ok (hash, wait) /\
       tx = TxHandle hash wait).
Proof.
  unfold performSendAndReceive.
  destruct (js_get TOKENS (sendTokenName cfg)) as [tokenAddress|];
    [|discriminate].
  destruct (sr_tokenBalance env) as [balance|e]; [|discriminate].
  destruct (Qltb balance (sendAmount cfg * inject_Z (sendAddressCount cfg)))
    eqn:Hb; [discriminate|].
  destruct (sr_decimals env) as [decimals|e]; [|discriminate].
  destruct (parseUnits (sendAmount cfg) decimals) as [raw|e] eqn:Hp;
    [|discriminate].
  intro Htx.
  destruct (performSendAndReceive_loop_ok env raw g _ _ _ _ Htx)
    as (Hw & H0 & Hn).
  exists balance, decimals, raw.
  split; [reflexivity|]. split; [apply Qltb_false; exact Hb|].
  split; [reflexivity|]. split; [exact Hp|].
  split; [exact Hw|]. split; [exact H0|exact Hn].
Qed.

Lemma sendAndReceiveWrites_length (raw : Z) (g : GasOptions) (n : nat) :
  List.length (sendAndReceiveWrites raw g n) = (3 * n)%nat.
Proof.
  unfold sendAndReceiveWrites.
  assert (H : forall i,
    List.length
      (flat_map (fun j => [ WrFund j fundingValue g; WrTransfer j raw g;
                            WrReturn j raw g ]) (seq i n)) = (3 * n)%nat).
  { induction n as [|n IH]; intro i; [reflexivity|].
    cbn [seq flat_map app List.length]. rewrite IH. lia. }
  apply H.
Qed.

(** [performSendAndReceive].  When it returns it has made three writes for
    each of the [sendAddressCount] new addresses, in this order: the
    funding of the address with 0.001 XRP, the transfer of the token to
    it, and the transfer back; it returns the response of the last
    transfer back.  A call that throws has made at most as many. *)
Theorem performSendAndReceive_writes :
  forall (env : SendReceiveEnv) (cfg : SendConfig) (g : GasOptions),
    let run := performSendAndReceive env cfg g in
    let count := Z.to_nat (sendAddressCount cfg) in
    (List.length (snd run) <= 3 * count)%nat /\
    forall tx,
      fst run = Ok tx ->
      exists raw,
        snd run = sendAndReceiveWrites raw g count /\
        List.length (snd run) = (3 * count)%nat /\
        (count = 0%nat -> tx = TxFalsy) /\
        (count <> 0%nat ->
         exists hash wait,
           sr_return env (pred count) raw = Ok (hash, wait) /\
           tx = TxHandle hash wait).
Proof.
  intros env cfg g. cbv zeta. split.
  - unfold performSendAndReceive.
    destruct (js_get TOKENS (sendTokenName cfg)); [|cbn; lia].
    destruct (sr_tokenBalance env) as [balance|e]; [|cbn; lia].
    destruct (Qltb balance _); [cbn; lia|].
    destruct (sr_decimals env) as [decimals|e]; [|cbn; lia].
    destruct (parseUnits (sendAmount cfg) decimals) as [raw|e]; [|cbn; lia].
    apply performSendAndReceive_loop_length.
  - intros tx Htx.
    destruct (performSendAndReceive_ok env cfg g tx Htx)
      as (balance & decimals & raw & _ & _ & _ & _ & Hw & H0 & Hn).
    exists raw. split; [exact Hw|].
    split; [rewrite Hw; apply sendAndReceiveWrites_length|].
    split; [exact H0|exact Hn].
Qed.

Lemma performSendAndReceive_writes_witness :
  exists raw,
    snd (performSendAndReceive sendReceiveEnv_ok SEND_AND_RECEIVE_CONFIG
           (Legacy 5))
    = sendAndReceiveWrites raw (Legacy 5) 1.
Proof.
  destruct (proj2 (performSendAndReceive_writes sendReceiveEnv_ok
                     SEND_AND_RECEIVE_CONFIG (Legacy 5))
              (TxHandle "0xff" (Resolves 5 (Some receipt_success))) eq_refl)
    as (raw & Hw & _).
  exists raw. exact Hw.
Defined.

(** One counted transaction for many.  When the first attempt of a
    SEND_AND_RECEIVE action goes through, [withRetry] returns the receipt of
    the last transfer back and [totalTransactions] is one more than before,
    while [performSendAndReceive] has made three writes for each address:
    the counter counts the calls of [withRetry] that got a response, not the
    transactions sent. *)
Theorem sendAndReceive_counts_one_transaction :
  forall (getFeeData : Z -> Result FeeData) (env : Z -> SendReceiveEnv)
         (cfg : SendConfig) (stats : ActivityStats) (fd : FeeData)
         (hash : string) (ms : Z) (r : Receipt),
    getFeeData 0 = Ok fd ->
    fst (performSendAndReceive (env 0) cfg (getGasPrice_of fd 0))
      = Ok (TxHandle hash (Resolves ms (Some r))) ->
    ms < 60000 -> status r = Some 1 ->
    let run := withRetry_default (sendAndReceiveRetryEnv getFeeData env cfg)
                 stats in
    run_result run = Ok (Some r) /\
    totalTransactions (run_stats run) = S (totalTransactions stats) /\
    (1 <= Z.to_nat (sendAddressCount cfg))%nat /\
    List.length (snd (performSendAndReceive (env 0) cfg (getGasPrice_of fd 0)))
      = (3 * Z.to_nat (sendAddressCount cfg))%nat.
Proof.
  intros getFeeData env cfg stats fd hash ms r Hfd Htx Hms Hst. cbv zeta.
  destruct (tryBlock_confirmed (sendAndReceiveRetryEnv getFeeData env cfg)
              60000 0 fd hash ms r Hfd Htx Hms Hst) as [Hres Hsent].
  unfold withRetry_default, withRetry.
  change (Z.to_nat 3) with 3%nat.
  rewrite withRetry_loop_step. cbv zeta. rewrite Hres, Hsent. run_simpl.
  split; [reflexivity|]. split; [apply inc_totalTransactions_total|].
  destruct (performSendAndReceive_ok (env 0) cfg (getGasPrice_of fd 0) _ Htx)
    as (balance & decimals & raw & _ & _ & _ & _ & Hw & H0 & _).
  split.
  - destruct (Z.to_nat (sendAddressCount cfg)); [|lia].
    specialize (H0 eq_refl). discriminate.
  - rewrite Hw. apply sendAndReceiveWrites_length.
Qed.

Lemma sendAndReceive_counts_one_transaction_witness :
  let run := withRetry_default
               (sendAndReceiveRetryEnv (fun _ => Ok feeData_eip1559)
                  (fun _ => sendReceiveEnv_ok) SEND_AND_RECEIVE_CONFIG)
               initialStats in
  run_result run = Ok (Some receipt_success) /\
  totalTransactions (run_stats run) = S (totalTransactions initialStats) /\
  (1 <= Z.to_nat (sendAddressCount SEND_AND_RECEIVE_CONFIG))%nat /\
  List.length (snd (performSendAndReceive sendReceiveEnv_ok
                      SEND_AND_RECEIVE_CONFIG
                      (getGasPrice_of feeData_eip1559 0)))
    = (3 * Z.to_nat (sendAddressCount SEND_AND_RECEIVE_CONFIG))%nat.
Proof.
  apply (sendAndReceive_counts_one_transaction (fun _ => Ok feeData_eip1559)
           (fun _ => sendReceiveEnv_ok) SEND_AND_RECEIVE_CONFIG initialStats
           feeData_eip1559 "0xff" 5 receipt_success).
  - reflexivity.
  - reflexivity.
  - lia.
  - reflexivity.
Defined.

(* ------------------------------------------------------------------ *)
(** ** The gas estimate of a quote, and the sleep between cycles *)

Lemma getGasPrice_of_positive (fd : FeeData) (i : Z) :
  feeData_unsigned fd -> 0 <= i ->
  Forall (fun x => 0 < x) (quoteFields (getGasPrice_of fd i)).
Proof.
  intros (Hg & Hm & Hp & Hb) Hi.
  assert (Hlegacy :
    0 < bigint_div (or_default (fd_gasPrice fd) (gwei 20)
                    * Math_round (buffer i * 100)%Q) 100).
  { apply scaled_positive; [|assumption].
    apply or_default_positive; [assumption|]. apply gwei_positive; lia. }
  unfold getGasPrice_of.
  destruct (fd_maxFeePerGas fd) as [maxFee|];
    [|cbn [quoteFields]; constructor; [exact Hlegacy|constructor]].
  destruct (fd_maxPriorityFeePerGas fd) as [priorityFee|];
    [|cbn [quoteFields]; constructor; [exact Hlegacy|constructor]].
  destruct (negb (maxFee =? 0) && negb (priorityFee =? 0)) eqn:E;
    [|cbn [quoteFields]; constructor; [exact Hlegacy|constructor]].
  apply andb_prop in E. destruct E as [_ E].
  apply negb_true_iff, Z.eqb_neq in E. simpl in Hp.
  assert (Hprio :
    0 < bigint_div (priorityFee * Math_round (buffer i * 100)%Q) 100)
    by (apply scaled_positive; lia).
  assert (Hbase :
    0 < bigint_div (or_default (fd_lastBaseFeePerGas fd) (gwei 1)
                    * Math_round (buffer i * 100)%Q) 100).
  { apply scaled_positive; [|assumption].
    apply or_default_positive; [assumption|]. apply gwei_positive; lia. }
  cbn [quoteFields]. constructor; [lia|].
  constructor; [exact Hprio|constructor].
Qed.

(** [getGasPrice] and [performSwap] together.  The gas estimate
    [performSwap] computes for the check of line 685 is defined for every
    quote [getGasPrice] makes from unsigned fee data: the expression never
    falls back on a missing [gasPrice], and the estimate is the first field
    of the quote times the gas limit 800000, in XRP, and is positive. *)
Theorem gas_estimate_of_a_quote :
  forall (fd : FeeData) (i : Z),
    feeData_unsigned fd -> 0 <= i ->
    exists fee,
      nth_error (quoteFields (getGasPrice_of fd i)) 0 = Some fee /\
      0 < fee /\
      estimatedGasCost (getGasPrice_of fd i)
        = Ok (formatEther (fee * GAS_LIMIT_COMPLEX)) /\
      (0 < formatEther (fee * GAS_LIMIT_COMPLEX))%Q.
Proof.
  intros fd i Hfd Hi.
  pose proof (getGasPrice_of_positive fd i Hfd Hi) as Hpos.
  assert (Hfmt : forall fee, 0 < fee ->
            (0 < formatEther (fee * GAS_LIMIT_COMPLEX))%Q).
  { intros fee Hfee. unfold formatEther, GAS_LIMIT_COMPLEX.
    apply Qlt_shift_div_l; [reflexivity|].
    rewrite Qmult_0_l. change 0%Q with (inject_Z 0). rewrite <- Zlt_Qlt. lia. }
  destruct (getGasPrice_of fd i) as [maxFee maxPrio|gasPrice];
    cbn [quoteFields] in Hpos; inversion Hpos as [|x l Hx Hl]; subst.
  - exists maxFee. cbn [quoteFields nth_error estimatedGasCost].
    replace (maxFee =? 0) with false by (symmetry; apply Z.eqb_neq; lia).
    split; [reflexivity|]. split; [exact Hx|].
    split; [reflexivity|exact (Hfmt _ Hx)].
  - exists gasPrice. cbn [quoteFields nth_error estimatedGasCost].
    split; [reflexivity|]. split; [exact Hx|].
    split; [reflexivity|exact (Hfmt _ Hx)].
Qed.

Lemma gas_estimate_of_a_quote_witness :
  exists fee,
    nth_error (quoteFields (getGasPrice_of feeData_eip1559 1)) 0 = Some fee /\
    0 < fee /\
    estimatedGasCost (getGasPrice_of feeData_eip1559 1)
      = Ok (formatEther (fee * GAS_LIMIT_COMPLEX)) /\
    (0 < formatEther (fee * GAS_LIMIT_COMPLEX))%Q.
Proof.
  apply (gas_estimate_of_a_quote feeData_eip1559 1).
  - unfold feeData_unsigned, feeData_eip1559; cbn; lia.
  - lia.
Defined.



(* ------------------------------------------------------------------ *)
(** ** startRandomLoop: an action that cannot succeed *)

Lemma withRetry_default_all_fail (env : RetryEnv) (stats : ActivityStats)
    (err : Z -> JsError) :
  (forall i, 0 <= i < 3 -> exists fd, getFeeData env i = Ok fd) ->
  (forall i g, 0 <= i < 3 -> func env i g = Throws (err i)) ->
  let run := withRetry_default env stats in
  run_stats run = stats /\
  run_result run = Throws (err 2) /\
  funcCalls (run_trace run) = [0; 1; 2] /\
  delays (run_trace run) = [1000; 2000].
Proof.
  intros Hfee Hfunc run.
  assert (Hfail : forall i, 0 <= i < 3 ->
            tryResult env 60000 i = Throws (err i)).
  { intros i Hi. destruct (Hfee i Hi) as [fd Hfd].
    unfold tryResult, tryBlock, run_result. rewrite Hfd. cbn [getGasPrice].
    rewrite (Hfunc i _ Hi). reflexivity. }
  assert (Hsend : forall i, 0 <= i < 3 -> sendsTransaction env i = false).
  { intros i Hi. destruct (Hfee i Hi) as [fd Hfd].
    unfold sendsTransaction. rewrite Hfd. cbn [getGasPrice].
    rewrite (Hfunc i _ Hi). reflexivity. }
  destruct (withRetry_loop_all_fail env 3 1000 60000 err 2 0 stats)
    as (Hr & Hd & Hf); [lia|exact Hfail|].
  cbv zeta in Hr, Hd, Hf.
  subst run. unfold withRetry_default, withRetry.
  change (Z.to_nat 3) with 3%nat.
  split; [|split; [exact Hr|split; [|exact Hd]]].
  - rewrite (withRetry_loop_stats env 3 1000 60000 3 0 stats).
    rewrite Hf, filter_none; [reflexivity|].
    intros j Hj. apply Zseq_In in Hj. apply Hsend. lia.
  - apply (withRetry_loop_all_fail_funcCalls env 3 1000 60000 err 2 0 stats);
      [lia|exact Hfail|exact Hfee].
Qed.

Lemma rebalanceTokens_loop_quiet (w : World) (thresholds : list (string * Q))
    (stats : ActivityStats) :
  find (lowToken w) thresholds = None ->
  rebalanceTokens_loop w thresholds stats = (stats, []).
Proof.
  induction thresholds as [|[sym threshold] rest IH]; [reflexivity|].
  cbn [find rebalanceTokens_loop]. unfold lowToken at 1. cbn [fst snd].
  destruct (String.eqb sym "XRP"); cbn [negb andb]; [exact IH|].
  destruct (Qltb (w_balance w sym) threshold); [discriminate|exact IH].
Qed.

Lemma checkAndRebalance_quiet (w : World) (stats : ActivityStats) :
  quietWallet w = true -> checkAndRebalance w stats = (stats, []).
Proof.
  unfold quietWallet, checkAndRebalance. intro H.
  apply andb_true_iff in H. destruct H as [Hx Hlow].
  apply negb_true_iff in Hx. rewrite Hx.
  apply rebalanceTokens_loop_quiet.
  destruct (find (lowToken w) REBALANCE_THRESHOLDS); [discriminate|reflexivity].
Qed.

Lemma startRandomLoop_try_failing (pw : PassWorld) (stats : ActivityStats)
    (err : Z -> JsError) :
  quietWallet (pw_world pw) = true ->
  closureAction (pw_action pw) = true ->
  (forall i, 0 <= i < 3 -> exists fd, getFeeData (pw_closure pw) i = Ok fd) ->
  (forall i g, 0 <= i < 3 -> func (pw_closure pw) i g = Throws (err i)) ->
  exists evs,
    startRandomLoop_try CUSTOM_CONTRACTS_COUNT pw stats = (false, stats, evs) /\
    funcCalls evs = [0; 1; 2] /\ delays evs = [1000; 2000].
Proof.
  intros Hq Ha Hfee Hfunc.
  destruct (withRetry_default_all_fail (pw_closure pw) stats err Hfee Hfunc)
    as (Hs & Hr & Hc & Hd).
  unfold startRandomLoop_try, startRandomLoop_switch.
  rewrite (checkAndRebalance_quiet _ _ Hq).
  exists (run_trace (withRetry_default (pw_closure pw) stats)).
  revert Hs Hr Hc Hd.
  destruct (withRetry_default (pw_closure pw) stats) as [[r s1] evs].
  run_simpl. intros -> -> Hc Hd.
  split; [|split; [exact Hc|exact Hd]].
  destruct (pw_action pw); try discriminate; reflexivity.
Qed.

(** An action that cannot succeed is paid for nine times.  When the wallet
    needs no rebalancing and the executor of the action drawn throws in
    every attempt (no pool shares, say, or a balance that is too small),
    the wallet goes through three passes of three attempts each: the
    executor is called nine times, the sleeps are 1 s and 2 s in each pass
    and 5 s between two passes, 19 s in all, and no counter changes. *)
Theorem startRandomLoop_failing_action_costs_nine_attempts :
  forall (passes : nat -> PassWorld) (stats : ActivityStats)
         (err : nat -> Z -> JsError),
    (forall k, (k < 3)%nat ->
       quietWallet (pw_world (passes k)) = true /\
       closureAction (pw_action (passes k)) = true /\
       (forall i, 0 <= i < 3 ->
          exists fd, getFeeData (pw_closure (passes k)) i = Ok fd) /\
       (forall i g, 0 <= i < 3 ->
          func (pw_closure (passes k)) i g = Throws (err k i))) ->
    let run := startRandomLoop_wallet passes stats in
    fst run = stats /\
    funcCalls (snd run) = [0; 1; 2; 0; 1; 2; 0; 1; 2] /\
    delays (snd run) = [1000; 2000; 5000; 1000; 2000; 5000; 1000; 2000].
Proof.
  intros passes stats err H. cbv zeta.
  destruct (H 0%nat ltac:(lia)) as (Hq0 & Ha0 & Hf0 & Hx0).
  destruct (H 1%nat ltac:(lia)) as (Hq1 & Ha1 & Hf1 & Hx1).
  destruct (H 2%nat ltac:(lia)) as (Hq2 & Ha2 & Hf2 & Hx2).
  destruct (startRandomLoop_try_failing (passes 0%nat) stats (err 0%nat)
              Hq0 Ha0 Hf0 Hx0) as (e0 & E0 & C0 & D0).
  destruct (startRandomLoop_try_failing (passes 1%nat) stats (err 1%nat)
              Hq1 Ha1 Hf1 Hx1) as (e1 & E1 & C1 & D1).
  destruct (startRandomLoop_try_failing (passes 2%nat) stats (err 2%nat)
              Hq2 Ha2 Hf2 Hx2) as (e2 & E2 & C2 & D2).
  unfold startRandomLoop_wallet. cbn [startRandomLoop_while].
  rewrite E0, E1, E2. cbn [Nat.ltb Nat.leb fst snd].
  rewrite !funcCalls_app, !delays_app, C0, C1, C2, D0, D1, D2.
  split; [reflexivity|]. split; reflexivity.
Qed.

Lemma startRandomLoop_failing_action_costs_nine_attempts_witness :
  let run := startRandomLoop_wallet (fun _ => pass_remove_without_shares)
               initialStats in
  fst run = initialStats /\
  funcCalls (snd run) = [0; 1; 2; 0; 1; 2; 0; 1; 2] /\
  delays (snd run) = [1000; 2000; 5000; 1000; 2000; 5000; 1000; 2000].
Proof.
  apply (startRandomLoop_failing_action_costs_nine_attempts
           (fun _ => pass_remove_without_shares) initialStats
           (fun _ _ => noShares)).
  intros k _. split; [reflexivity|]. split; [reflexivity|]. split.
  - intros i _. exists feeData_eip1559. reflexivity.
  - intros i g _. reflexivity.
Defined.
